(** * DSscan: the upload-to-prediction pipeline

    A shallow embedding of the services behind the [/dashboard/predict]
    route:

    - [app/services/image_processor.py]  (module [ImageProcessor]),
    - [app/services/inference.py]        (module [InferenceService]),
    - [app/views/dashboard.py]           (module [Dashboard]),

    of the start-up code that loads the model ([app/__init__.py], module
    [App]) and of the administrator's views that delete and download what
    the route has stored ([app/views/records.py], module [Records]).

    Python values are modelled as follows.  A [str] is a [string]; its
    characters are the code points below 256.  A [float] is a binary64
    primitive float, so [>], [-] and [+] are the IEEE operations Python
    applies.  A function that may raise returns an [outcome].  Module-level
    globals, the file system, the database session and the log are fields
    of an explicit state that every effectful function threads through. *)

From Stdlib Require Import Bool List Arith ZArith Lia.
From Stdlib Require Import Ascii String.
From Stdlib Require Import Floats.
Import ListNotations.

Local Open Scope list_scope.
Local Open Scope string_scope.

(** ** Exceptions and results *)

Inductive exn : Type :=
| IndexError
| OSError (msg : string)
| ValueError (msg : string)
| RuntimeError (msg : string)
| RequestException (msg : string)
| OtherException (msg : string).

(** [str(e)] *)
Definition exn_str (e : exn) : string :=
  match e with
  | IndexError => "list index out of range"
  | OSError m | ValueError m | RuntimeError m
  | RequestException m | OtherException m => m
  end.

Inductive outcome (A : Type) : Type :=
| Ok (a : A)
| Raise (e : exn).
Arguments Ok {A} a.
Arguments Raise {A} e.

Definition bind {A B : Type} (r : outcome A) (k : A -> outcome B) : outcome B :=
  match r with
  | Ok a => k a
  | Raise e => Raise e
  end.

Notation "x <- r ;; k" := (bind r (fun x => k))
  (at level 61, r at next level, right associativity).

(** ** The [str] methods the services call *)

Module Py.

(** [s.startswith(pre)] *)
Fixpoint startswith (s pre : string) : bool :=
  match pre with
  | EmptyString => true
  | String a pre' =>
      match s with
      | EmptyString => false
      | String b s' => Ascii.eqb a b && startswith s' pre'
      end
  end.

(** [sub in s] *)
Fixpoint contains (sub s : string) : bool :=
  startswith s sub
  || match s with
     | EmptyString => false
     | String _ s' => contains sub s'
     end.

(** [c in s] for one character [c]. *)
Fixpoint has_char (c : ascii) (s : string) : bool :=
  match s with
  | EmptyString => false
  | String b s' => Ascii.eqb c b || has_char c s'
  end.

(** The scan of [s.replace(old, new)] for a non-empty [old]: left to
    right, an occurrence of [old] is replaced by [new] and the scan
    resumes behind it; [skip] counts the characters of the occurrence
    still to be passed over. *)
Fixpoint replace_scan (old new : string) (skip : nat) (s : string) : string :=
  match s with
  | EmptyString => EmptyString
  | String c s' =>
      match skip with
      | S k => replace_scan old new k s'
      | O =>
          if startswith s old
          then new ++ replace_scan old new (String.length old - 1) s'
          else String c (replace_scan old new 0 s')
      end
  end.

(** With an empty [old], Python puts [new] around every character. *)
Fixpoint intersperse (new s : string) : string :=
  match s with
  | EmptyString => new
  | String c s' => new ++ String c (intersperse new s')
  end.

(** [s.replace(old, new)] *)
Definition replace (s old new : string) : string :=
  match old with
  | EmptyString => intersperse new s
  | String _ _ => replace_scan old new 0 s
  end.

(** [c.isspace()] on the code points below 256. *)
Definition isspace (c : ascii) : bool :=
  let n := nat_of_ascii c in
  (((9 <=? n) && (n <=? 13)) || ((28 <=? n) && (n <=? 32))
   || (n =? 133) || (n =? 160))%nat.

Fixpoint lstrip (s : string) : string :=
  match s with
  | EmptyString => EmptyString
  | String c s' => if isspace c then lstrip s' else s
  end.

Fixpoint rstrip (s : string) : string :=
  match s with
  | EmptyString => EmptyString
  | String c s' =>
      match rstrip s' with
      | EmptyString => if isspace c then EmptyString else String c EmptyString
      | r => String c r
      end
  end.

(** [s.strip()] *)
Definition strip (s : string) : string := rstrip (lstrip s).

(** [c.lower()] on the code points below 256: the ASCII capitals and the
    Latin-1 capitals (all of 192..222 but the multiplication sign). *)
Definition lower_char (c : ascii) : ascii :=
  let n := nat_of_ascii c in
  if (((65 <=? n) && (n <=? 90))
      || ((192 <=? n) && (n <=? 222) && negb (n =? 215)))%nat
  then ascii_of_nat (n + 32)
  else c.

(** [s.lower()] *)
Fixpoint lower (s : string) : string :=
  match s with
  | EmptyString => EmptyString
  | String c s' => String (lower_char c) (lower s')
  end.

(** [s.upper()], as far as the extensions of the allow-set need it. *)
Definition upper_char (c : ascii) : ascii :=
  let n := nat_of_ascii c in
  if ((97 <=? n) && (n <=? 122))%nat then ascii_of_nat (n - 32) else c.

Fixpoint upper (s : string) : string :=
  match s with
  | EmptyString => EmptyString
  | String c s' => String (upper_char c) (upper s')
  end.

(** The cut of [s] at the last occurrence of the character [sep]. *)
Fixpoint rcut (sep : ascii) (s : string) : option (string * string) :=
  match s with
  | EmptyString => None
  | String c s' =>
      match rcut sep s' with
      | Some (h, t) => Some (String c h, t)
      | None => if Ascii.eqb c sep then Some (EmptyString, s') else None
      end
  end.

(** [s.rsplit(sep, 1)] for a one-character [sep]. *)
Definition rsplit1 (s : string) (sep : ascii) : list string :=
  match rcut sep s with
  | Some (h, t) => [h; t]
  | None => [s]
  end.

(** [l[i]] *)
Definition index {A : Type} (l : list A) (i : nat) : outcome A :=
  match nth_error l i with
  | Some a => Ok a
  | None => Raise IndexError
  end.

(** [x in l] for a collection of strings. *)
Definition mem (x : string) (l : list string) : bool :=
  existsb (String.eqb x) l.

(** [sep.join(l)] *)
Fixpoint join (sep : string) (l : list string) : string :=
  match l with
  | [] => EmptyString
  | [x] => x
  | x :: l' => x ++ sep ++ join sep l'
  end.

(** Truthiness of an optional string ([None] and [''] are falsy). *)
Definition truthy (o : option string) : bool :=
  match o with
  | Some (String _ _) => true
  | _ => false
  end.

(** [a or b] on strings. *)
Definition or_else (a b : string) : string :=
  match a with
  | EmptyString => b
  | _ => a
  end.

End Py.

(** ** Pillow images

    The services only build images through a handful of Pillow calls.  An
    [image] records which calls produced it; its mode and size follow from
    them.  Decoding is lazy in Pillow: [Image.open] reads the header, and
    the pixel data is read by the first call that needs it, which raises on
    a truncated payload. *)

Module PIL.

(** What [Image.open] is given. *)
Inductive source : Type :=
| FilePath (path : string)
| Bytes (content : list ascii).

Inductive image : Type :=
| Opened (src : source) (mode : string) (size : nat * nat) (intact : bool)
| New (mode : string) (size : nat * nat) (color : nat * nat * nat)
| Pasted (background img mask : image)
| Band (img : image) (i : nat)
| Converted (img : image) (mode : string)
| Resized (img : image) (size : nat * nat) (resample : string).

(** [img.mode] *)
Fixpoint mode (img : image) : string :=
  match img with
  | Opened _ m _ _ => m
  | New m _ _ => m
  | Pasted background _ _ => mode background
  | Band _ _ => "L"
  | Converted _ m => m
  | Resized img' _ _ => mode img'
  end.

(** [img.size] *)
Fixpoint size (img : image) : nat * nat :=
  match img with
  | Opened _ _ sz _ => sz
  | New _ sz _ => sz
  | Pasted background _ _ => size background
  | Band img' _ => size img'
  | Converted img' _ => size img'
  | Resized _ sz _ => sz
  end.

(** Whether the pixel data behind [img] can be read. *)
Fixpoint loadable (img : image) : bool :=
  match img with
  | Opened _ _ _ intact => intact
  | New _ _ _ => true
  | Pasted background img' mask => loadable background && loadable img' && loadable mask
  | Band img' _ => loadable img'
  | Converted img' _ => loadable img'
  | Resized img' _ _ => loadable img'
  end.

(** The modes with an alpha band (Pillow's [has_transparency_data]
    looks for exactly these). *)
Definition alpha_modes : list string := ["LA"; "La"; "PA"; "RGBA"; "RGBa"].

Definition has_alpha (img : image) : bool := Py.mem (mode img) alpha_modes.

Definition truncated : exn := OSError "image file is truncated".

(** [len(img.getbands())] *)
Definition bands (img : image) : nat :=
  let m := mode img in
  if Py.mem m ["1"; "L"; "P"; "I"; "F"; "I;16"] then 1
  else if Py.mem m ["LA"; "La"; "PA"] then 2
  else if Py.mem m ["RGB"; "YCbCr"; "LAB"; "HSV"] then 3
  else 4.

(** [img.split()] *)
Definition split (img : image) : outcome (list image) :=
  if loadable img
  then Ok (map (Band img) (seq 0 (bands img)))
  else Raise truncated.

(** [Image.new(mode, size, color)] *)
Definition new (m : string) (sz : nat * nat) (color : nat * nat * nat) : image :=
  New m sz color.

(** [background.paste(img, mask=mask)]: the background afterwards. *)
Definition paste (background img mask : image) : outcome image :=
  if loadable img && loadable mask
  then Ok (Pasted background img mask)
  else Raise truncated.

(** [img.convert(mode)] *)
Definition convert (img : image) (m : string) : outcome image :=
  if loadable img then Ok (Converted img m) else Raise truncated.

(** [img.resize(size, resample)] *)
Definition resize (img : image) (sz : nat * nat) (resample : string) : outcome image :=
  if loadable img then Ok (Resized img sz resample) else Raise truncated.

(** What happened to the pixels of the opened image on the way to [img]:
    composited over a background of one colour, or converted directly. *)
Definition composited_on (color : nat * nat * nat) (src img : image) : Prop :=
  img = Pasted (New "RGB" (size src) color) src (Band src 3).

Definition converted_directly (src img : image) : Prop :=
  img = Converted src "RGB".

End PIL.

(** ** [app/services/image_processor.py] *)

Module ImageProcessor.

Definition ALLOWED_EXTENSIONS : list string :=
  ["jpg"; "jpeg"; "png"; "gif"; "bmp"; "webp"; "tiff"; "tif"; "heic"; "heif"].

Definition TARGET_SIZE : nat * nat := (224, 224).

Definition dot : ascii := "."%char.

(** [is_allowed_file(filename)] *)
Definition is_allowed_file (filename : string) : outcome bool :=
  if negb (Py.contains "." filename) then Ok false
  else
    suffix <- Py.index (Py.rsplit1 filename dot) 1 ;;
    let ext := Py.lower suffix in
    Ok (Py.mem ext ALLOWED_EXTENSIONS).

(** [get_extension(filename)] *)
Definition get_extension (filename : string) : outcome string :=
  if Py.contains "." filename then
    suffix <- Py.index (Py.rsplit1 filename dot) 1 ;;
    Ok (Py.lower suffix)
  else Ok "".

(** The list [dangerous_chars] of [sanitize_filename], in its order. *)
Definition dangerous_chars : list string :=
  ["/"; "\"; ".."; "<"; ">"; ":"; String "034" ""; "|"; "?"; "*"; String "000" ""].

(** [sanitize_filename(filename)]: the [for] loop is a left fold of
    [replace] over [dangerous_chars], followed by [strip]. *)
Definition sanitize_filename (filename : string) : string :=
  let sanitized :=
    fold_left (fun sanitized char => Py.replace sanitized char "")
              dangerous_chars filename in
  Py.strip sanitized.

(** [load_image(file_path_or_bytes)]; [image_open] is Pillow's
    [Image.open], which reads either kind of source. *)
Definition load_image (image_open : PIL.source -> outcome PIL.image)
           (file_path_or_bytes : PIL.source) : outcome PIL.image :=
  let body :=
    img <- image_open file_path_or_bytes ;;
    if negb (String.eqb (PIL.mode img) "RGB") then
      if String.eqb (PIL.mode img) "RGBA" then
        let background := PIL.new "RGB" (PIL.size img) (255, 255, 255) in
        channels <- PIL.split img ;;
        mask <- Py.index channels 3 ;;
        background' <- PIL.paste background img mask ;;
        Ok background'
      else
        PIL.convert img "RGB"
    else Ok img in
  match body with
  | Ok img => Ok img
  | Raise e => Raise (ValueError ("Gagal memuat gambar: " ++ exn_str e))
  end.

(** The array handed to the model: the image it was computed from,
    scaled by 1/255, under one batch axis. *)
Record tensor : Type := { pixels_of : PIL.image; batch : nat }.

(** [preprocess_for_model(image)] on a Pillow image, with the default
    [target_size]. *)
Definition preprocess_for_model (image : PIL.image) : outcome tensor :=
  let target_size := TARGET_SIZE in
  image' <- PIL.resize image target_size "LANCZOS" ;;
  Ok {| pixels_of := image'; batch := 1 |}.

(** [validate_file_size(file_bytes, max_size_mb)]; the message is
    abridged, the source also prints the two sizes in megabytes. *)
Definition validate_file_size (file_bytes : list ascii) (max_size_mb : nat)
  : bool * string :=
  let file_size := List.length file_bytes in
  let max_size := max_size_mb * 1024 * 1024 in
  if (max_size <? file_size)%nat
  then (false, "Ukuran file terlalu besar.")
  else (true, "OK").

(** A file written by [image.save]. *)
Record stored_file : Type := {
  stored_path : string;
  stored_image : PIL.image;
  stored_format : string;
  stored_quality : option nat;
  stored_optimize : bool
}.

(** [save_image(image, file_path, format, quality=95)]; [write] tells
    whether creating the directory and writing the file at a path raises
    (disk full, permission).  The second component is the upload
    directory afterwards. *)
Definition save_image (write : string -> option exn)
           (image : PIL.image) (file_path format : string)
           (disk : list stored_file) : outcome bool * list stored_file :=
  let quality := 95 in
  let body :=
    image' <- (if String.eqb (Py.upper format) "JPEG"
                  && negb (String.eqb (PIL.mode image) "RGB")
               then PIL.convert image "RGB" else Ok image) ;;
    match write file_path with
    | Some e => Raise e
    | None =>
        if PIL.loadable image' then
          Ok (if String.eqb (Py.upper format) "JPEG" then
                {| stored_path := file_path; stored_image := image';
                   stored_format := format; stored_quality := Some quality;
                   stored_optimize := true |}
              else if String.eqb (Py.upper format) "PNG" then
                {| stored_path := file_path; stored_image := image';
                   stored_format := format; stored_quality := None;
                   stored_optimize := true |}
              else
                {| stored_path := file_path; stored_image := image';
                   stored_format := format; stored_quality := None;
                   stored_optimize := false |})
        else Raise PIL.truncated
    end in
  match body with
  | Ok f => (Ok true, (disk ++ [f])%list)
  | Raise e => (Raise (ValueError ("Gagal menyimpan gambar: " ++ exn_str e)), disk)
  end.

End ImageProcessor.

(** ** [app/services/inference.py] *)

Module InferenceService.

(** A loaded Keras model; [model_id] tells one loaded object from
    another, the two shapes are what the log lines print. *)
Record keras_model : Type := {
  model_id : nat;
  input_shape : string;
  output_shape : string
}.

(** The module-level globals. *)
Record globals : Type := {
  _model : option keras_model;
  _model_loaded : bool
}.

(** What the service does to the world outside the two globals. *)
Inductive event : Type :=
| PathExists (path : string)
| HttpGet (url : string)
| FileWrite (path : string)
| KerasLoad (path : string)
| Log (level msg : string).

Record world : Type := {
  holder : globals;
  files : list string;
  trace : list event
}.

Definition unset : globals := {| _model := None; _model_loaded := false |}.

Definition emit (ev : event) (w : world) : world :=
  {| holder := holder w; files := files w; trace := trace w ++ [ev] |}.

Definition set_holder (g : globals) (w : world) : world :=
  {| holder := g; files := files w; trace := trace w |}.

Definition create_file (path : string) (w : world) : world :=
  emit (FileWrite path)
       {| holder := holder w; files := path :: files w; trace := trace w |}.

(** [os.path.exists(path)] *)
Definition exists_ (path : string) (w : world) : bool * world :=
  (Py.mem path (files w), emit (PathExists path) w).

(** How the outside answers one call: the HTTP download, the [try]
    block of [initialize_model], and [model.predict]. *)
Inductive download_outcome : Type :=
| DownloadCompletes
| MakedirsRaises (e : exn)
| RequestRaises (e : exn)
| WriteRaises (e : exn).

Inductive try_outcome : Type :=
| ImportRaises (e : exn)
| GpuConfigRaises (e : exn)
| LoadRaises (e : exn)
| RaisesAfterLoad (m : keras_model) (e : exn)
| Loads (m : keras_model).

Record oracle : Type := {
  download : download_outcome;
  gpus : list string;
  loading : try_outcome;
  run : keras_model -> ImageProcessor.tensor -> outcome float
}.

(** [is_model_available()], also the test both entry points start with:
    [_model_loaded and _model is not None]. *)
Definition is_model_available (g : globals) : bool :=
  _model_loaded g && match _model g with Some _ => true | None => false end.

(** The message of the [except] clause that catches [e] in
    [download_model]. *)
Definition download_error (e : exn) : string :=
  match e with
  | RequestException m => "Failed to download model: " ++ m
  | _ => "Error during model download: " ++ exn_str e
  end.

(** [download_model(url, destination)]; the file exists from the moment
    it is opened for writing, whether or not the transfer completes. *)
Definition download_model (o : oracle) (url : option string) (destination : string)
           (w : world) : bool * world :=
  match url with
  | Some (String _ _ as u) =>
      let w := emit (Log "info" ("Downloading model from " ++ u ++ "...")) w in
      match download o with
      | MakedirsRaises e =>
          (false, emit (Log "error" (download_error e)) w)
      | RequestRaises e =>
          let w := emit (HttpGet u) w in
          (false, emit (Log "error" (download_error e)) w)
      | WriteRaises e =>
          let w := emit (HttpGet u) w in
          let w := create_file destination w in
          (false, emit (Log "error" (download_error e)) w)
      | DownloadCompletes =>
          let w := emit (HttpGet u) w in
          let w := create_file destination w in
          (true, emit (Log "info" ("Model downloaded successfully to " ++ destination)) w)
      end
  | _ => (false, emit (Log "error" "Model download URL not configured") w)
  end.

(** The log line about the devices TensorFlow lists. *)
Definition log_devices (o : oracle) (w : world) : world :=
  match gpus o with
  | [] => emit (Log "info" "No GPU detected, using CPU") w
  | _ :: _ => emit (Log "info" ("GPU detected: " ++ Py.join ", " (gpus o))) w
  end.

(** The two assignments [_model = ...] and [_model_loaded = True]. *)
Definition assign_model (m : keras_model) (w : world) : world :=
  let w := set_holder {| _model := Some m; _model_loaded := _model_loaded (holder w) |} w in
  set_holder {| _model := _model (holder w); _model_loaded := true |} w.

(** The [try] block of [initialize_model] with its [except] clause. *)
Definition try_load (o : oracle) (model_path : string) (w : world)
  : option keras_model * world :=
  let fail e w :=
    let w := emit (Log "error" ("Failed to load model: " ++ exn_str e)) w in
    (None, set_holder {| _model := None; _model_loaded := false |} w) in
  match loading o with
  | ImportRaises e => fail e w
  | GpuConfigRaises e =>
      let w := log_devices o w in
      fail e w
  | LoadRaises e =>
      let w := log_devices o w in
      let w := emit (Log "info" ("Loading model from " ++ model_path ++ "...")) w in
      let w := emit (KerasLoad model_path) w in
      fail e w
  | RaisesAfterLoad m e =>
      let w := log_devices o w in
      let w := emit (Log "info" ("Loading model from " ++ model_path ++ "...")) w in
      let w := emit (KerasLoad model_path) w in
      let w := assign_model m w in
      let w := emit (Log "info" "Model loaded successfully") w in
      fail e w
  | Loads m =>
      let w := log_devices o w in
      let w := emit (Log "info" ("Loading model from " ++ model_path ++ "...")) w in
      let w := emit (KerasLoad model_path) w in
      let w := assign_model m w in
      let w := emit (Log "info" "Model loaded successfully") w in
      let w := emit (Log "info" ("Model input shape: " ++ input_shape m)) w in
      let w := emit (Log "info" ("Model output shape: " ++ output_shape m)) w in
      (_model (holder w), w)
  end.

(** [initialize_model(model_path, download_url)] *)
Definition initialize_model (o : oracle) (model_path : string)
           (download_url : option string) (w : world)
  : option keras_model * world :=
  if is_model_available (holder w) then (_model (holder w), w)
  else
    let (present, w) := exists_ model_path w in
    if negb present then
      let w := emit (Log "warning" ("Model not found at " ++ model_path)) w in
      if Py.truthy download_url then
        let w := emit (Log "info" "Attempting to download model...") w in
        let (ok, w) := download_model o download_url model_path w in
        if negb ok
        then (None, emit (Log "error" "Failed to download model") w)
        else try_load o model_path w
      else (None, emit (Log "error" "No model download URL configured") w)
    else try_load o model_path w.

(** The two entries of [current_app.config] that [load_model] reads. *)
Record config : Type := {
  MODEL_PATH : string;
  MODEL_DOWNLOAD_URL : option string
}.

(** [load_model(model_path=None, download_url=None)] *)
Definition load_model (o : oracle) (cfg : config)
           (model_path download_url : option string) (w : world)
  : option keras_model * world :=
  if is_model_available (holder w) then (_model (holder w), w)
  else
    let w := emit (Log "warning" "Model was not preloaded, loading now...") w in
    let model_path :=
      match model_path with
      | None => MODEL_PATH cfg
      | Some p => p
      end in
    let download_url :=
      match download_url with
      | None => MODEL_DOWNLOAD_URL cfg
      | Some u => Some u
      end in
    initialize_model o model_path download_url w.

(** The dictionary [predict] returns. *)
Record prediction : Type := {
  class : string;
  confidence : float;
  raw_probability : float;
  probabilities : list (string * float)
}.

(** [d[key]] on the [probabilities] dictionary. *)
Fixpoint getitem (d : list (string * float)) (key : string) : option float :=
  match d with
  | [] => None
  | (k, v) :: d' => if String.eqb k key then Some v else getitem d' key
  end.

(** The interpretation of the sigmoid output: the [if]/[else] of
    [predict] and the dictionary built after it. *)
Definition interpret (prob_value : float) : prediction :=
  let (result_class, confidence) :=
    if (0.5 <? prob_value)%float
    then ("Normal", prob_value)
    else ("Down Syndrome", (1 - prob_value)%float) in
  {| class := result_class;
     confidence := confidence;
     raw_probability := prob_value;
     probabilities :=
       [("Normal", prob_value); ("Down Syndrome", (1 - prob_value)%float)] |}.

(** [predict(preprocessed_image)] *)
Definition predict (o : oracle) (cfg : config)
           (preprocessed_image : ImageProcessor.tensor) (w : world)
  : outcome prediction * world :=
  let (model, w) := load_model o cfg None None w in
  match model with
  | None => (Raise (RuntimeError "Model tidak tersedia. Silakan hubungi administrator."), w)
  | Some model =>
      match run o model preprocessed_image with
      | Ok prob_value => (Ok (interpret prob_value), w)
      | Raise e =>
          let w := emit (Log "error" ("Prediction error: " ++ exn_str e)) w in
          (Raise (RuntimeError ("Gagal melakukan prediksi: " ++ exn_str e)), w)
      end
  end.

(** The label that lost. *)
Definition other_class (label : string) : string :=
  if String.eqb label "Normal" then "Down Syndrome" else "Normal".

(** Python's [max(a, b)] on floats: [b] when [b > a], else [a]. *)
Definition fmax (a b : float) : float := if (a <? b)%float then b else a.

(** The two states the globals are meant to be in: nothing cached, or a
    model cached and flagged. *)
Definition loaded_with (m : keras_model) : globals :=
  {| _model := Some m; _model_loaded := true |}.

Definition consistent (g : globals) : Prop :=
  g = unset \/ exists m, g = loaded_with m.

(** The states the two globals can be in: before any call, and after
    any sequence of calls of the two entry points. *)
Inductive reachable : world -> Prop :=
| reach_start (fs : list string) :
    reachable {| holder := unset; files := fs; trace := [] |}
| reach_initialize o model_path download_url w :
    reachable w ->
    reachable (snd (initialize_model o model_path download_url w))
| reach_load o cfg model_path download_url w :
    reachable w ->
    reachable (snd (load_model o cfg model_path download_url w)).

End InferenceService.

(** ** [app/views/dashboard.py] *)

Module Dashboard.

(** [datetime] values, and [strftime('%Y%m%d_%H%M%S')] on them. *)
Record datetime : Type := {
  year : nat; month : nat; day : nat;
  hour : nat; minute : nat; second : nat
}.

Definition digit (n : nat) : ascii := ascii_of_nat (48 + n mod 10).

Definition digits2 (n : nat) : string :=
  String (digit (n / 10)) (String (digit n) "").

Definition digits4 (n : nat) : string :=
  String (digit (n / 1000)) (String (digit (n / 100)) (digits2 n)).

Definition strftime (t : datetime) : string :=
  digits4 (year t) ++ digits2 (month t) ++ digits2 (day t) ++ "_"
  ++ digits2 (hour t) ++ digits2 (minute t) ++ digits2 (second t).

(** [os.path.join(a, b)] *)
Fixpoint endswith_slash (a : string) : bool :=
  match a with
  | EmptyString => false
  | String c EmptyString => Ascii.eqb c "/"
  | String _ a' => endswith_slash a'
  end.

Definition path_join (a b : string) : string :=
  if Py.startswith b "/" then b
  else if String.eqb a "" || endswith_slash a then a ++ b
  else a ++ "/" ++ b.

(** The row of table [predictions] ([app/models/prediction.py]); the
    primary key is the position in the table. *)
Record Prediction : Type := {
  user_id : nat;
  filename : string;
  original_filename : string;
  result_class : string;
  confidence : float;
  created_at : datetime
}.

(** [request.files['file']] and [current_user]. *)
Record upload : Type := { upload_filename : string; upload_content : list ascii }.
Record request : Type := { file : option upload }.
Record user : Type := { id : nat; username : string }.

(** What the view function is run against.  [disk_write] tells whether
    writing a file at a path raises, [db_commit] whether
    [db.session.commit()] raises for a row (the engine refuses it, the
    database is locked or full). *)
Record env : Type := {
  image_open : PIL.source -> outcome PIL.image;
  model_oracle : InferenceService.oracle;
  model_config : InferenceService.config;
  UPLOAD_FOLDER : string;
  utcnow : datetime;
  secure_filename : string -> string;
  disk_write : string -> option exn;
  db_commit : Prediction -> option exn
}.

(** What it changes. *)
Record state : Type := {
  service : InferenceService.world;
  session : list Prediction;
  uploads : list ImageProcessor.stored_file;
  logger : list (string * string)
}.

Definition with_service (w : InferenceService.world) (st : state) : state :=
  {| service := w; session := session st; uploads := uploads st; logger := logger st |}.

Definition with_uploads (u : list ImageProcessor.stored_file) (st : state) : state :=
  {| service := service st; session := session st; uploads := u; logger := logger st |}.

Definition log (level msg : string) (st : state) : state :=
  {| service := service st; session := session st; uploads := uploads st;
     logger := logger st ++ [(level, msg)] |}.

(** [db.session.add(prediction); db.session.commit()]: the row is in the
    table afterwards, unless the commit raises; then the table is as it
    was. *)
Definition commit (e : env) (p : Prediction) (st : state) : outcome state :=
  match db_commit e p with
  | Some x => Raise x
  | None =>
      Ok {| service := service st; session := session st ++ [p]; uploads := uploads st;
            logger := logger st |}
  end.

(** The JSON answer with its HTTP status. *)
Record response : Type := {
  status : nat;
  success : bool;
  error : option string;
  result_of : option InferenceService.prediction
}.

Definition failure (code : nat) (msg : string) : response :=
  {| status := code; success := false; error := Some msg; result_of := None |}.

(** The naming of the stored image, lines 94 to 113 of the view. *)
Definition stored_extension (ext0 : string) : string :=
  let ext := Py.or_else ext0 "jpg" in
  if Py.mem (Py.lower ext) ["heic"; "heif"] then "jpg" else ext.

Definition stored_name (class_name timestamp username ext : string) : string :=
  class_name ++ "_" ++ timestamp ++ "_" ++ username ++ "." ++ ext.

Definition save_format_of (ext : string) : string :=
  let save_format :=
    if Py.mem (Py.lower ext) ["jpg"; "jpeg"] then "JPEG" else Py.upper ext in
  if String.eqb save_format "TIF" then "TIFF" else save_format.

(** The body of the outer [try] of [predict], from the inference result
    on. *)
Definition store_and_record (e : env) (u : user) (original_filename : string)
           (image : PIL.image) (result : InferenceService.prediction) (st : state)
  : outcome response * state :=
  let timestamp := strftime (utcnow e) in
  let class_name := Py.replace (InferenceService.class result) " " "" in
  let username := secure_filename e (username u) in
  match ImageProcessor.get_extension original_filename with
  | Raise x => (Raise x, st)
  | Ok ext0 =>
      let ext := stored_extension ext0 in
      let new_filename := stored_name class_name timestamp username ext in
      let upload_folder := UPLOAD_FOLDER e in
      let file_path := path_join upload_folder new_filename in
      let save_format := save_format_of ext in
      let (saved, disk) :=
        ImageProcessor.save_image (disk_write e) image file_path save_format (uploads st) in
      let st := with_uploads disk st in
      match
        match saved with
        | Ok _ => Ok st
        | Raise (ValueError m) => Ok (log "error" ("Failed to save image: " ++ m) st)
        | Raise x => Raise x
        end
      with
      | Raise x => (Raise x, st)
      | Ok st =>
          let prediction :=
            {| user_id := id u;
               filename := new_filename;
               original_filename := original_filename;
               result_class := InferenceService.class result;
               confidence := InferenceService.confidence result;
               created_at := utcnow e |} in
          match commit e prediction st with
          | Raise x => (Raise x, st)
          | Ok st =>
              (* the source's line also prints the confidence as a percentage *)
              let st := log "info" ("Prediction: " ++ InferenceService.class result
                                    ++ " by " ++ Dashboard.username u) st in
              (Ok {| status := 200; success := true; error := None;
                     result_of := Some result |}, st)
          end
      end
  end.

(** The body of the outer [try] of [predict]. *)
Definition predict_body (e : env) (u : user) (req : request) (st : state)
  : outcome response * state :=
  match file req with
  | None => (Ok (failure 400 "Tidak ada file yang diunggah."), st)
  | Some file =>
      if String.eqb (upload_filename file) ""
      then (Ok (failure 400 "Tidak ada file yang dipilih."), st)
      else
        let original_filename := ImageProcessor.sanitize_filename (upload_filename file) in
        match ImageProcessor.is_allowed_file original_filename with
        | Raise x => (Raise x, st)
        | Ok false =>
            (Ok (failure 400 ("Format file tidak didukung. Format yang didukung: "
                              ++ Py.join ", " ImageProcessor.ALLOWED_EXTENSIONS)), st)
        | Ok true =>
            let file_bytes := upload_content file in
            let (is_valid, message) := ImageProcessor.validate_file_size file_bytes 10 in
            if negb is_valid then (Ok (failure 400 message), st)
            else
              match ImageProcessor.load_image (image_open e) (PIL.Bytes file_bytes) with
              | Raise (ValueError m) => (Ok (failure 400 m), st)
              | Raise x => (Raise x, st)
              | Ok image =>
                  match ImageProcessor.preprocess_for_model image with
                  | Raise x => (Raise x, st)
                  | Ok preprocessed =>
                      let (r, w) :=
                        InferenceService.predict (model_oracle e) (model_config e)
                                                 preprocessed (service st) in
                      let st := with_service w st in
                      match r with
                      | Raise (RuntimeError m) =>
                          (Ok (failure 500 m), log "error" ("Inference error: " ++ m) st)
                      | Raise x => (Raise x, st)
                      | Ok result => store_and_record e u original_filename image result st
                      end
                  end
              end
        end
  end.

(** [predict()]: the view function with its outer [except Exception]. *)
Definition predict (e : env) (u : user) (req : request) (st : state)
  : response * state :=
  match predict_body e u req st with
  | (Ok r, st) => (r, st)
  | (Raise x, st) =>
      (failure 500 "Terjadi kesalahan internal. Silakan coba lagi.",
       log "error" ("Unexpected error in prediction: " ++ exn_str x) st)
  end.

End Dashboard.


(** ** Binary64 numbers

    Python's [float] is IEEE binary64, and so is the primitive [float];
    [Prim2SF] gives the sign, mantissa and exponent of one.  The names
    below are for the mantissa of 1.0 and of 0.5, for these two numbers,
    and for rounding to nearest with ties to even: [rne q0 rem half] is
    the rounded quotient when [q0] is the quotient, [rem] the remainder
    and [half] half the divisor. *)

Module Binary64.

Definition two52 : positive := 4503599627370496.

Definition one_sf : spec_float := S754_finite false two52 (-52).

Definition half_sf : spec_float := S754_finite false two52 (-53).

Definition rne (q0 rem half : Z) : Z :=
  (if rem <? half then q0
   else if rem =? half then (if Z.even q0 then q0 else q0 + 1)
   else q0 + 1)%Z.

(** [0 <= p <= 1] *)
Definition unit_interval (p : float) : Prop :=
  (0 <=? p)%float = true /\ (p <=? 1)%float = true.

End Binary64.

(** ** Sample inputs *)

Module Sample.

(** A 2x2 grey image with an alpha band, and a 2x2 RGBA image, as
    [Image.open] hands them over. *)
Definition grey_alpha : PIL.image := PIL.Opened (PIL.Bytes []) "LA" (2, 2) true.

Definition rgba : PIL.image := PIL.Opened (PIL.Bytes []) "RGBA" (2, 2) true.

Definition white : nat * nat * nat := (255, 255, 255).

(** A run of the service in which the model file is on disk and Keras
    loads it, and one in which nothing is on disk and the download breaks
    off. *)
Definition model_path : string := "/srv/models/InceptionResNetV2.keras".

Definition the_model : InferenceService.keras_model :=
  {| InferenceService.model_id := 1;
     InferenceService.input_shape := "(None, 224, 224, 3)";
     InferenceService.output_shape := "(None, 1)" |}.

Definition score (p : float) (_ : InferenceService.keras_model)
           (_ : ImageProcessor.tensor) : outcome float := Ok p.

Definition loads : InferenceService.oracle :=
  {| InferenceService.download := InferenceService.DownloadCompletes;
     InferenceService.gpus := [];
     InferenceService.loading := InferenceService.Loads the_model;
     InferenceService.run := score 0.875%float |}.

Definition offline : InferenceService.oracle :=
  {| InferenceService.download :=
       InferenceService.WriteRaises (RequestException "connection reset");
     InferenceService.gpus := [];
     InferenceService.loading := InferenceService.LoadRaises (OSError "file signature not found");
     InferenceService.run := score 0.875%float |}.

(** The binary64 number nearest to one tenth; one minus it is rounded. *)
Definition one_tenth : float := 0x1.999999999999ap-4.

Definition cold (fs : list string) : InferenceService.world :=
  {| InferenceService.holder := InferenceService.unset;
     InferenceService.files := fs;
     InferenceService.trace := [] |}.

(** Scenario A: user alice uploads an opaque 500x500 PNG; once with a
    working disk, once with a full one. *)
Definition opaque_png : PIL.image := PIL.Opened (PIL.Bytes []) "RGB" (500, 500) true.

Definition studio (write : string -> option exn) : Dashboard.env :=
  {| Dashboard.image_open := fun _ => Ok opaque_png;
     Dashboard.model_oracle := loads;
     Dashboard.model_config :=
       {| InferenceService.MODEL_PATH := model_path;
          InferenceService.MODEL_DOWNLOAD_URL := None |};
     Dashboard.UPLOAD_FOLDER := "/srv/uploads";
     Dashboard.utcnow :=
       {| Dashboard.year := 2026; Dashboard.month := 3; Dashboard.day := 7;
          Dashboard.hour := 9; Dashboard.minute := 5; Dashboard.second := 30 |};
     Dashboard.secure_filename := fun name => name;
     Dashboard.disk_write := write;
     Dashboard.db_commit := fun _ => None |}.

Definition disk_ok (_ : string) : option exn := None.

Definition disk_full (_ : string) : option exn :=
  Some (OSError "No space left on device").

Definition alice : Dashboard.user :=
  {| Dashboard.id := 3; Dashboard.username := "alice" |}.

Definition png_upload : Dashboard.request :=
  {| Dashboard.file :=
       Some {| Dashboard.upload_filename := "face.png";
               Dashboard.upload_content := [] |} |}.

Definition fresh : Dashboard.state :=
  {| Dashboard.service := cold [model_path];
     Dashboard.session := [];
     Dashboard.uploads := [];
     Dashboard.logger := [] |}.

End Sample.


(** ** [app/__init__.py]: loading the model at start-up *)

Module App.

(** [preload_model(app)]: the lines it prints itself and what it does to
    the world.  The lines are without their pictograms, the rules of [=]
    around them and the size after [Model file found]; the line about the
    device that [initialize_model] prints in between is not among them.
    [initialize_model] catches what its body raises, so the [except] clause
    around the call has nothing to catch. *)
Definition preload_model (o : InferenceService.oracle) (config : InferenceService.config)
           (w : InferenceService.world) : list string * InferenceService.world :=
  let model_path := InferenceService.MODEL_PATH config in
  let download_url := InferenceService.MODEL_DOWNLOAD_URL config in
  let out := ["LOADING ML MODEL"; "Model path: " ++ model_path] in
  let (present, w) := InferenceService.exists_ model_path w in
  let proceed (out : list string) (w : InferenceService.world) :=
    let out := (out ++ ["Loading model into memory..."])%list in
    let (model, w) := InferenceService.initialize_model o model_path download_url w in
    match model with
    | Some model =>
        ((out ++ ["Model loaded successfully!";
                  ("Input shape: " ++ InferenceService.input_shape model)%string;
                  ("Output shape: " ++ InferenceService.output_shape model)%string])%list, w)
    | None => ((out ++ ["Failed to load model"])%list, w)
    end in
  if present then proceed (out ++ ["Model file found"])%list w
  else
    let out := (out ++ ["Model file not found"])%list in
    match download_url with
    | Some (String _ _ as url) =>
        proceed (out ++ [("Download URL configured: "
                          ++ String.substring 0 50 url ++ "...")%string])%list w
    | _ => ((out ++ ["No download URL configured!"])%list, w)
    end.

End App.

(** ** [app/views/records.py]

    The bodies of the views behind [login_required] and [admin_required],
    run against the table [predictions] with its primary keys, the paths
    that exist on disk, the log and the flashed messages. *)

Module Records.

Record row : Type := { pk : nat; prediction : Dashboard.Prediction }.

Record store : Type := {
  table : list row;
  folder : list string;
  journal : list (string * string);
  flashes : list (string * string)
}.

(** What the views are run against: the folder of the configuration, the
    clock, and whether [os.remove] raises [OSError] at a path (and with
    what message). *)
Record env : Type := {
  UPLOAD_FOLDER : string;
  utcnow : Dashboard.datetime;
  remove_error : string -> option string
}.

Inductive reply : Type :=
| Abort (code : nat)
| Redirect (endpoint : string)
| JsonError (status : nat) (message : string)
| JsonDeleted (deleted : nat)
| SendZip (download_name : string) (entries : list (string * string)).

Definition log (level msg : string) (st : store) : store :=
  {| table := table st; folder := folder st;
     journal := journal st ++ [(level, msg)]; flashes := flashes st |}.





(** [Prediction.query.filter(Prediction.id.in_(prediction_ids)).all()] *)
Definition with_ids (ids : list nat) (st : store) : list row :=
  filter (fun r => existsb (Nat.eqb (pk r)) ids) (table st).





(** The entries written into the archive: the files that exist, each
    under the name its row has. *)
Definition archive (e : env) (predictions : list row) (st : store)
  : list (string * string) :=
  flat_map
    (fun r =>
       let file_path := Dashboard.path_join (UPLOAD_FOLDER e)
                                            (Dashboard.filename (prediction r)) in
       if Py.mem file_path (folder st)
       then [(file_path, Dashboard.filename (prediction r))]
       else [])
    predictions.

(** [download_selected()] *)
Definition download_selected (e : env) (prediction_ids : list nat) (st : store)
  : reply * store :=
  match prediction_ids with
  | [] => (JsonError 400 "Tidak ada gambar yang dipilih", st)
  | _ :: _ =>
      match with_ids prediction_ids st with
      | [] => (JsonError 404 "Gambar tidak ditemukan", st)
      | predictions =>
          let timestamp := Dashboard.strftime (utcnow e) in
          (SendZip ("brightstart_images_" ++ timestamp ++ ".zip")
                   (archive e predictions st), st)
      end
  end.

(** The table and the folder as the upload view leaves them when no row
    was ever deleted: the rows have the keys 1, 2, ... in the order they
    were committed, the folder holds the paths written. *)
Fixpoint number (next : nat) (l : list Dashboard.Prediction) : list row :=
  match l with
  | [] => []
  | p :: l' => {| pk := next; prediction := p |} :: number (S next) l'
  end.

Definition after_uploads (st : Dashboard.state) : store :=
  {| table := number 1 (Dashboard.session st);
     folder := map ImageProcessor.stored_path (Dashboard.uploads st);
     journal := Dashboard.logger st;
     flashes := [] |}.

End Records.

(** ** What a run of the service shows from outside *)

Module Observation.

(** A line of the log, which changes nothing outside the process. *)
Definition is_log (ev : InferenceService.event) : bool :=
  match ev with
  | InferenceService.Log _ _ => true
  | _ => false
  end.

(** A request sent to the network or a file written. *)
Definition is_transfer (ev : InferenceService.event) : bool :=
  match ev with
  | InferenceService.HttpGet _ => true
  | InferenceService.FileWrite _ => true
  | _ => false
  end.

(** [w'] continues [w]: the events of [w] followed by [evs], and every
    file of [w] still there. *)
Definition continues (w w' : InferenceService.world)
           (evs : list InferenceService.event) : Prop :=
  InferenceService.trace w' = (InferenceService.trace w ++ evs)%list
  /\ forall f, Py.mem f (InferenceService.files w) = true ->
               Py.mem f (InferenceService.files w') = true.

End Observation.

(** ** More sample inputs *)

Module Fixture.

(** A JPEG cut short in transit: the header opens, the pixel data does
    not load.  And the same for a PNG with an alpha band. *)
Definition truncated_jpeg : PIL.image := PIL.Opened (PIL.Bytes []) "RGB" (640, 480) false.

Definition truncated_png : PIL.image := PIL.Opened (PIL.Bytes []) "RGBA" (640, 480) false.

(** The environment of [Sample.studio] with another decoder result and
    another model behind it. *)
Definition booth (img : PIL.image) (o : InferenceService.oracle) : Dashboard.env :=
  {| Dashboard.image_open := fun _ => Ok img;
     Dashboard.model_oracle := o;
     Dashboard.model_config :=
       {| InferenceService.MODEL_PATH := Sample.model_path;
          InferenceService.MODEL_DOWNLOAD_URL := None |};
     Dashboard.UPLOAD_FOLDER := "/srv/uploads";
     Dashboard.utcnow := Dashboard.utcnow (Sample.studio Sample.disk_ok);
     Dashboard.secure_filename := fun name => name;
     Dashboard.disk_write := Sample.disk_ok;
     Dashboard.db_commit := fun _ => None |}.

(** A machine whose disk is full: the upload folder takes no file and
    the database no row. *)
Definition full_disk : Dashboard.env :=
  {| Dashboard.image_open := fun _ => Ok Sample.opaque_png;
     Dashboard.model_oracle := Sample.loads;
     Dashboard.model_config :=
       {| InferenceService.MODEL_PATH := Sample.model_path;
          InferenceService.MODEL_DOWNLOAD_URL := None |};
     Dashboard.UPLOAD_FOLDER := "/srv/uploads";
     Dashboard.utcnow := Dashboard.utcnow (Sample.studio Sample.disk_ok);
     Dashboard.secure_filename := fun name => name;
     Dashboard.disk_write := Sample.disk_full;
     Dashboard.db_commit := fun _ => Some (OtherException "database or disk is full") |}.

(** A model that answers NaN, behind a database that stores a NaN as
    NULL and so refuses it in the column [confidence], which is declared
    [nullable=False]. *)
Definition answers_nan : InferenceService.oracle :=
  {| InferenceService.download := InferenceService.DownloadCompletes;
     InferenceService.gpus := [];
     InferenceService.loading := InferenceService.Loads Sample.the_model;
     InferenceService.run := Sample.score PrimFloat.nan |}.

Definition nan_refused : Dashboard.env :=
  {| Dashboard.image_open := fun _ => Ok Sample.opaque_png;
     Dashboard.model_oracle := answers_nan;
     Dashboard.model_config :=
       {| InferenceService.MODEL_PATH := Sample.model_path;
          InferenceService.MODEL_DOWNLOAD_URL := None |};
     Dashboard.UPLOAD_FOLDER := "/srv/uploads";
     Dashboard.utcnow := Dashboard.utcnow (Sample.studio Sample.disk_ok);
     Dashboard.secure_filename := fun name => name;
     Dashboard.disk_write := Sample.disk_ok;
     Dashboard.db_commit :=
       fun p =>
         if PrimFloat.is_nan (Dashboard.confidence p)
         then Some (OtherException "NOT NULL constraint failed: predictions.confidence")
         else None |}.

(** A server that came up without a model file. *)
Definition no_model : Dashboard.state :=
  Dashboard.with_service (Sample.cold []) Sample.fresh.

Definition jpg_upload : Dashboard.request :=
  {| Dashboard.file :=
       Some {| Dashboard.upload_filename := "IMG_0042.JPG";
               Dashboard.upload_content := [] |} |}.

(** The administrator's side: the folder of [Sample.studio], and a disk
    on which nothing can be removed. *)
Definition office : Records.env :=
  {| Records.UPLOAD_FOLDER := "/srv/uploads";
     Records.utcnow := Dashboard.utcnow (Sample.studio Sample.disk_ok);
     Records.remove_error := fun _ => None |}.


(** The records after alice's upload of scenario A. *)
Definition one_record : Records.store :=
  Records.after_uploads
    (snd (Dashboard.predict (Sample.studio Sample.disk_ok) Sample.alice
                            Sample.png_upload Sample.fresh)).

End Fixture.


(** * Properties *)

(** ** Strings *)

Section StringFacts.

Lemma contains_char c s : Py.contains (String c "") s = Py.has_char c s.
Proof.
  induction s as [|b s IH]; simpl.
  - reflexivity.
  - rewrite IH. destruct s; simpl; now rewrite andb_true_r.
Qed.

Lemma has_char_app c s t : Py.has_char c (s ++ t) = Py.has_char c s || Py.has_char c t.
Proof.
  induction s as [|b s IH]; simpl; [reflexivity|].
  now rewrite IH, orb_assoc.
Qed.

Lemma rcut_none sep s : Py.rcut sep s = None <-> Py.has_char sep s = false.
Proof.
  induction s as [|b s IH]; simpl.
  - tauto.
  - rewrite (Ascii.eqb_sym sep b).
    destruct (Py.rcut sep s) as [[h t]|].
    + split; [discriminate|].
      intros H. apply orb_false_iff in H. destruct H as [_ H].
      apply IH in H. discriminate.
    + destruct (Ascii.eqb b sep); simpl.
      * split; discriminate.
      * split; intros _; [now apply IH | reflexivity].
Qed.

Lemma rcut_last sep stem suffix :
  Py.has_char sep suffix = false ->
  Py.rcut sep (stem ++ String sep suffix) = Some (stem, suffix).
Proof.
  intros Hs. apply rcut_none in Hs.
  induction stem as [|b stem IH]; simpl.
  - now rewrite Hs, Ascii.eqb_refl.
  - now rewrite IH.
Qed.

Lemma mem_In x l : Py.mem x l = true <-> In x l.
Proof.
  unfold Py.mem. rewrite existsb_exists. split.
  - intros [y [Hy He]]. apply String.eqb_eq in He. now subst.
  - intros H. exists x. split; [assumption | apply String.eqb_refl].
Qed.

End StringFacts.

(** ** The extension check *)

Lemma contains_dot_app stem suffix : Py.contains "." (stem ++ "." ++ suffix) = true.
Proof.
  rewrite contains_char, has_char_app. simpl.
  now rewrite orb_true_r.
Qed.

Lemma is_allowed_file_suffix stem suffix :
  Py.contains "." suffix = false ->
  ImageProcessor.is_allowed_file (stem ++ "." ++ suffix)
  = Ok (Py.mem (Py.lower suffix) ImageProcessor.ALLOWED_EXTENSIONS).
Proof.
  intros Hs. unfold ImageProcessor.is_allowed_file.
  rewrite contains_dot_app. simpl negb. cbv iota.
  rewrite contains_char in Hs.
  unfold Py.rsplit1, ImageProcessor.dot.
  change (stem ++ "." ++ suffix) with (stem ++ String "." suffix).
  now rewrite (rcut_last _ _ _ Hs).
Qed.

Lemma get_extension_suffix stem suffix :
  Py.contains "." suffix = false ->
  ImageProcessor.get_extension (stem ++ "." ++ suffix) = Ok (Py.lower suffix).
Proof.
  intros Hs. unfold ImageProcessor.get_extension.
  rewrite contains_dot_app.
  rewrite contains_char in Hs.
  unfold Py.rsplit1, ImageProcessor.dot.
  change (stem ++ "." ++ suffix) with (stem ++ String "." suffix).
  now rewrite (rcut_last _ _ _ Hs).
Qed.

(** Every name with a dot is a stem, the last dot, and a suffix free of
    dots; [rcut] finds them. *)
Lemma rcut_some sep s h t :
  Py.rcut sep s = Some (h, t) ->
  s = h ++ String sep t /\ Py.has_char sep t = false.
Proof.
  revert h t. induction s as [|b s IH]; simpl; intros h t H; [discriminate|].
  destruct (Py.rcut sep s) as [[h' t']|] eqn:E.
  - inversion H; subst. destruct (IH _ _ eq_refl) as [-> Ht].
    split; [reflexivity | assumption].
  - destruct (Ascii.eqb b sep) eqn:Eb; [|discriminate].
    apply Ascii.eqb_eq in Eb. inversion H; subst.
    split; [reflexivity | now apply rcut_none].
Qed.

Lemma is_allowed_file_total filename :
  exists b, ImageProcessor.is_allowed_file filename = Ok b.
Proof.
  unfold ImageProcessor.is_allowed_file.
  destruct (Py.contains "." filename) eqn:E; simpl; [|now eexists].
  unfold Py.rsplit1.
  destruct (Py.rcut ImageProcessor.dot filename) as [[h t]|] eqn:R; simpl.
  - now eexists.
  - rewrite contains_char in E. apply rcut_none in R.
    unfold ImageProcessor.dot in R. congruence.
Qed.

(** An accepted name has a lower-cased extension from the allow-set, and
    [get_extension] returns it. *)
Lemma allowed_extension filename :
  ImageProcessor.is_allowed_file filename = Ok true ->
  exists ext, ImageProcessor.get_extension filename = Ok ext
              /\ In ext ImageProcessor.ALLOWED_EXTENSIONS.
Proof.
  unfold ImageProcessor.is_allowed_file, ImageProcessor.get_extension.
  destruct (Py.contains "." filename) eqn:E; cbn [negb]; [|discriminate].
  unfold Py.rsplit1.
  destruct (Py.rcut ImageProcessor.dot filename) as [[h t]|] eqn:R;
    cbn [bind Py.index nth_error].
  - intros H. exists (Py.lower t).
    split; [reflexivity | apply mem_In; congruence].
  - discriminate.
Qed.

(** C10.  The extension check ignores case and needs a dot: a name whose
    part after the last dot, lower-cased, is one of jpg, jpeg, png, gif,
    bmp, webp, tiff, tif, heic, heif is accepted, so [.JPG] passes; a name
    without any dot is rejected. *)
Theorem is_allowed_file_case_insensitive_dot_requiring :
  (forall stem suffix,
      Py.contains "." suffix = false ->
      In (Py.lower suffix)
         ["jpg"; "jpeg"; "png"; "gif"; "bmp"; "webp"; "tiff"; "tif"; "heic"; "heif"] ->
      ImageProcessor.is_allowed_file (stem ++ "." ++ suffix) = Ok true)
  /\ ImageProcessor.is_allowed_file ".JPG" = Ok true
  /\ (forall filename,
         Py.contains "." filename = false ->
         ImageProcessor.is_allowed_file filename = Ok false).
Proof.
  split; [|split].
  - intros stem suffix Hs Hin.
    rewrite (is_allowed_file_suffix _ _ Hs). f_equal.
    now apply mem_In.
  - reflexivity.
  - intros filename H. unfold ImageProcessor.is_allowed_file.
    now rewrite H.
Qed.

Lemma is_allowed_file_case_insensitive_dot_requiring_witness :
  ImageProcessor.is_allowed_file "scan.01.JpEg" = Ok true
  /\ ImageProcessor.is_allowed_file "JPG" = Ok false.
Proof.
  split.
  - apply (proj1 is_allowed_file_case_insensitive_dot_requiring "scan.01" "JpEg").
    + reflexivity.
    + simpl. tauto.
  - apply (proj2 (proj2 is_allowed_file_case_insensitive_dot_requiring) "JPG").
    reflexivity.
Defined.

(** ** The filename sanitizer *)

Section Sanitizer.

(** Removing the one-character string [c] leaves no [c]. *)
Lemma replace_scan_removes c s :
  Py.has_char c (Py.replace_scan (String c "") "" 0 s) = false.
Proof.
  induction s as [|b s IH]; [reflexivity|].
  cbn [Py.replace_scan Py.startswith String.length Nat.sub].
  destruct (Ascii.eqb c b) eqn:E.
  - destruct s; exact IH.
  - destruct s; cbn [andb Py.has_char]; rewrite E; exact IH.
Qed.

(** Removing occurrences of anything adds no character. *)
Lemma replace_scan_subset x old k s :
  Py.has_char x (Py.replace_scan old "" k s) = true -> Py.has_char x s = true.
Proof.
  revert k. induction s as [|b s IH]; intros k; [trivial|].
  cbn [Py.replace_scan]. destruct k as [|k].
  - destruct (Py.startswith (String b s) old).
    + intros H. apply IH in H. cbn [Py.has_char]. rewrite H. apply orb_true_r.
    + cbn [Py.has_char]. intros H. apply orb_true_iff in H.
      destruct H as [H|H]; [rewrite H; reflexivity|].
      apply IH in H. rewrite H. apply orb_true_r.
  - intros H. apply IH in H. cbn [Py.has_char]. rewrite H. apply orb_true_r.
Qed.

Lemma replace_subset x old s :
  old <> "" ->
  Py.has_char x (Py.replace s old "") = true -> Py.has_char x s = true.
Proof.
  destruct old as [|a old]; [congruence|].
  intros _. apply replace_scan_subset.
Qed.

Lemma lstrip_subset x s : Py.has_char x (Py.lstrip s) = true -> Py.has_char x s = true.
Proof.
  induction s as [|b s IH]; [trivial|].
  cbn [Py.lstrip]. destruct (Py.isspace b); [|trivial].
  intros H. apply IH in H. cbn [Py.has_char]. rewrite H. apply orb_true_r.
Qed.

Lemma rstrip_subset x s : Py.has_char x (Py.rstrip s) = true -> Py.has_char x s = true.
Proof.
  induction s as [|b s IH]; [trivial|].
  cbn [Py.rstrip]. destruct (Py.rstrip s) as [|r0 r] eqn:R.
  - destruct (Py.isspace b); [discriminate|].
    cbn [Py.has_char]. rewrite orb_false_r. intros ->. reflexivity.
  - cbn [Py.has_char] in *. intros H. apply orb_true_iff in H.
    destruct H as [H|H]; [rewrite H; reflexivity|].
    rewrite (IH H). apply orb_true_r.
Qed.

Lemma scrub_all_subset x l s :
  ~ In "" l ->
  Py.has_char x
    (fold_left (fun sanitized char => Py.replace sanitized char "") l s) = true ->
  Py.has_char x s = true.
Proof.
  revert s. induction l as [|d l IH]; intros s Hl; [trivial|].
  cbn [fold_left]. intros H. apply IH in H.
  - apply (replace_subset x d s); [|exact H].
    intros ->. apply Hl. now left.
  - intros Hin. apply Hl. now right.
Qed.

Lemma dangerous_chars_nonempty : ~ In "" ImageProcessor.dangerous_chars.
Proof.
  unfold ImageProcessor.dangerous_chars. cbn [In].
  intros H. repeat (destruct H as [H|H]; [discriminate|]). exact H.
Qed.

(** Every one-character entry of [dangerous_chars] is absent from every
    sanitized name. *)
Theorem sanitize_filename_removes_characters c filename :
  In (String c "") ImageProcessor.dangerous_chars ->
  Py.contains (String c "") (ImageProcessor.sanitize_filename filename) = false.
Proof.
  intros Hin. rewrite contains_char.
  destruct (Py.has_char c (ImageProcessor.sanitize_filename filename)) eqn:E;
    [exfalso|reflexivity].
  unfold ImageProcessor.sanitize_filename, Py.strip in E.
  apply rstrip_subset, lstrip_subset in E.
  destruct (in_split _ _ Hin) as [l1 [l2 Hsplit]].
  pose proof dangerous_chars_nonempty as Hne.
  rewrite Hsplit in E, Hne.
  rewrite fold_left_app in E. cbn [fold_left] in E.
  apply scrub_all_subset in E.
  - unfold Py.replace in E.
    rewrite replace_scan_removes in E. discriminate.
  - intros H. apply Hne. apply in_or_app. right. now right.
Qed.

(** What the pass over the pairs of dots leaves starts with a dot only
    if the name did. *)
Lemma replace_dots_head s :
  Py.startswith (Py.replace_scan ".." "" 0 s) "." = true ->
  Py.startswith s "." = true.
Proof.
  destruct s as [|c s]; [discriminate|].
  cbn [Py.replace_scan].
  destruct (Py.startswith (String c s) "..") eqn:E; cbn [Py.startswith] in *.
  - intros _. apply andb_true_iff in E. destruct E as [-> _]. now destruct s.
  - intros H. apply andb_true_iff in H. destruct H as [-> _]. now destruct s.
Qed.

(** One pass over the name removes every pair of dots and joins none. *)
Lemma replace_dots_clean s :
  Py.contains ".." (Py.replace_scan ".." "" 0 s) = false
  /\ Py.contains ".." (Py.replace_scan ".." "" 1 s) = false.
Proof.
  induction s as [|c s [IH0 IH1]]; [split; reflexivity|].
  split; [|exact IH0].
  cbn [Py.replace_scan String.length Nat.sub].
  destruct (Py.startswith (String c s) "..") eqn:E; [exact IH1|].
  cbn [Py.contains]. rewrite IH0, orb_false_r.
  destruct (Py.startswith (String c (Py.replace_scan ".." "" 0 s)) "..") eqn:F;
    [|reflexivity].
  cbn [Py.startswith] in E, F.
  apply andb_true_iff in F. destruct F as [Fc F].
  rewrite Fc in E. cbn [andb] in E.
  assert (H : Py.startswith (Py.replace_scan ".." "" 0 s) "." = true).
  { destruct (Py.replace_scan ".." "" 0 s); [discriminate|].
    cbn [Py.startswith] in *. apply andb_true_iff in F.
    destruct F as [-> _]. now destruct s0. }
  pose proof (replace_dots_head s H) as G.
  destruct s as [|d s]; [discriminate|].
  cbn [Py.startswith] in G, E.
  apply andb_true_iff in G. destruct G as [G _].
  rewrite G in E. cbn [andb] in E. destruct s; discriminate.
Qed.

(** Removing a character that does not occur changes nothing. *)
Lemma replace_scan_absent c s :
  Py.has_char c s = false -> Py.replace_scan (String c "") "" 0 s = s.
Proof.
  induction s as [|b s IH]; [reflexivity|].
  cbn [Py.has_char]. intros H. apply orb_false_iff in H. destruct H as [Hb Hs].
  cbn [Py.replace_scan Py.startswith]. rewrite Hb. cbn [andb].
  now rewrite (IH Hs).
Qed.

Lemma contains_lstrip sub s :
  Py.contains sub (Py.lstrip s) = true -> Py.contains sub s = true.
Proof.
  induction s as [|b s IH]; [trivial|].
  cbn [Py.lstrip]. destruct (Py.isspace b); [|trivial].
  intros H. cbn [Py.contains]. rewrite (IH H). apply orb_true_r.
Qed.

Lemma startswith_rstrip sub s :
  Py.startswith (Py.rstrip s) sub = true -> Py.startswith s sub = true.
Proof.
  revert sub. induction s as [|b s IH]; intros sub; [trivial|].
  cbn [Py.rstrip]. destruct (Py.rstrip s) as [|r0 r] eqn:R.
  - destruct (Py.isspace b).
    + destruct sub; [trivial|discriminate].
    + destruct sub as [|a sub]; [trivial|].
      cbn [Py.startswith]. intros H. apply andb_true_iff in H.
      destruct H as [-> H]. destruct sub; [|discriminate].
      now destruct s.
  - destruct sub as [|a sub]; [trivial|].
    cbn [Py.startswith]. intros H. apply andb_true_iff in H.
    destruct H as [-> H]. now rewrite (IH _ H).
Qed.

Lemma contains_rstrip sub s :
  Py.contains sub (Py.rstrip s) = true -> Py.contains sub s = true.
Proof.
  induction s as [|b s IH].
  - trivial.
  - intros H.
    assert (C : Py.startswith (Py.rstrip (String b s)) sub = true
                \/ Py.contains sub (Py.rstrip s) = true).
    { revert H. cbn [Py.rstrip]. destruct (Py.rstrip s) as [|r0 r] eqn:R.
      - destruct (Py.isspace b).
        + cbn [Py.contains]. rewrite orb_false_r. auto.
        + cbn [Py.contains]. intros H. apply orb_true_iff in H.
          destruct H as [H|H]; [auto|].
          right. cbn. exact H.
      - cbn [Py.contains]. intros H. apply orb_true_iff in H.
        destruct H as [H|H]; [left | right]; exact H. }
    cbn [Py.contains]. destruct C as [C|C].
    + apply startswith_rstrip in C. cbn [Py.startswith] in *. rewrite C. reflexivity.
    + rewrite (IH C). apply orb_true_r.
Qed.

Lemma replace_absent c s :
  Py.has_char c s = false -> Py.replace s (String c "") "" = s.
Proof. apply replace_scan_absent. Qed.

(** The pair of dots survives only through the passes after its own: a
    name free of the characters removed later comes out without it. *)
Theorem sanitize_filename_dotdot_needs_later_character filename :
  (forall c, In (String c "")
                ["<"; ">"; ":"; String "034" ""; "|"; "?"; "*"; String "000" ""] ->
             Py.has_char c filename = false) ->
  Py.contains ".." (ImageProcessor.sanitize_filename filename) = false.
Proof.
  intros H.
  unfold ImageProcessor.sanitize_filename, ImageProcessor.dangerous_chars.
  cbn [fold_left].
  set (s3 := Py.replace (Py.replace (Py.replace filename "/" "") "\" "") ".." "").
  assert (A : forall c,
             In (String c "")
                ["<"; ">"; ":"; String "034" ""; "|"; "?"; "*"; String "000" ""] ->
             Py.has_char c s3 = false).
  { intros c Hc. destruct (Py.has_char c s3) eqn:E; [|reflexivity].
    unfold s3 in E.
    apply replace_subset in E; [|discriminate].
    apply replace_subset in E; [|discriminate].
    apply replace_subset in E; [|discriminate].
    rewrite (H c Hc) in E. discriminate. }
  rewrite (replace_absent "<" s3) by (apply A; cbn [In]; tauto).
  rewrite (replace_absent ">" s3) by (apply A; cbn [In]; tauto).
  rewrite (replace_absent ":" s3) by (apply A; cbn [In]; tauto).
  rewrite (replace_absent "034" s3) by (apply A; cbn [In]; tauto).
  rewrite (replace_absent "|" s3) by (apply A; cbn [In]; tauto).
  rewrite (replace_absent "?" s3) by (apply A; cbn [In]; tauto).
  rewrite (replace_absent "*" s3) by (apply A; cbn [In]; tauto).
  rewrite (replace_absent "000" s3) by (apply A; cbn [In]; tauto).
  destruct (Py.contains ".." (Py.strip s3)) eqn:E; [exfalso|reflexivity].
  unfold Py.strip in E. apply contains_rstrip, contains_lstrip in E.
  unfold s3, Py.replace in E.
  now rewrite (proj1 (replace_dots_clean _)) in E.
Qed.

(** C3.  The sanitizer removes [..] in its third pass and the characters
    after it in later passes, so a name in which one of those characters
    separates two dots comes out as [..]: the sanitized name still
    contains the traversal sequence. *)
Theorem sanitize_filename_leaves_dotdot :
  ImageProcessor.sanitize_filename ".<." = ".."
  /\ Py.contains ".." (ImageProcessor.sanitize_filename ".<.") = true
  /\ ImageProcessor.sanitize_filename ".:./.:./etc/passwd.png" = "..etcpasswd.png".
Proof.
  repeat split; reflexivity.
Qed.

End Sanitizer.

(** ** The image loader *)

Section Loader.

Variable image_open : PIL.source -> outcome PIL.image.

Lemma load_image_RGB src img0 :
  image_open src = Ok img0 -> PIL.mode img0 = "RGB" ->
  ImageProcessor.load_image image_open src = Ok img0.
Proof.
  intros Ho Hm. unfold ImageProcessor.load_image.
  rewrite Ho. cbn [bind]. now rewrite Hm.
Qed.

Lemma load_image_RGBA src img0 :
  image_open src = Ok img0 -> PIL.mode img0 = "RGBA" ->
  ImageProcessor.load_image image_open src
  = if PIL.loadable img0
    then Ok (PIL.Pasted (PIL.New "RGB" (PIL.size img0) Sample.white) img0 (PIL.Band img0 3))
    else Raise (ValueError ("Gagal memuat gambar: " ++ exn_str PIL.truncated)).
Proof.
  intros Ho Hm. unfold ImageProcessor.load_image.
  rewrite Ho. cbn [bind]. rewrite Hm. cbn [String.eqb Ascii.eqb Bool.eqb negb].
  unfold PIL.split, PIL.bands, PIL.paste. rewrite Hm.
  destruct (PIL.loadable img0) eqn:L; [|reflexivity].
  cbn. now rewrite L.
Qed.

Lemma load_image_other src img0 :
  image_open src = Ok img0 ->
  PIL.mode img0 <> "RGB" -> PIL.mode img0 <> "RGBA" ->
  ImageProcessor.load_image image_open src
  = if PIL.loadable img0
    then Ok (PIL.Converted img0 "RGB")
    else Raise (ValueError ("Gagal memuat gambar: " ++ exn_str PIL.truncated)).
Proof.
  intros Ho H1 H2. unfold ImageProcessor.load_image.
  rewrite Ho. cbn [bind].
  apply String.eqb_neq in H1, H2. rewrite H1, H2. cbn [negb].
  unfold PIL.convert. now destruct (PIL.loadable img0).
Qed.

End Loader.

(** What the loader does, mode by mode.  An image in mode RGBA is
    composited onto an opaque white background; an image in any other
    mode but RGB is converted directly; an RGB image is returned as it
    is.  The loader returns whenever the pixel data can be read, and what
    it returns is in mode RGB. *)
Theorem load_image_composites_RGBA_only :
  forall image_open src img0,
    image_open src = Ok img0 ->
    (PIL.loadable img0 = true ->
     exists img, ImageProcessor.load_image image_open src = Ok img)
    /\ forall img,
        ImageProcessor.load_image image_open src = Ok img ->
        PIL.mode img = "RGB"
        /\ (PIL.mode img0 = "RGBA" -> PIL.composited_on Sample.white img0 img)
        /\ (PIL.mode img0 <> "RGBA" -> PIL.mode img0 <> "RGB" ->
            PIL.converted_directly img0 img)
        /\ (PIL.mode img0 = "RGB" -> img = img0).
Proof.
  intros image_open src img0 Ho.
  destruct (String.eqb_spec (PIL.mode img0) "RGB") as [Hrgb|Hrgb].
  - rewrite (load_image_RGB _ _ _ Ho Hrgb). split; [eauto|].
    intros img [= <-]. repeat split; try congruence.
  - destruct (String.eqb_spec (PIL.mode img0) "RGBA") as [Ha|Ha].
    + rewrite (load_image_RGBA _ _ _ Ho Ha). split.
      * intros ->. eauto.
      * intros img. destruct (PIL.loadable img0); [|discriminate].
        intros [= <-]. repeat split; try congruence.
    + rewrite (load_image_other _ _ _ Ho Hrgb Ha). split.
      * intros ->. eauto.
      * intros img. destruct (PIL.loadable img0); [|discriminate].
        intros [= <-]. repeat split; try congruence.
Qed.

Lemma load_image_composites_RGBA_only_witness :
  ImageProcessor.load_image (fun _ => Ok Sample.rgba) (PIL.Bytes [])
  = Ok (PIL.Pasted (PIL.New "RGB" (2, 2) Sample.white) Sample.rgba (PIL.Band Sample.rgba 3))
  /\ PIL.composited_on Sample.white Sample.rgba
       (PIL.Pasted (PIL.New "RGB" (2, 2) Sample.white) Sample.rgba (PIL.Band Sample.rgba 3)).
Proof.
  split; [reflexivity|].
  apply (proj2 (load_image_composites_RGBA_only
                  (fun _ => Ok Sample.rgba) (PIL.Bytes []) Sample.rgba eq_refl)
               _ eq_refl).
  reflexivity.
Defined.

(** C8.  The branch that composites is there for transparency, but its
    test is [img.mode == 'RGBA'] alone.  An image that carries an alpha
    band in any other mode (LA, La, PA, RGBa) and whose pixels can be
    read is therefore converted directly, which drops the band: it is
    not composited onto the white background. *)
Theorem load_image_drops_alpha_outside_RGBA :
  forall image_open src img0,
    image_open src = Ok img0 ->
    PIL.has_alpha img0 = true ->
    PIL.mode img0 <> "RGBA" ->
    PIL.loadable img0 = true ->
    In (PIL.mode img0) ["LA"; "La"; "PA"; "RGBa"]
    /\ ImageProcessor.load_image image_open src = Ok (PIL.Converted img0 "RGB")
    /\ PIL.converted_directly img0 (PIL.Converted img0 "RGB")
    /\ ~ PIL.composited_on Sample.white img0 (PIL.Converted img0 "RGB").
Proof.
  intros image_open src img0 Ho Ha Hn Hl.
  unfold PIL.has_alpha in Ha. apply mem_In in Ha.
  unfold PIL.alpha_modes in Ha. cbn [In] in Ha.
  assert (Hm : In (PIL.mode img0) ["LA"; "La"; "PA"; "RGBa"]).
  { cbn [In]. destruct Ha as [H|[H|[H|[H|[H|[]]]]]]; auto.
    symmetry in H. contradiction. }
  assert (Hrgb : PIL.mode img0 <> "RGB").
  { intros E. rewrite E in Hm. cbn [In] in Hm.
    destruct Hm as [H|[H|[H|[H|[]]]]]; discriminate H. }
  split; [exact Hm|]. split.
  - rewrite (load_image_other _ _ _ Ho Hrgb Hn), Hl. reflexivity.
  - split; [reflexivity|]. unfold PIL.composited_on. discriminate.
Qed.

Lemma load_image_drops_alpha_outside_RGBA_witness :
  PIL.mode Sample.grey_alpha = "LA"
  /\ ImageProcessor.load_image (fun _ => Ok Sample.grey_alpha) (PIL.Bytes [])
     = Ok (PIL.Converted Sample.grey_alpha "RGB")
  /\ ~ PIL.composited_on Sample.white Sample.grey_alpha
        (PIL.Converted Sample.grey_alpha "RGB").
Proof.
  split; [reflexivity|].
  destruct (load_image_drops_alpha_outside_RGBA
              (fun _ => Ok Sample.grey_alpha) (PIL.Bytes []) Sample.grey_alpha
              eq_refl eq_refl) as (_ & H & _ & N).
  - discriminate.
  - reflexivity.
  - split; [exact H | exact N].
Defined.

(** ** The model holder *)

Section Holder.

Import InferenceService.

Lemma available_loaded g :
  is_model_available g = true <-> exists m, g = loaded_with m.
Proof.
  unfold loaded_with.
  destruct g as [mo fl]. destruct mo as [m|], fl; cbn; split;
    try discriminate; eauto; intros [m' H]; discriminate.
Qed.

Lemma download_model_holder o url dest w :
  holder (snd (download_model o url dest w)) = holder w.
Proof.
  unfold download_model.
  destruct url as [[|c u]|]; try reflexivity.
  destruct (download o); reflexivity.
Qed.

Lemma try_load_holder o path w :
  match fst (try_load o path w) with
  | Some m => holder (snd (try_load o path w)) = loaded_with m
  | None => holder (snd (try_load o path w)) = unset
  end.
Proof.
  unfold try_load. destruct (loading o); reflexivity.
Qed.

Lemma try_load_loads o path w m :
  loading o = Loads m -> fst (try_load o path w) = Some m.
Proof.
  intros H. unfold try_load. now rewrite H.
Qed.

(** The entry test passed: the call answers from the cache and touches
    nothing. *)
Lemma initialize_model_cached o path url w m :
  holder w = loaded_with m ->
  initialize_model o path url w = (Some m, w).
Proof.
  intros H. unfold initialize_model. now rewrite H.
Qed.

Lemma load_model_cached o cfg path url w m :
  holder w = loaded_with m ->
  load_model o cfg path url w = (Some m, w).
Proof.
  intros H. unfold load_model. now rewrite H.
Qed.

(** The entry test failed: the call starts by looking for the file. *)
Lemma initialize_model_rechecks o path url w :
  is_model_available (holder w) = false ->
  exists rest,
    trace (snd (initialize_model o path url w)) = (trace w ++ PathExists path :: rest)%list.
Proof.
  intros H. unfold initialize_model. rewrite H.
  unfold exists_, download_model, try_load, log_devices, assign_model, create_file.
  destruct (negb (Py.mem path (files w)));
    [destruct (Py.truthy url) eqn:T;
     [destruct url as [[|c u]|]; try discriminate; destruct (download o)|]|];
    cbn [negb fst snd];
    try destruct (loading o); try destruct (gpus o);
    cbn [fst snd trace emit set_holder holder files];
    rewrite <- ?app_assoc; cbn [app]; eexists; reflexivity.
Qed.

(** What a call leaves in the globals, by what it returns. *)
Lemma initialize_model_holder o path url w :
  match fst (initialize_model o path url w) with
  | Some m => holder (snd (initialize_model o path url w)) = loaded_with m
  | None =>
      is_model_available (holder w) = false
      /\ (holder (snd (initialize_model o path url w)) = unset
          \/ holder (snd (initialize_model o path url w)) = holder w)
  end.
Proof.
  unfold initialize_model.
  destruct (is_model_available (holder w)) eqn:A.
  - apply available_loaded in A. destruct A as [m Hm].
    cbn [fst snd]. rewrite Hm. reflexivity.
  - unfold exists_.
    destruct (negb (Py.mem path (files w))).
    + destruct (Py.truthy url).
      * destruct (download_model o url path _) as [ok w1] eqn:D.
        assert (Hh : holder w1 = holder w).
        { change w1 with (snd (ok, w1)). rewrite <- D.
          now rewrite download_model_holder. }
        destruct ok; cbn [negb].
        -- pose proof (try_load_holder o path w1) as T.
           destruct (fst (try_load o path w1)); [exact T | now auto].
        -- cbn. auto.
      * cbn. auto.
    + pose proof (try_load_holder o path (emit (PathExists path) w)) as T.
      destruct (fst (try_load o path _)); [exact T | now auto].
Qed.

Lemma load_model_holder o cfg path url w :
  match fst (load_model o cfg path url w) with
  | Some m => holder (snd (load_model o cfg path url w)) = loaded_with m
  | None =>
      is_model_available (holder w) = false
      /\ (holder (snd (load_model o cfg path url w)) = unset
          \/ holder (snd (load_model o cfg path url w)) = holder w)
  end.
Proof.
  unfold load_model.
  destruct (is_model_available (holder w)) eqn:A.
  - apply available_loaded in A. destruct A as [m Hm].
    cbn [fst snd]. rewrite Hm. reflexivity.
  - match goal with
    | |- context [initialize_model ?o ?p ?u ?w'] =>
        pose proof (initialize_model_holder o p u w') as I;
        destruct (fst (initialize_model o p u w'))
    end.
    + exact I.
    + split; [reflexivity|]. exact (proj2 I).
Qed.

(** Between calls the globals are either unset or hold a flagged model. *)
Lemma reachable_consistent w : reachable w -> consistent (holder w).
Proof.
  induction 1 as [fs | o path url w _ IH | o cfg path url w _ IH].
  - now left.
  - pose proof (initialize_model_holder o path url w) as I.
    destruct (fst (initialize_model o path url w)) as [m|].
    + right. eauto.
    + destruct I as [_ [I|I]]; [left; exact I | rewrite I; exact IH].
  - pose proof (load_model_holder o cfg path url w) as I.
    destruct (fst (load_model o cfg path url w)) as [m|].
    + right. eauto.
    + destruct I as [_ [I|I]]; [left; exact I | rewrite I; exact IH].
Qed.

Lemma succeeded_loaded o cfg path url opath ourl w m w' :
  initialize_model o path url w = (Some m, w')
  \/ load_model o cfg opath ourl w = (Some m, w') ->
  holder w' = loaded_with m.
Proof.
  intros [H|H].
  - pose proof (initialize_model_holder o path url w) as I.
    rewrite H in I. exact I.
  - pose proof (load_model_holder o cfg opath ourl w) as I.
    rewrite H in I. exact I.
Qed.

(** C5.  Once [initialize_model] or [load_model] has returned a model,
    every later call of either returns that same model and leaves the
    world as it was: no further look at the file system, no download, no
    load, not even a log line. *)
Theorem initialization_idempotent_after_success :
  forall o cfg path url opath ourl w m w',
    initialize_model o path url w = (Some m, w')
    \/ load_model o cfg opath ourl w = (Some m, w') ->
    (forall o2 path2 url2, initialize_model o2 path2 url2 w' = (Some m, w'))
    /\ (forall o2 cfg2 opath2 ourl2, load_model o2 cfg2 opath2 ourl2 w' = (Some m, w')).
Proof.
  intros o cfg path url opath ourl w m w' H.
  apply succeeded_loaded in H.
  split; intros.
  - now apply initialize_model_cached.
  - now apply load_model_cached.
Qed.

Lemma initialization_idempotent_after_success_witness :
  exists w',
    initialize_model Sample.loads Sample.model_path None
                     (Sample.cold [Sample.model_path]) = (Some Sample.the_model, w')
    /\ initialize_model Sample.offline Sample.model_path None w'
       = (Some Sample.the_model, w')
    /\ filter (fun ev => match ev with Log _ _ => false | _ => true end) (trace w')
       = [PathExists Sample.model_path; KerasLoad Sample.model_path].
Proof.
  eexists. split; [reflexivity|]. split; [|reflexivity].
  apply (proj1 (initialization_idempotent_after_success
                  Sample.loads {| MODEL_PATH := ""; MODEL_DOWNLOAD_URL := None |}
                  Sample.model_path None None None (Sample.cold [Sample.model_path])
                  Sample.the_model _ (or_introl eq_refl))).
Defined.

Lemma initialize_model_retry_loads o path url w m :
  holder w = unset ->
  Py.mem path (files w) = true ->
  loading o = Loads m ->
  fst (initialize_model o path url w) = Some m.
Proof.
  intros Hu Hf Hl. unfold initialize_model, exists_.
  rewrite Hu. cbn [is_model_available unset _model_loaded andb].
  rewrite Hf. cbn [negb].
  now apply try_load_loads.
Qed.

(** C7.  Between calls the two globals are never half set.  When a call
    of [initialize_model] or [load_model] returns [None] (the download
    failed, no URL was configured, or loading raised) both are unset
    afterwards, so nothing of the failure is cached: the next call,
    through either entry point, looks for the file again, and returns the
    model if the file is there and loads. *)
Theorem failed_initialization_leaves_holder_unset :
  forall w,
    reachable w ->
    consistent (holder w)
    /\ forall o cfg path url opath ourl w',
        initialize_model o path url w = (None, w')
        \/ load_model o cfg opath ourl w = (None, w') ->
        holder w' = unset
        /\ (forall o2 path2 url2,
               exists rest,
                 trace (snd (initialize_model o2 path2 url2 w'))
                 = (trace w' ++ PathExists path2 :: rest)%list)
        /\ (forall o2 cfg2,
               exists rest,
                 trace (snd (load_model o2 cfg2 None None w'))
                 = (trace w' ++ Log "warning" "Model was not preloaded, loading now..."
                            :: PathExists (MODEL_PATH cfg2) :: rest)%list)
        /\ (forall o2 path2 url2 m,
               Py.mem path2 (files w') = true ->
               loading o2 = Loads m ->
               fst (initialize_model o2 path2 url2 w') = Some m).
Proof.
  intros w Hr. pose proof (reachable_consistent w Hr) as Hc.
  split; [exact Hc|].
  intros o cfg path url opath ourl w' Hi.
  assert (Hu : holder w' = unset).
  { assert (I : is_model_available (holder w) = false
                /\ (holder w' = unset \/ holder w' = holder w)).
    { destruct Hi as [Hi|Hi].
      - pose proof (initialize_model_holder o path url w) as I.
        now rewrite Hi in I.
      - pose proof (load_model_holder o cfg opath ourl w) as I.
        now rewrite Hi in I. }
    destruct I as [Ha [I|I]]; [exact I|].
    rewrite I. destruct Hc as [Hc|[m Hc]]; [exact Hc|].
    rewrite Hc in Ha. discriminate. }
  split; [exact Hu|]. split; [|split].
  - intros. apply initialize_model_rechecks. now rewrite Hu.
  - intros o2 cfg2. unfold load_model. rewrite Hu.
    cbn [is_model_available unset _model_loaded andb].
    destruct (initialize_model_rechecks o2 (MODEL_PATH cfg2) (MODEL_DOWNLOAD_URL cfg2)
                (emit (Log "warning" "Model was not preloaded, loading now...") w'))
      as [rest Hrest].
    + cbn [emit holder]. now rewrite Hu.
    + exists rest. rewrite Hrest. cbn [emit trace].
      now rewrite <- app_assoc.
  - intros. now apply initialize_model_retry_loads.
Qed.

Lemma failed_initialization_leaves_holder_unset_witness :
  exists w',
    initialize_model Sample.offline Sample.model_path (Some "https://models.example/m.keras")
                     (Sample.cold []) = (None, w')
    /\ holder w' = unset
    /\ fst (initialize_model Sample.loads Sample.model_path None w') = Some Sample.the_model.
Proof.
  eexists. split; [reflexivity|].
  destruct (proj2 (failed_initialization_leaves_holder_unset
                     (Sample.cold []) (reach_start []))
                  Sample.offline {| MODEL_PATH := ""; MODEL_DOWNLOAD_URL := None |}
                  Sample.model_path (Some "https://models.example/m.keras")
                  None None _ (or_introl eq_refl))
    as [Hu [_ [_ Hretry]]].
  split; [exact Hu|].
  apply Hretry; reflexivity.
Defined.

End Holder.

(** ** The upload pipeline *)

Section Pipeline.

Import Dashboard.

(** [save_image] raises nothing but [ValueError], and a failed save
    leaves the upload directory as it was. *)
Lemma save_image_outcome write image path fmt disk :
  (exists f, ImageProcessor.save_image write image path fmt disk
             = (Ok true, (disk ++ [f])%list)
             /\ ImageProcessor.stored_path f = path)
  \/ (exists msg, ImageProcessor.save_image write image path fmt disk
                  = (Raise (ValueError msg), disk)).
Proof.
  unfold ImageProcessor.save_image.
  match goal with
  | |- context [bind ?c ?k] => destruct (bind c k) as [f|x] eqn:B
  end.
  - left. exists f. split; [reflexivity|].
    unfold bind in B.
    match type of B with
    | match ?c with _ => _ end = _ => destruct c as [image'|]; [|discriminate]
    end.
    destruct (write path); [discriminate|].
    destruct (PIL.loadable image'); [|discriminate].
    injection B as <-.
    destruct (String.eqb _ "JPEG"); [reflexivity|].
    destruct (String.eqb _ "PNG"); reflexivity.
  - right. eauto.
Qed.

Lemma interpret_class p :
  InferenceService.class (InferenceService.interpret p) = "Normal"
  \/ InferenceService.class (InferenceService.interpret p) = "Down Syndrome".
Proof.
  unfold InferenceService.interpret.
  destruct (PrimFloat.ltb 0.5 p); cbn; auto.
Qed.

Lemma predict_interprets o cfg t w r w' :
  InferenceService.predict o cfg t w = (Ok r, w') ->
  exists p, r = InferenceService.interpret p.
Proof.
  unfold InferenceService.predict.
  destruct (InferenceService.load_model o cfg None None w) as [[m|] w1];
    [|discriminate].
  destruct (InferenceService.run o m t) as [p|x]; [|discriminate].
  intros [= <- _]. eauto.
Qed.

(** The extension the stored file gets, for an extension of the
    allow-set. *)
Lemma stored_extension_allowed ext0 :
  In ext0 ImageProcessor.ALLOWED_EXTENSIONS ->
  stored_extension ext0 = if Py.mem ext0 ["heic"; "heif"] then "jpg" else ext0.
Proof.
  unfold ImageProcessor.ALLOWED_EXTENSIONS. cbn [In].
  intros H.
  repeat (destruct H as [<-|H]; [reflexivity|]).
  destruct H.
Qed.

(** From the inference result on.  The view tries to store the image,
    and whether or not that works it goes on to the commit: the answer is
    200 with the row in the table when the commit goes through, and what
    the commit raises otherwise, with the table as it was. *)
Lemma store_and_record_cases e u original image result st ext0 :
  ImageProcessor.get_extension original = Ok ext0 ->
  let row :=
    {| user_id := id u;
       filename := stored_name (Py.replace (InferenceService.class result) " " "")
                               (strftime (utcnow e)) (secure_filename e (username u))
                               (stored_extension ext0);
       original_filename := original;
       result_class := InferenceService.class result;
       confidence := InferenceService.confidence result;
       created_at := utcnow e |} in
  let line := ("info", "Prediction: " ++ InferenceService.class result
                       ++ " by " ++ username u) in
  exists st1,
    session st1 = session st
    /\ service st1 = service st
    /\ ((exists f,
            fst (ImageProcessor.save_image (disk_write e) image
                   (path_join (UPLOAD_FOLDER e) (filename row))
                   (save_format_of (stored_extension ext0)) (uploads st))
            = Ok true
            /\ uploads st1 = (uploads st ++ [f])%list
            /\ ImageProcessor.stored_path f = path_join (UPLOAD_FOLDER e) (filename row)
            /\ logger st1 = logger st)
        \/ (exists msg,
              fst (ImageProcessor.save_image (disk_write e) image
                     (path_join (UPLOAD_FOLDER e) (filename row))
                     (save_format_of (stored_extension ext0)) (uploads st))
              = Raise (ValueError msg)
              /\ uploads st1 = uploads st
              /\ logger st1
                 = (logger st ++ [("error", ("Failed to save image: " ++ msg)%string)])%list))
    /\ match db_commit e row with
       | None =>
           exists st',
             store_and_record e u original image result st
             = (Ok {| status := 200; success := true; error := None;
                      result_of := Some result |}, st')
             /\ session st' = (session st ++ [row])%list
             /\ service st' = service st
             /\ uploads st' = uploads st1
             /\ logger st' = (logger st1 ++ [line])%list
       | Some x => store_and_record e u original image result st = (Raise x, st1)
       end.
Proof.
  intros He. cbv zeta. unfold store_and_record. rewrite He. cbn [filename].
  match goal with
  | |- context [ImageProcessor.save_image ?w ?i ?p ?f ?d] =>
      destruct (save_image_outcome w i p f d) as [[f0 [S Hp]]|[msg S]]; rewrite S
  end; unfold commit.
  - exists (with_uploads (uploads st ++ [f0])%list st).
    split; [reflexivity|]. split; [reflexivity|]. split.
    + left. exists f0. cbn [fst]. repeat split. exact Hp.
    + destruct (db_commit e _); [reflexivity|].
      eexists. repeat split.
  - exists (log "error" ("Failed to save image: " ++ msg) (with_uploads (uploads st) st)).
    split; [reflexivity|]. split; [reflexivity|]. split.
    + right. exists msg. cbn [fst]. repeat split.
    + destruct (db_commit e _); [reflexivity|].
      eexists. repeat split.
Qed.

(** When the last stage answers, the commit went through. *)
Lemma store_and_record_ok e u original image result st ext0 resp st' :
  ImageProcessor.get_extension original = Ok ext0 ->
  store_and_record e u original image result st = (Ok resp, st') ->
  let row :=
    {| user_id := id u;
       filename := stored_name (Py.replace (InferenceService.class result) " " "")
                               (strftime (utcnow e)) (secure_filename e (username u))
                               (stored_extension ext0);
       original_filename := original;
       result_class := InferenceService.class result;
       confidence := InferenceService.confidence result;
       created_at := utcnow e |} in
  let line := ("info", "Prediction: " ++ InferenceService.class result
                       ++ " by " ++ username u) in
  resp = {| status := 200; success := true; error := None; result_of := Some result |}
  /\ db_commit e row = None
  /\ session st' = (session st ++ [row])%list
  /\ service st' = service st
  /\ ((exists f,
          uploads st' = (uploads st ++ [f])%list
          /\ ImageProcessor.stored_path f = path_join (UPLOAD_FOLDER e) (filename row)
          /\ logger st' = (logger st ++ [line])%list)
      \/ (uploads st' = uploads st
          /\ exists msg,
               logger st'
               = (logger st ++ [("error", ("Failed to save image: " ++ msg)%string);
                                line])%list)).
Proof.
  intros He Hst. cbv zeta.
  destruct (store_and_record_cases e u original image result st ext0 He)
    as (st1 & _ & _ & Hdisk & Hc).
  cbv zeta in Hdisk, Hc.
  destruct (db_commit e _) as [x|].
  { rewrite Hc in Hst. discriminate. }
  destruct Hc as (st2 & Hst2 & Hses & Hsvc & Hup & Hlog).
  rewrite Hst in Hst2. injection Hst2 as -> ->.
  repeat (split; [first [reflexivity | assumption]|]).
  destruct Hdisk as [(f & _ & Hu & Hp & Hl)|(msg & _ & Hu & Hl)].
  - left. exists f. rewrite Hup, Hlog, Hu, Hl. repeat split. exact Hp.
  - right. rewrite Hup, Hlog, Hu, Hl. split; [reflexivity|].
    exists msg. now rewrite <- app_assoc.
Qed.

(** A successful answer comes from the last stage only. *)
Lemma predict_success_stages e u req st resp st' :
  predict e u req st = (resp, st') ->
  success resp = true ->
  exists up image t result w,
    file req = Some up
    /\ ImageProcessor.is_allowed_file
         (ImageProcessor.sanitize_filename (upload_filename up)) = Ok true
    /\ ImageProcessor.load_image (image_open e) (PIL.Bytes (upload_content up)) = Ok image
    /\ ImageProcessor.preprocess_for_model image = Ok t
    /\ InferenceService.predict (model_oracle e) (model_config e) t (service st)
       = (Ok result, w)
    /\ store_and_record e u (ImageProcessor.sanitize_filename (upload_filename up))
                        image result (with_service w st) = (Ok resp, st').
Proof.
  unfold predict, predict_body.
  destruct (file req) as [up|]; [|intros [= <- _]; discriminate].
  destruct (String.eqb (upload_filename up) ""); [intros [= <- _]; discriminate|].
  destruct (ImageProcessor.is_allowed_file _) as [[|]|x] eqn:Ha;
    [|intros [= <- _]; discriminate|intros [= <- _]; discriminate].
  destruct (ImageProcessor.validate_file_size _ _) as [[|] message];
    cbn [negb]; [|intros [= <- _]; discriminate].
  destruct (ImageProcessor.load_image _ _) as [image|x] eqn:Hl;
    [|destruct x; intros [= <- _]; discriminate].
  destruct (ImageProcessor.preprocess_for_model image) as [t|x] eqn:Hp;
    [|intros [= <- _]; discriminate].
  destruct (InferenceService.predict _ _ _ _) as [[result|x] w] eqn:Hi;
    [|destruct x; intros [= <- _]; discriminate].
  destruct (store_and_record _ _ _ _ _ _) as [[r|x] st1] eqn:Hs;
    [|intros [= <- _]; discriminate].
  intros [= <- <-] _.
  exists up, image, t, result, w. repeat split; assumption.
Qed.

(** When every stage up to the inference succeeds, the view is its last
    stage. *)
Lemma predict_reaches_store e u req st up image t result w :
  file req = Some up ->
  upload_filename up <> "" ->
  ImageProcessor.is_allowed_file
    (ImageProcessor.sanitize_filename (upload_filename up)) = Ok true ->
  fst (ImageProcessor.validate_file_size (upload_content up) 10) = true ->
  ImageProcessor.load_image (image_open e) (PIL.Bytes (upload_content up)) = Ok image ->
  ImageProcessor.preprocess_for_model image = Ok t ->
  InferenceService.predict (model_oracle e) (model_config e) t (service st)
  = (Ok result, w) ->
  predict_body e u req st
  = store_and_record e u (ImageProcessor.sanitize_filename (upload_filename up))
                     image result (with_service w st).
Proof.
  intros Hf Hn Ha Hv Hl Hp Hi. unfold predict_body.
  rewrite Hf. apply String.eqb_neq in Hn. rewrite Hn, Ha.
  destruct (ImageProcessor.validate_file_size _ _) as [v message].
  cbn [fst] in Hv. subst v. cbn [negb].
  now rewrite Hl, Hp, Hi.
Qed.

Lemma label_without_spaces p :
  Py.replace (InferenceService.class (InferenceService.interpret p)) " " "" = "Normal"
  \/ Py.replace (InferenceService.class (InferenceService.interpret p)) " " ""
     = "DownSyndrome".
Proof.
  destruct (interpret_class p) as [-> | ->]; [left | right]; reflexivity.
Qed.

(** C4, as the view has it.  The stored name of a successful upload is
    label without spaces, timestamp, secured user name, and the
    lower-cased extension of the uploaded name; only heic and heif are
    replaced by jpg.  A PNG of alice is therefore stored as
    [{Label}_{YYYYMMDD_HHMMSS}_alice.png]. *)
Theorem stored_filename_keeps_extension :
  forall e u req st resp st',
    predict e u req st = (resp, st') ->
    success resp = true ->
    exists up ext0 label row,
      file req = Some up
      /\ ImageProcessor.get_extension
           (ImageProcessor.sanitize_filename (upload_filename up)) = Ok ext0
      /\ In ext0 ImageProcessor.ALLOWED_EXTENSIONS
      /\ (label = "Normal" \/ label = "DownSyndrome")
      /\ session st' = (session st ++ [row])%list
      /\ filename row
         = label ++ "_" ++ strftime (utcnow e) ++ "_"
           ++ secure_filename e (username u) ++ "."
           ++ (if Py.mem ext0 ["heic"; "heif"] then "jpg" else ext0).
Proof.
  intros e u req st resp st' Hp Hs.
  destruct (predict_success_stages _ _ _ _ _ _ Hp Hs)
    as (up & image & t & result & w & Hf & Ha & _ & _ & Hi & Hst).
  destruct (allowed_extension _ Ha) as [ext0 [He Hin]].
  destruct (store_and_record_ok e u _ image result (with_service w st) ext0 _ _ He Hst)
    as (_ & _ & Hses & _).
  destruct (predict_interprets _ _ _ _ _ _ Hi) as [p ->].
  exists up, ext0, (Py.replace (InferenceService.class (InferenceService.interpret p)) " " "").
  eexists.
  repeat split; try eassumption.
  - apply label_without_spaces.
  - cbn [filename]. unfold stored_name.
    now rewrite (stored_extension_allowed _ Hin).
Qed.

Lemma stored_filename_keeps_extension_witness :
  exists label row,
    (label = "Normal" \/ label = "DownSyndrome")
    /\ session (snd (predict (Sample.studio Sample.disk_ok) Sample.alice
                             Sample.png_upload Sample.fresh)) = [row]
    /\ filename row = label ++ "_20260307_090530_alice.png".
Proof.
  destruct (stored_filename_keeps_extension
              (Sample.studio Sample.disk_ok) Sample.alice Sample.png_upload Sample.fresh
              _ _ eq_refl eq_refl)
    as (up & ext0 & label & row & Hf & He & _ & Hl & Hs & Hn).
  injection Hf as <-.
  injection He as <-.
  exists label, row. split; [exact Hl|]. split; [exact Hs | exact Hn].
Defined.

(** The claim as the specification words it fails on scenario A: the PNG
    of alice is stored under a name that ends in [.png], not [.jpg]. *)
Lemma png_upload_stored_as_png :
  success (fst (predict (Sample.studio Sample.disk_ok) Sample.alice
                        Sample.png_upload Sample.fresh)) = true
  /\ map filename (session (snd (predict (Sample.studio Sample.disk_ok) Sample.alice
                                         Sample.png_upload Sample.fresh)))
     = ["Normal_20260307_090530_alice.png"]
  /\ ImageProcessor.get_extension "Normal_20260307_090530_alice.png" = Ok "png"
  /\ ImageProcessor.get_extension "Normal_20260307_090530_alice.png" <> Ok "jpg".
Proof.
  repeat split; try reflexivity. discriminate.
Qed.

(** C6, as the view has it.  When the inference has succeeded and the
    image cannot be written, the view logs the error and goes on to the
    commit.  If the commit goes through, the row with the label and the
    confidence of the result is in the table, no file is stored, and the
    answer is 200 with success and the result.  If the commit raises as
    well, the answer is the 500 of an internal error and the table is as
    it was. *)
Theorem storage_failure_is_not_fatal :
  forall e u req st up image t result w ext0,
    file req = Some up ->
    upload_filename up <> "" ->
    ImageProcessor.is_allowed_file
      (ImageProcessor.sanitize_filename (upload_filename up)) = Ok true ->
    fst (ImageProcessor.validate_file_size (upload_content up) 10) = true ->
    ImageProcessor.load_image (image_open e) (PIL.Bytes (upload_content up)) = Ok image ->
    ImageProcessor.preprocess_for_model image = Ok t ->
    InferenceService.predict (model_oracle e) (model_config e) t (service st)
    = (Ok result, w) ->
    ImageProcessor.get_extension
      (ImageProcessor.sanitize_filename (upload_filename up)) = Ok ext0 ->
    let row :=
      {| user_id := id u;
         filename := stored_name (Py.replace (InferenceService.class result) " " "")
                                 (strftime (utcnow e)) (secure_filename e (username u))
                                 (stored_extension ext0);
         original_filename := ImageProcessor.sanitize_filename (upload_filename up);
         result_class := InferenceService.class result;
         confidence := InferenceService.confidence result;
         created_at := utcnow e |} in
    fst (ImageProcessor.save_image (disk_write e) image
           (path_join (UPLOAD_FOLDER e) (filename row))
           (save_format_of (stored_extension ext0)) (uploads st))
    <> Ok true ->
    match db_commit e row with
    | None =>
        exists msg st',
          predict e u req st
          = ({| status := 200; success := true; error := None;
                result_of := Some result |}, st')
          /\ session st' = (session st ++ [row])%list
          /\ uploads st' = uploads st
          /\ In ("error", "Failed to save image: " ++ msg) (logger st')
    | Some x =>
        exists msg st',
          predict e u req st
          = (failure 500 "Terjadi kesalahan internal. Silakan coba lagi.", st')
          /\ session st' = session st
          /\ uploads st' = uploads st
          /\ In ("error", "Failed to save image: " ++ msg) (logger st')
    end.
Proof.
  intros e u req st up image t result w ext0 Hf Hn Ha Hv Hl Hp Hi He row Hsave.
  destruct (store_and_record_cases e u _ image result (with_service w st) ext0 He)
    as (st1 & Hses1 & _ & Hdisk & Hc).
  cbv zeta in Hdisk, Hc. fold row in Hdisk, Hc.
  cbn [with_service uploads logger session] in Hdisk, Hses1.
  destruct Hdisk as [(f & Hok & _)|(msg & _ & Hup & Hlog)].
  { exfalso. exact (Hsave Hok). }
  unfold predict.
  rewrite (predict_reaches_store _ _ _ _ _ _ _ _ _ Hf Hn Ha Hv Hl Hp Hi).
  destruct (db_commit e row) as [x|].
  - rewrite Hc. exists msg. eexists. split; [reflexivity|].
    cbn [log session uploads logger].
    split; [exact Hses1|]. split; [exact Hup|].
    rewrite Hlog. apply in_or_app. left. apply in_or_app. right. now left.
  - destruct Hc as (st' & Hst & Hses & _ & Hup' & Hlog').
    rewrite Hst. exists msg, st'. split; [reflexivity|].
    split; [exact Hses|]. split; [now rewrite Hup'|].
    rewrite Hlog', Hlog. apply in_or_app. left. apply in_or_app. right. now left.
Qed.

Lemma storage_failure_is_not_fatal_witness :
  exists msg st',
    predict (Sample.studio Sample.disk_full) Sample.alice Sample.png_upload Sample.fresh
    = ({| status := 200; success := true; error := None;
          result_of := Some (InferenceService.interpret 0.875%float) |}, st')
    /\ session st'
       = ([] ++ [{| user_id := 3;
                    filename := "Normal_20260307_090530_alice.png";
                    original_filename := "face.png";
                    result_class := "Normal";
                    confidence := 0.875%float;
                    created_at := utcnow (Sample.studio Sample.disk_full) |}])%list
    /\ uploads st' = []
    /\ In ("error", "Failed to save image: " ++ msg) (logger st').
Proof.
  apply (storage_failure_is_not_fatal
           (Sample.studio Sample.disk_full) Sample.alice Sample.png_upload Sample.fresh
           {| upload_filename := "face.png"; upload_content := [] |}
           Sample.opaque_png
           {| ImageProcessor.pixels_of :=
                PIL.Resized Sample.opaque_png (224, 224) "LANCZOS";
              ImageProcessor.batch := 1 |}
           (InferenceService.interpret 0.875%float)
           (snd (InferenceService.predict Sample.loads
                   {| InferenceService.MODEL_PATH := Sample.model_path;
                      InferenceService.MODEL_DOWNLOAD_URL := None |}
                   {| ImageProcessor.pixels_of :=
                        PIL.Resized Sample.opaque_png (224, 224) "LANCZOS";
                      ImageProcessor.batch := 1 |}
                   (Sample.cold [Sample.model_path])))
           "png" eq_refl);
    try reflexivity; discriminate.
Defined.

(** The claim as the specification words it fails when the commit
    raises too.  On a machine whose disk is full the inference succeeds,
    the image cannot be written, the database cannot take the row, and
    the answer is 500 with nothing persisted. *)
Lemma full_disk_upload_is_not_recorded :
  fst (InferenceService.predict
         (model_oracle Fixture.full_disk) (model_config Fixture.full_disk)
         {| ImageProcessor.pixels_of := PIL.Resized Sample.opaque_png (224, 224) "LANCZOS";
            ImageProcessor.batch := 1 |}
         (service Sample.fresh))
  = Ok (InferenceService.interpret 0.875%float)
  /\ fst (predict Fixture.full_disk Sample.alice Sample.png_upload Sample.fresh)
     = failure 500 "Terjadi kesalahan internal. Silakan coba lagi."
  /\ success (fst (predict Fixture.full_disk Sample.alice Sample.png_upload Sample.fresh))
     = false
  /\ session (snd (predict Fixture.full_disk Sample.alice Sample.png_upload Sample.fresh))
     = []
  /\ uploads (snd (predict Fixture.full_disk Sample.alice Sample.png_upload Sample.fresh))
     = []
  /\ logger (snd (predict Fixture.full_disk Sample.alice Sample.png_upload Sample.fresh))
     = [("error", "Failed to save image: Gagal menyimpan gambar: No space left on device");
        ("error", "Unexpected error in prediction: database or disk is full")].
Proof.
  repeat split; reflexivity.
Qed.

End Pipeline.

(** ** Binary64 arithmetic around one

    What the interpreter computes is [1 - p] and sums with it, for [p]
    between 0 and 1.  The lemmas below follow [SpecFloat]'s subtraction
    and addition on such numbers: alignment of the mantissas, the shift
    that brings the result back to 53 bits, and the rounding. *)

Section Binary64Facts.

Import Binary64.
Local Open Scope Z_scope.

(** *** The number of bits of a mantissa *)

Lemma digits2_size m : digits2_pos m = Pos.size m.
Proof. induction m; simpl; congruence. Qed.

Lemma digits2_log2 m : Z.pos (digits2_pos m) = Z.log2 (Z.pos m) + 1.
Proof.
  rewrite digits2_size. destruct m; simpl; lia.
Qed.

(** A mantissa has [k] bits exactly when it lies in [[2^(k-1), 2^k)]. *)
Lemma digits2_unique m k :
  2 ^ (k - 1) <= Z.pos m < 2 ^ k -> Z.pos (digits2_pos m) = k.
Proof.
  intros H. rewrite digits2_log2.
  assert (0 < k).
  { destruct (Z.ltb_spec 0 k); [assumption|].
    rewrite (Z.pow_neg_r 2 (k - 1)) in H by lia.
    destruct (Z.eq_dec k 0) as [->|]; [simpl in H; lia|].
    rewrite (Z.pow_neg_r 2 k) in H by lia. lia. }
  rewrite (Z.log2_unique (Z.pos m) (k - 1)); [lia | lia |].
  replace (Z.succ (k - 1)) with k by lia. exact H.
Qed.

Lemma digits2_bounds m :
  2 ^ (Z.pos (digits2_pos m) - 1) <= Z.pos m < 2 ^ Z.pos (digits2_pos m).
Proof.
  rewrite digits2_log2.
  replace (Z.log2 (Z.pos m) + 1 - 1) with (Z.log2 (Z.pos m)) by lia.
  apply Z.log2_spec. lia.
Qed.

(** *** Shifting right

    One step of [shr] halves the mantissa, keeps the bit shifted out as
    the round bit and accumulates the earlier ones in the sticky bit. *)

Lemma shr_1_nonneg m r s :
  0 <= m ->
  shr_1 {| shr_m := m; shr_r := r; shr_s := s |}
  = {| shr_m := m / 2; shr_r := Z.odd m; shr_s := r || s |}.
Proof.
  intros Hm. unfold shr_1.
  destruct m as [|p|p]; [reflexivity| |lia].
  destruct p as [p|p|].
  - f_equal. rewrite Pos2Z.pos_xI.
    rewrite Z.add_comm, Z.mul_comm, Z.div_add by lia. reflexivity.
  - f_equal. rewrite Pos2Z.pos_xO.
    rewrite Z.mul_comm, Z.div_mul by lia. reflexivity.
  - reflexivity.
Qed.

Lemma iter_pos_nat {A} (f : A -> A) n x :
  iter_pos f n x = Nat.iter (Pos.to_nat n) f x.
Proof.
  revert x. induction n as [n IH|n IH|]; intros x; cbn [iter_pos].
  - rewrite !IH, Pos2Nat.inj_xI, Nat.iter_succ_r.
    replace (2 * Pos.to_nat n)%nat with (Pos.to_nat n + Pos.to_nat n)%nat by lia.
    now rewrite Nat.iter_add.
  - rewrite !IH, Pos2Nat.inj_xO.
    replace (2 * Pos.to_nat n)%nat with (Pos.to_nat n + Pos.to_nat n)%nat by lia.
    now rewrite Nat.iter_add.
  - reflexivity.
Qed.

(** After [k] steps: quotient, round bit, sticky bit. *)
Lemma shr_nat m k :
  0 <= m ->
  Nat.iter (S k) shr_1 {| shr_m := m; shr_r := false; shr_s := false |}
  = {| shr_m := m / 2 ^ Z.of_nat (S k);
       shr_r := 2 ^ Z.of_nat k <=? m mod 2 ^ Z.of_nat (S k);
       shr_s := negb (m mod 2 ^ Z.of_nat k =? 0) |}.
Proof.
  intros Hm. induction k as [|k IH].
  - cbn [Nat.iter]. rewrite shr_1_nonneg by assumption.
    change (2 ^ Z.of_nat 1) with 2. change (2 ^ Z.of_nat 0) with 1.
    rewrite Z.mod_1_r. cbn [Z.eqb negb orb]. f_equal.
    rewrite Zmod_odd. destruct (Z.odd m); reflexivity.
  - rewrite Nat.iter_succ, IH.
    assert (P : 0 < 2 ^ Z.of_nat (S k)) by (apply Z.pow_pos_nonneg; lia).
    assert (P' : 0 < 2 ^ Z.of_nat k) by (apply Z.pow_pos_nonneg; lia).
    assert (E1 : 2 ^ Z.of_nat (S k) = 2 ^ Z.of_nat k * 2).
    { rewrite Nat2Z.inj_succ, Z.pow_succ_r by lia. lia. }
    assert (E2 : 2 ^ Z.of_nat (S (S k)) = 2 ^ Z.of_nat (S k) * 2).
    { rewrite (Nat2Z.inj_succ (S k)), Z.pow_succ_r by lia. lia. }
    rewrite shr_1_nonneg by (apply Z.div_pos; lia).
    pose proof (Z.mod_pos_bound m _ P) as B1.
    pose proof (Z.mod_pos_bound m _ P') as B0.
    pose proof (Z.mod_pos_bound (m / 2 ^ Z.of_nat (S k)) 2 ltac:(lia)) as B2.
    assert (R2 : m mod 2 ^ Z.of_nat (S (S k))
                 = m mod 2 ^ Z.of_nat (S k)
                   + 2 ^ Z.of_nat (S k) * ((m / 2 ^ Z.of_nat (S k)) mod 2)).
    { rewrite E2. apply Z.rem_mul_r; lia. }
    assert (R1 : m mod 2 ^ Z.of_nat (S k)
                 = m mod 2 ^ Z.of_nat k
                   + 2 ^ Z.of_nat k * ((m / 2 ^ Z.of_nat k) mod 2)).
    { rewrite E1. apply Z.rem_mul_r; lia. }
    pose proof (Z.mod_pos_bound (m / 2 ^ Z.of_nat k) 2 ltac:(lia)) as B3.
    f_equal.
    + rewrite E2, Z.div_div by lia. reflexivity.
    + rewrite Zmod_odd in B2, R2.
      destruct (Z.odd (m / 2 ^ Z.of_nat (S k))); symmetry.
      * apply Z.leb_le. lia.
      * apply Z.leb_gt. lia.
    + assert (C : (m / 2 ^ Z.of_nat k) mod 2 = 0 \/ (m / 2 ^ Z.of_nat k) mod 2 = 1)
        by lia.
      destruct (Z.leb_spec (2 ^ Z.of_nat k) (m mod 2 ^ Z.of_nat (S k)));
        destruct (Z.eqb_spec (m mod 2 ^ Z.of_nat k) 0);
        destruct (Z.eqb_spec (m mod 2 ^ Z.of_nat (S k)) 0);
        cbn [negb orb]; try reflexivity; exfalso;
        destruct C as [C|C]; rewrite C in R1; lia.
Qed.

(** The same for the shift [shr] performs, by a positive amount. *)
Lemma shr_pos m e n :
  0 <= m ->
  shr {| shr_m := m; shr_r := false; shr_s := false |} e (Z.pos n)
  = ({| shr_m := m / 2 ^ Z.pos n;
        shr_r := 2 ^ (Z.pos n - 1) <=? m mod 2 ^ Z.pos n;
        shr_s := negb (m mod 2 ^ (Z.pos n - 1) =? 0) |}, e + Z.pos n).
Proof.
  intros Hm. unfold shr. f_equal.
  rewrite iter_pos_nat.
  destruct (Pos2Nat.is_succ n) as [k Hk]. rewrite Hk.
  rewrite shr_nat by assumption.
  replace (Z.of_nat (S k)) with (Z.pos n) by lia.
  replace (Z.of_nat k) with (Z.pos n - 1) by lia.
  reflexivity.
Qed.

(** The remainder modulo [2^n]: bit [n-1] and the remainder modulo
    [2^(n-1)]. *)
Lemma mod_half_split m n :
  0 < n ->
  m mod 2 ^ n = m mod 2 ^ (n - 1) + 2 ^ (n - 1) * ((m / 2 ^ (n - 1)) mod 2).
Proof.
  intros Hn.
  replace (2 ^ n) with (2 ^ (n - 1) * 2).
  - apply Z.rem_mul_r; [|lia].
    apply Z.pow_nonzero; lia.
  - rewrite Z.mul_comm, <- Z.pow_succ_r by lia. f_equal. lia.
Qed.

(** Rounding the shifted mantissa to nearest, ties to even. *)
Lemma round_shr m n :
  0 <= m ->
  round_nearest_even
    (m / 2 ^ Z.pos n)
    (loc_of_shr_record
       {| shr_m := m / 2 ^ Z.pos n;
          shr_r := 2 ^ (Z.pos n - 1) <=? m mod 2 ^ Z.pos n;
          shr_s := negb (m mod 2 ^ (Z.pos n - 1) =? 0) |})
  = rne (m / 2 ^ Z.pos n) (m mod 2 ^ Z.pos n) (2 ^ (Z.pos n - 1)).
Proof.
  intros Hm. unfold rne, loc_of_shr_record, round_nearest_even.
  pose proof (mod_half_split m (Z.pos n) ltac:(lia)) as R.
  assert (P : 0 < 2 ^ (Z.pos n - 1)) by (apply Z.pow_pos_nonneg; lia).
  pose proof (Z.mod_pos_bound m _ P) as B0.
  pose proof (Z.mod_pos_bound (m / 2 ^ (Z.pos n - 1)) 2 ltac:(lia)) as B1.
  assert (C : (m / 2 ^ (Z.pos n - 1)) mod 2 = 0 \/ (m / 2 ^ (Z.pos n - 1)) mod 2 = 1)
    by lia.
  destruct (Z.leb_spec (2 ^ (Z.pos n - 1)) (m mod 2 ^ Z.pos n));
    destruct (Z.eqb_spec (m mod 2 ^ (Z.pos n - 1)) 0);
    destruct (Z.ltb_spec (m mod 2 ^ Z.pos n) (2 ^ (Z.pos n - 1)));
    destruct (Z.eqb_spec (m mod 2 ^ Z.pos n) (2 ^ (Z.pos n - 1)));
    cbn [negb]; try reflexivity; exfalso;
    destruct C as [C|C]; rewrite C in R; lia.
Qed.

(** The rounded quotient is the quotient or its successor, and brings the
    value at most half a unit away. *)
Lemma rne_near q0 rem half :
  0 < half -> 0 <= rem < 2 * half ->
  exists d, rne q0 rem half * (2 * half) = q0 * (2 * half) + rem + d
            /\ - half <= d <= half
            /\ (rne q0 rem half = q0 \/ rne q0 rem half = q0 + 1).
Proof.
  intros Hh Hr. unfold rne.
  destruct (Z.ltb_spec rem half).
  - exists (- rem). lia.
  - destruct (Z.eqb_spec rem half).
    + destruct (Z.even q0).
      * exists (- rem). lia.
      * exists (2 * half - rem). lia.
    + exists (2 * half - rem). lia.
Qed.

(** *** Rounding to 53 bits

    A mantissa of exactly 53 bits at a representable exponent is kept. *)
Lemma binary_round_aux_exact m e :
  Z.pos (digits2_pos m) = 53 -> -1074 <= e <= 971 ->
  binary_round_aux prec emax false (Z.pos m) e loc_Exact = S754_finite false m e.
Proof.
  intros Hd He.
  unfold binary_round_aux, shr_fexp, fexp, Zdigits2, SpecFloat.emin, emax, prec.
  rewrite Hd.
  replace (Z.max (53 + e - 53) (3 - 1024 - 53) - e) with 0 by lia.
  cbn [shr shr_record_of_loc shr_m loc_of_shr_record round_nearest_even].
  rewrite Hd.
  replace (Z.max (53 + e - 53) (3 - 1024 - 53) - e) with 0 by lia.
  cbn [shr shr_m].
  destruct (Z.leb_spec e (1024 - 53)); [reflexivity | lia].
Qed.

Lemma fexp_eq x : fexp prec emax x = Z.max (x - 53) (-1074).
Proof. reflexivity. Qed.

Lemma pow2_split a b : 0 <= a -> 0 <= b -> 2 ^ (a + b) = 2 ^ a * 2 ^ b.
Proof. intros. apply Z.pow_add_r; assumption. Qed.

(** A mantissa of [53 + k] bits is shifted right by [k] and rounded; when
    the rounding carries into a 54th bit, one more shift gives [2^52] at
    the next exponent. *)
Lemma binary_round_aux_shift M e k :
  Z.pos (digits2_pos M) = 53 + Z.pos k ->
  -1074 <= e + Z.pos k -> e + Z.pos k + 1 <= 971 ->
  binary_round_aux prec emax false (Z.pos M) e loc_Exact
  = let q := rne (Z.pos M / 2 ^ Z.pos k) (Z.pos M mod 2 ^ Z.pos k) (2 ^ (Z.pos k - 1)) in
    if q =? 2 ^ 53 then S754_finite false two52 (e + Z.pos k + 1)
    else S754_finite false (Z.to_pos q) (e + Z.pos k).
Proof.
  intros Hd Hlo Hhi.
  pose proof (digits2_bounds M) as HM. rewrite Hd in HM.
  replace (53 + Z.pos k - 1) with (52 + Z.pos k) in HM by lia.
  rewrite !pow2_split in HM by lia.
  assert (PK : 0 < 2 ^ Z.pos k) by (apply Z.pow_pos_nonneg; lia).
  assert (PH : 0 < 2 ^ (Z.pos k - 1)) by (apply Z.pow_pos_nonneg; lia).
  assert (EK : 2 ^ Z.pos k = 2 * 2 ^ (Z.pos k - 1)).
  { rewrite <- Z.pow_succ_r by lia. f_equal. lia. }
  pose proof (Z.mod_pos_bound (Z.pos M) _ PK) as Brem.
  assert (Bq0 : 2 ^ 52 <= Z.pos M / 2 ^ Z.pos k < 2 ^ 53).
  { split.
    - apply Z.div_le_lower_bound; lia.
    - apply Z.div_lt_upper_bound; lia. }
  unfold binary_round_aux, shr_fexp.
  rewrite fexp_eq. cbn [Zdigits2 shr_record_of_loc]. rewrite Hd.
  replace (Z.max (53 + Z.pos k + e - 53) (-1074) - e) with (Z.pos k) by lia.
  rewrite shr_pos by lia.
  cbn [shr_m]. rewrite round_shr by lia.
  cbv zeta.
  destruct (rne_near (Z.pos M / 2 ^ Z.pos k) (Z.pos M mod 2 ^ Z.pos k)
              (2 ^ (Z.pos k - 1)) PH ltac:(lia)) as (d & _ & _ & Hq).
  set (q := rne _ _ _) in *.
  assert (Bq : 2 ^ 52 <= q <= 2 ^ 53) by lia.
  destruct q as [|qp|qp] eqn:Eq; try lia.
  destruct (Z.eqb_spec (Z.pos qp) (2 ^ 53)) as [E|E].
  - assert (Hdq : Z.pos (digits2_pos qp) = 54).
    { apply digits2_unique. rewrite E. split; [reflexivity | reflexivity]. }
    rewrite fexp_eq. cbn [Zdigits2]. rewrite Hdq.
    replace (Z.max (54 + (e + Z.pos k) - 53) (-1074) - (e + Z.pos k)) with 1 by lia.
    injection E as ->.
    cbn [shr iter_pos shr_1 shr_m].
    destruct (Z.leb_spec (e + Z.pos k + 1) (emax - prec)); [reflexivity|].
    unfold emax, prec in *. lia.
  - assert (Hdq : Z.pos (digits2_pos qp) = 53).
    { apply digits2_unique. change (53 - 1) with 52. lia. }
    rewrite fexp_eq. cbn [Zdigits2]. rewrite Hdq.
    replace (Z.max (53 + (e + Z.pos k) - 53) (-1074) - (e + Z.pos k)) with 0 by lia.
    cbn [shr shr_m Z.to_pos].
    destruct (Z.leb_spec (e + Z.pos k) (emax - prec)); [reflexivity|].
    unfold emax, prec in *. lia.
Qed.

(** *** Aligning mantissas *)

Lemma iter_xO_val m j : Z.pos (Pos.iter xO m j) = Z.pos m * 2 ^ Z.pos j.
Proof.
  change (Pos.iter xO m j) with (shift_pos j m).
  rewrite shift_pos_correct, Z.pow_pos_fold. lia.
Qed.

Lemma shl_align_val m e e' :
  e' <= e -> Z.pos (fst (shl_align m e e')) = Z.pos m * 2 ^ (e - e').
Proof.
  intros H. unfold shl_align.
  destruct (e' - e) as [|d|d] eqn:E; cbn [fst].
  - replace (e - e') with 0 by lia. lia.
  - lia.
  - rewrite iter_xO_val. f_equal. f_equal. lia.
Qed.

Lemma shl_align_exp m e e' : e' <= e -> snd (shl_align m e e') = e'.
Proof.
  intros H. unfold shl_align.
  destruct (e' - e) as [|d|d] eqn:E; cbn [snd]; lia.
Qed.

Lemma shl_align_keep m e e' : e <= e' -> shl_align m e e' = (m, e).
Proof.
  intros H. unfold shl_align.
  destruct (e' - e) as [|d|d] eqn:E; try reflexivity. lia.
Qed.

(** No left shift is needed when the mantissa is at least 53 bits long. *)
Lemma binary_round_long M e :
  e <= fexp prec emax (Z.pos (digits2_pos M) + e) ->
  binary_round prec emax false M e
  = binary_round_aux prec emax false (Z.pos M) e loc_Exact.
Proof.
  intros H. unfold binary_round. now rewrite shl_align_keep.
Qed.

(** A short mantissa is shifted left to 53 bits, exactly. *)
Lemma binary_round_short M e d :
  Z.pos (digits2_pos M) = d -> d <= 53 -> -1074 <= e - (53 - d) -> e <= 971 ->
  exists M',
    binary_round prec emax false M e = S754_finite false M' (e - (53 - d))
    /\ Z.pos M' = Z.pos M * 2 ^ (53 - d)
    /\ 2 ^ 52 <= Z.pos M' < 2 ^ 53.
Proof.
  intros Hd Hle Hlo Hhi.
  pose proof (digits2_bounds M) as HM. rewrite Hd in HM.
  assert (0 < d) by (rewrite <- Hd; lia).
  unfold binary_round. rewrite fexp_eq, Hd.
  replace (Z.max (d + e - 53) (-1074)) with (e - (53 - d)) by lia.
  destruct (shl_align M e (e - (53 - d))) as [M' e'] eqn:S.
  pose proof (shl_align_val M e (e - (53 - d)) ltac:(lia)) as V.
  pose proof (shl_align_exp M e (e - (53 - d)) ltac:(lia)) as X.
  rewrite S in V, X. cbn [fst snd] in V, X. subst e'.
  replace (e - (e - (53 - d))) with (53 - d) in V by lia.
  assert (B : 2 ^ 52 <= Z.pos M' < 2 ^ 53).
  { assert (E52 : 2 ^ 52 = 2 ^ (d - 1) * 2 ^ (53 - d))
      by (rewrite <- pow2_split by lia; f_equal; lia).
    assert (E53 : 2 ^ 53 = 2 ^ d * 2 ^ (53 - d))
      by (rewrite <- pow2_split by lia; f_equal; lia).
    rewrite V, E52, E53.
    assert (0 < 2 ^ (53 - d)) by (apply Z.pow_pos_nonneg; lia).
    split.
    - apply Z.mul_le_mono_nonneg_r; lia.
    - apply Z.mul_lt_mono_pos_r; lia. }
  exists M'. split; [|split; assumption].
  apply binary_round_aux_exact; [|lia].
  apply digits2_unique. exact B.
Qed.

Lemma pow2_pos a : 0 <= a -> 0 < 2 ^ a.
Proof. intros. apply Z.pow_pos_nonneg; lia. Qed.

Lemma digits2_le53 M : Z.pos M < 2 ^ 53 -> Z.pos (digits2_pos M) <= 53.
Proof.
  intros H. pose proof (digits2_bounds M) as B.
  destruct (Z.le_gt_cases (Z.pos (digits2_pos M)) 53) as [L|G]; [exact L|].
  assert (2 ^ 53 <= 2 ^ (Z.pos (digits2_pos M) - 1))
    by (apply Z.pow_le_mono_r; lia).
  lia.
Qed.

(** *** One minus a number of the unit interval

    [1 - p] for [p] in [[0.5, 1)]: exact. *)
Lemma sub_one_high m :
  2 ^ 52 <= Z.pos m < 2 ^ 53 ->
  exists M' e',
    SF64sub one_sf (S754_finite false m (-53)) = S754_finite false M' e'
    /\ -105 <= e' <= -53
    /\ Z.pos M' = (2 ^ 53 - Z.pos m) * 2 ^ (-53 - e')
    /\ 2 ^ 52 <= Z.pos M' < 2 ^ 53
    /\ (e' = -53 -> Z.pos m = 2 ^ 52).
Proof.
  intros Hm. unfold SF64sub, SFsub, one_sf.
  change (Z.min (-52) (-53)) with (-53).
  change (shl_align two52 (-52) (-53)) with (9007199254740992%positive, -53).
  rewrite (shl_align_keep m (-53) (-53)) by lia.
  cbn [fst cond_Zopp].
  change (Z.pos 9007199254740992) with (2 ^ 53).
  destruct (2 ^ 53 - Z.pos m) as [|M|M] eqn:EM; try lia.
  cbn [binary_normalize].
  pose proof (digits2_le53 M ltac:(lia)) as Hd.
  pose proof (Pos2Z.is_pos (digits2_pos M)) as Hd0.
  destruct (binary_round_short M (-53) _ eq_refl Hd ltac:(lia) ltac:(lia))
    as (M' & HR & HV & HB).
  exists M', (-53 - (53 - Z.pos (digits2_pos M))).
  split; [exact HR|]. split; [lia|]. split; [|split; [exact HB|]].
  - rewrite HV. f_equal. f_equal. lia.
  - intros He. assert (D : Z.pos (digits2_pos M) = 53) by lia.
    pose proof (digits2_bounds M) as B. rewrite D in B.
    change (2 ^ (53 - 1)) with (2 ^ 52) in B. lia.
Qed.

(** [1 - p] for [0 < p < 0.5]: rounded to 53 bits at exponent -53. *)
Lemma sub_one_low m e :
  -1074 <= e <= -54 -> Z.pos m < 2 ^ 53 ->
  SF64sub one_sf (S754_finite false m e)
  = let k := -53 - e in
    let M := 2 ^ (- e) - Z.pos m in
    let q := rne (M / 2 ^ k) (M mod 2 ^ k) (2 ^ (k - 1)) in
    if q =? 2 ^ 53 then one_sf else S754_finite false (Z.to_pos q) (-53).
Proof.
  intros He Hm. unfold SF64sub, SFsub, one_sf.
  rewrite Z.min_r by lia.
  rewrite (shl_align_keep m e e) by lia.
  rewrite (shl_align_val two52 (-52) e) by lia.
  cbn [fst cond_Zopp].
  replace (Z.pos two52 * 2 ^ (-52 - e)) with (2 ^ (- e)).
  2:{ change (Z.pos two52) with (2 ^ 52). rewrite <- pow2_split by lia.
      f_equal. lia. }
  assert (E1 : 2 ^ (- e) = 2 * 2 ^ (- e - 1)).
  { rewrite <- Z.pow_succ_r by lia. f_equal. lia. }
  assert (L : 2 ^ 53 <= 2 ^ (- e - 1)) by (apply Z.pow_le_mono_r; lia).
  cbv zeta.
  destruct (2 ^ (- e) - Z.pos m) as [|M|M] eqn:EM; try lia.
  cbn [binary_normalize].
  assert (Hd : Z.pos (digits2_pos M) = - e).
  { apply digits2_unique. lia. }
  rewrite binary_round_long by (rewrite fexp_eq, Hd; lia).
  destruct (-53 - e) as [|k|k] eqn:Ek; try lia.
  rewrite (binary_round_aux_shift M e k) by lia.
  cbv zeta.
  replace (e + Z.pos k + 1) with (-52) by lia.
  replace (e + Z.pos k) with (-53) by lia.
  reflexivity.
Qed.

(** *** Sums that round to one *)

Lemma div_mod_unique a b q r :
  0 <= r < b -> a = b * q + r -> a / b = q /\ a mod b = r.
Proof.
  intros Hr Ha. split.
  - symmetry. apply (Z.div_unique_pos a b q r); assumption.
  - symmetry. apply (Z.mod_unique_pos a b q r); assumption.
Qed.

(** A positive sum [2^52 * 2^k + d] with [0 <= d <= 2^(k-1)] rounds to one
    at exponent [-52 - k]. *)
Lemma round_to_one_from_above S e k d :
  Z.pos S = 2 ^ 52 * 2 ^ Z.pos k + d ->
  0 <= d -> 2 * d <= 2 ^ Z.pos k ->
  e + Z.pos k = -52 ->
  binary_round prec emax false S e = one_sf.
Proof.
  intros HS Hd0 Hd He.
  assert (PK : 0 < 2 ^ Z.pos k) by (apply pow2_pos; lia).
  assert (PH : 0 < 2 ^ (Z.pos k - 1)) by (apply pow2_pos; lia).
  assert (EK : 2 ^ Z.pos k = 2 * 2 ^ (Z.pos k - 1)).
  { rewrite <- Z.pow_succ_r by lia. f_equal. lia. }
  assert (Hdig : Z.pos (digits2_pos S) = 53 + Z.pos k).
  { apply digits2_unique.
    replace (53 + Z.pos k - 1) with (52 + Z.pos k) by lia.
    rewrite !pow2_split by lia.
    change (2 ^ 53) with (2 * 2 ^ 52). nia. }
  rewrite binary_round_long by (rewrite fexp_eq, Hdig; lia).
  rewrite (binary_round_aux_shift S e k) by lia.
  cbv zeta.
  destruct (div_mod_unique (Z.pos S) (2 ^ Z.pos k) (2 ^ 52) d) as [Q R]; [lia|lia|].
  rewrite Q, R. unfold rne.
  destruct (Z.ltb_spec d (2 ^ (Z.pos k - 1))) as [_|G].
  - change (2 ^ 52 =? 2 ^ 53) with false. cbv iota.
    replace (e + Z.pos k) with (-52) by lia. reflexivity.
  - destruct (Z.eqb_spec d (2 ^ (Z.pos k - 1))) as [_|N]; [|lia].
    change (Z.even (2 ^ 52)) with true. cbv iota.
    change (2 ^ 52 =? 2 ^ 53) with false. cbv iota.
    replace (e + Z.pos k) with (-52) by lia. reflexivity.
Qed.

(** A positive sum [2^53 * 2^k - d] with [0 < d <= 2^(k-1)] rounds to one
    at exponent [-53 - k]. *)
Lemma round_to_one_from_below S e k d :
  Z.pos S = 2 ^ 53 * 2 ^ Z.pos k - d ->
  0 < d -> 2 * d <= 2 ^ Z.pos k ->
  e + Z.pos k = -53 ->
  binary_round prec emax false S e = one_sf.
Proof.
  intros HS Hd0 Hd He.
  assert (PK : 0 < 2 ^ Z.pos k) by (apply pow2_pos; lia).
  assert (PH : 0 < 2 ^ (Z.pos k - 1)) by (apply pow2_pos; lia).
  assert (EK : 2 ^ Z.pos k = 2 * 2 ^ (Z.pos k - 1)).
  { rewrite <- Z.pow_succ_r by lia. f_equal. lia. }
  assert (Hdig : Z.pos (digits2_pos S) = 53 + Z.pos k).
  { apply digits2_unique.
    replace (53 + Z.pos k - 1) with (52 + Z.pos k) by lia.
    rewrite !pow2_split by lia.
    change (2 ^ 53) with (2 * 2 ^ 52) in *. nia. }
  rewrite binary_round_long by (rewrite fexp_eq, Hdig; lia).
  rewrite (binary_round_aux_shift S e k) by lia.
  cbv zeta.
  destruct (div_mod_unique (Z.pos S) (2 ^ Z.pos k) (2 ^ 53 - 1) (2 ^ Z.pos k - d))
    as [Q R]; [lia|lia|].
  rewrite Q, R. unfold rne.
  destruct (Z.ltb_spec (2 ^ Z.pos k - d) (2 ^ (Z.pos k - 1))) as [L|_]; [lia|].
  change (Z.even (2 ^ 53 - 1)) with false. cbv iota.
  assert (E : (if 2 ^ Z.pos k - d =? 2 ^ (Z.pos k - 1)
               then 2 ^ 53 - 1 + 1 else 2 ^ 53 - 1 + 1) = 2 ^ 53)
    by (destruct (_ =? _); reflexivity).
  rewrite E. change (2 ^ 53 =? 2 ^ 53) with true. cbv iota.
  replace (e + Z.pos k + 1) with (-52) by lia. reflexivity.
Qed.

(** Adding two positive finite numbers, the first at the smaller exponent. *)
Lemma add_aligned m e m' e' S :
  e <= e' ->
  Z.pos S = Z.pos m + Z.pos m' * 2 ^ (e' - e) ->
  SF64add (S754_finite false m e) (S754_finite false m' e')
  = binary_round prec emax false S e.
Proof.
  intros He HS. unfold SF64add, SFadd.
  rewrite Z.min_l by lia.
  rewrite (shl_align_keep m e e) by lia.
  rewrite (shl_align_val m' e' e) by lia.
  cbn [fst cond_Zopp]. rewrite <- HS. reflexivity.
Qed.

Lemma SFadd_comm x y : SF64add x y = SF64add y x.
Proof.
  unfold SF64add, SFadd.
  destruct x as [sx|sx| |sx mx ex], y as [sy|sy| |sy my ey];
    try reflexivity; try (destruct sx, sy; reflexivity).
  rewrite (Z.min_comm ex ey). f_equal. apply Z.add_comm.
Qed.

(** [p + (1 - p)] for [p] in [[0.5, 1)]. *)
Lemma add_sub_high m :
  2 ^ 52 <= Z.pos m < 2 ^ 53 ->
  SF64add (S754_finite false m (-53)) (SF64sub one_sf (S754_finite false m (-53)))
  = one_sf.
Proof.
  intros Hm.
  destruct (sub_one_high m Hm) as (M' & e' & -> & He' & HV & HB & _).
  rewrite SFadd_comm.
  assert (PJ : 0 < 2 ^ (-53 - e')) by (apply pow2_pos; lia).
  assert (HS : exists S, Z.pos S = Z.pos M' + Z.pos m * 2 ^ (-53 - e')).
  { exists (M' + Pos.mul m (Z.to_pos (2 ^ (-53 - e'))))%positive.
    rewrite Pos2Z.inj_add, Pos2Z.inj_mul, Z2Pos.id by lia. reflexivity. }
  destruct HS as [S HS].
  rewrite (add_aligned M' e' m (-53) S) by lia.
  destruct (-52 - e') as [|k|k] eqn:Ek; try lia.
  apply (round_to_one_from_above S e' k 0); try lia.
  rewrite HS, HV.
  replace (Z.pos k) with (1 + (-53 - e')) by lia.
  rewrite pow2_split by lia. change (2 ^ 53) with (2 ^ 52 * 2 ^ 1). ring.
Qed.

(** [p + (1 - p)] for [0 < p < 0.5]: the rounding error of [1 - p] is at
    most half a unit of its last place, and the sum rounds it away. *)
Lemma add_sub_low m e :
  -1074 <= e <= -54 -> Z.pos m < 2 ^ 53 ->
  SF64add (S754_finite false m e) (SF64sub one_sf (S754_finite false m e)) = one_sf.
Proof.
  intros He Hm. rewrite sub_one_low by assumption. cbv zeta.
  assert (E1 : 2 ^ (- e) = 2 * 2 ^ (- e - 1)).
  { rewrite <- Z.pow_succ_r by lia. f_equal. lia. }
  assert (L : 2 ^ 53 <= 2 ^ (- e - 1)) by (apply Z.pow_le_mono_r; lia).
  destruct (-53 - e) as [|k|k] eqn:Ek; try lia.
  assert (PK : 0 < 2 ^ Z.pos k) by (apply pow2_pos; lia).
  assert (PH : 0 < 2 ^ (Z.pos k - 1)) by (apply pow2_pos; lia).
  assert (EK : 2 ^ Z.pos k = 2 * 2 ^ (Z.pos k - 1)).
  { rewrite <- Z.pow_succ_r by lia. f_equal. lia. }
  assert (EE : 2 ^ (- e) = 2 ^ 53 * 2 ^ Z.pos k).
  { rewrite <- pow2_split by lia. f_equal. lia. }
  set (M := 2 ^ (- e) - Z.pos m).
  pose proof (Z.mod_pos_bound M _ PK) as Brem.
  pose proof (Z.div_mod M (2 ^ Z.pos k) ltac:(lia)) as DM.
  destruct (rne_near (M / 2 ^ Z.pos k) (M mod 2 ^ Z.pos k) (2 ^ (Z.pos k - 1))
              PH ltac:(lia)) as (d & Hq & Hd & _).
  set (q := rne _ _ _) in *.
  rewrite <- EK in Hq.
  assert (HQ : q * 2 ^ Z.pos k = M + d) by lia.
  assert (exists qc ec, (if q =? 2 ^ 53 then one_sf
                         else S754_finite false (Z.to_pos q) (-53))
                        = S754_finite false qc ec
                        /\ e <= ec
                        /\ Z.pos qc * 2 ^ (ec - e) = q * 2 ^ Z.pos k) as (qc & ec & -> & Hec & Hqc).
  { destruct (Z.eqb_spec q (2 ^ 53)) as [E|E].
    - exists two52, (-52). split; [reflexivity|]. split; [lia|].
      rewrite E. replace (-52 - e) with (1 + Z.pos k) by lia.
      rewrite pow2_split by lia.
      change (Z.pos two52) with (2 ^ 52). change (2 ^ 53) with (2 ^ 52 * 2 ^ 1).
      ring.
    - exists (Z.to_pos q), (-53). split; [reflexivity|]. split; [lia|].
      assert (0 < q).
      { destruct (Z.lt_ge_cases 0 q) as [P|P]; [exact P|exfalso].
        assert (q * 2 ^ Z.pos k <= 0) by nia.
        unfold M in HQ. lia. }
      rewrite Z2Pos.id by assumption. f_equal. f_equal. lia. }
  assert (HS : exists S, Z.pos S = Z.pos m + Z.pos qc * 2 ^ (ec - e)).
  { assert (0 < 2 ^ (ec - e)) by (apply pow2_pos; lia).
    exists (m + Pos.mul qc (Z.to_pos (2 ^ (ec - e))))%positive.
    rewrite Pos2Z.inj_add, Pos2Z.inj_mul, Z2Pos.id by lia. reflexivity. }
  destruct HS as [S HS].
  rewrite (add_aligned m e qc ec S) by lia.
  rewrite Hqc, HQ in HS. unfold M in HS.
  destruct (Z.le_gt_cases 0 d) as [P|N].
  - destruct (-52 - e) as [|k'|k'] eqn:Ek'; try lia.
    apply (round_to_one_from_above S e k' d); try lia.
    + rewrite HS, EE. replace (Z.pos k') with (1 + Z.pos k) by lia.
      rewrite pow2_split by lia. change (2 ^ 53) with (2 ^ 52 * 2 ^ 1). ring.
    + replace (Z.pos k') with (1 + Z.pos k) by lia.
      rewrite pow2_split by lia. lia.
  - apply (round_to_one_from_below S e k (- d)); try lia.
Qed.

(** *** The numbers between 0 and 1 *)

Lemma Prim2SF_zero : Prim2SF 0 = S754_zero false.
Proof. reflexivity. Qed.
Lemma Prim2SF_one : Prim2SF 1 = one_sf.
Proof. reflexivity. Qed.
Lemma Prim2SF_half : Prim2SF 0.5 = half_sf.
Proof. reflexivity. Qed.

Lemma SFcompare_pos m e m' e' :
  SFcompare (S754_finite false m e) (S754_finite false m' e')
  = Some match Z.compare e e' with
         | Lt => Lt
         | Gt => Gt
         | Eq => Pos.compare m m'
         end.
Proof. reflexivity. Qed.

Lemma leb_one_finite m e :
  valid_binary (S754_finite false m e) = true ->
  SFleb (S754_finite false m e) one_sf = true ->
  (m = two52 /\ e = -52)
  \/ (e = -53 /\ 2 ^ 52 <= Z.pos m < 2 ^ 53)
  \/ (-1074 <= e <= -54 /\ Z.pos m < 2 ^ 53).
Proof.
  intros V.
  unfold valid_binary, bounded, canonical_mantissa in V.
  apply andb_true_iff in V. destruct V as [V _].
  apply Z.eqb_eq in V. rewrite fexp_eq in V.
  pose proof (digits2_bounds m) as B.
  pose proof (Pos2Z.is_pos (digits2_pos m)) as D0.
  unfold SFleb, one_sf. rewrite SFcompare_pos.
  destruct (Z.compare_spec e (-52)) as [E|E|E].
  - subst e. assert (D : Z.pos (digits2_pos m) = 53) by lia.
    rewrite D in B. change (2 ^ (53 - 1)) with (2 ^ 52) in B.
    destruct (Pos.compare_spec m two52) as [C|C|C]; try discriminate.
    + intros _. left. now split.
    + exfalso.
      apply Pos2Z.pos_lt_pos in C. change (Z.pos two52) with (2 ^ 52) in C.
      destruct B as [B _]. exact (Z.lt_irrefl _ (Z.le_lt_trans _ _ _ B C)).
  - intros _. right.
    destruct (Z.eq_dec e (-53)) as [->|N].
    + left. split; [reflexivity|].
      assert (D : Z.pos (digits2_pos m) = 53) by lia.
      rewrite D in B. exact B.
    + right. split; [lia|].
      assert (D : Z.pos (digits2_pos m) <= 53) by lia.
      assert (2 ^ Z.pos (digits2_pos m) <= 2 ^ 53) by (apply Z.pow_le_mono_r; lia).
      lia.
  - discriminate.
Qed.

(** The binary64 numbers between 0 and 1. *)
Lemma unit_interval_repr p :
  (0 <=? p)%float = true -> (p <=? 1)%float = true ->
  (exists s, Prim2SF p = S754_zero s)
  \/ Prim2SF p = one_sf
  \/ (exists m, Prim2SF p = S754_finite false m (-53) /\ 2 ^ 52 <= Z.pos m < 2 ^ 53)
  \/ (exists m e, Prim2SF p = S754_finite false m e
                  /\ -1074 <= e <= -54 /\ Z.pos m < 2 ^ 53).
Proof.
  rewrite !leb_spec, Prim2SF_zero, Prim2SF_one.
  pose proof (Prim2SF_valid p) as V.
  destruct (Prim2SF p) as [s|s| |s m e].
  - intros _ _. left. eauto.
  - destruct s; discriminate.
  - discriminate.
  - destruct s; [discriminate|]. intros _ L.
    destruct (leb_one_finite m e V L) as [[-> ->]|[[-> B]|[B1 B2]]].
    + right. left. reflexivity.
    + right. right. left. eauto.
    + right. right. right. eauto.
Qed.

End Binary64Facts.

(** ** The prediction interpreter *)

Section Interpreter.

Import Binary64.
Import InferenceService.
Local Open Scope Z_scope.

(** [1 - p] for [0 < p < 0.5] lies in [[0.5, 1]]. *)
Lemma sub_one_low_repr m e :
  -1074 <= e <= -54 -> Z.pos m < 2 ^ 53 ->
  exists qc ec,
    SF64sub one_sf (S754_finite false m e) = S754_finite false qc ec
    /\ ((ec = -53 /\ 2 ^ 52 <= Z.pos qc < 2 ^ 53) \/ (qc = two52 /\ ec = -52)).
Proof.
  intros He Hm. rewrite sub_one_low by assumption. cbv zeta.
  assert (E1 : 2 ^ (- e) = 2 * 2 ^ (- e - 1)).
  { rewrite <- Z.pow_succ_r by lia. f_equal. lia. }
  assert (L : 2 ^ 53 <= 2 ^ (- e - 1)) by (apply Z.pow_le_mono_r; lia).
  destruct (-53 - e) as [|k|k] eqn:Ek; try lia.
  assert (PK : 0 < 2 ^ Z.pos k) by (apply pow2_pos; lia).
  assert (PH : 0 < 2 ^ (Z.pos k - 1)) by (apply pow2_pos; lia).
  assert (EK : 2 ^ Z.pos k = 2 * 2 ^ (Z.pos k - 1)).
  { rewrite <- Z.pow_succ_r by lia. f_equal. lia. }
  assert (EE : 2 ^ (- e) = 2 ^ 53 * 2 ^ Z.pos k).
  { rewrite <- pow2_split by lia. f_equal. lia. }
  set (M := 2 ^ (- e) - Z.pos m).
  assert (BM : 2 ^ 52 * 2 ^ Z.pos k <= M < 2 ^ 53 * 2 ^ Z.pos k).
  { unfold M. assert (E53 : 2 ^ 53 = 2 * 2 ^ 52) by reflexivity. lia. }
  assert (Bq0 : 2 ^ 52 <= M / 2 ^ Z.pos k < 2 ^ 53).
  { split.
    - apply Z.div_le_lower_bound; lia.
    - apply Z.div_lt_upper_bound; lia. }
  pose proof (Z.mod_pos_bound M _ PK) as Brem.
  destruct (rne_near (M / 2 ^ Z.pos k) (M mod 2 ^ Z.pos k) (2 ^ (Z.pos k - 1))
              PH ltac:(lia)) as (d & _ & _ & Hq).
  set (q := rne _ _ _) in *.
  destruct (Z.eqb_spec q (2 ^ 53)) as [E|E].
  - exists two52, (-52). split; [reflexivity|]. right. split; reflexivity.
  - exists (Z.to_pos q), (-53). split; [reflexivity|]. left.
    split; [reflexivity|]. rewrite Z2Pos.id by lia. lia.
Qed.

(** The order of two positive finite numbers, by exponent first. *)
Lemma SFltb_pos m e m' e' :
  SFltb (S754_finite false m e) (S754_finite false m' e')
  = match Z.compare e e' with
    | Lt => true
    | Gt => false
    | Eq => match Pos.compare m m' with Lt => true | _ => false end
    end.
Proof.
  unfold SFltb. rewrite SFcompare_pos.
  destruct (Z.compare e e'); [|reflexivity|reflexivity].
  destruct (Pos.compare m m'); reflexivity.
Qed.

Lemma SFleb_pos m e m' e' :
  SFleb (S754_finite false m e) (S754_finite false m' e')
  = match Z.compare e e' with
    | Lt => true
    | Gt => false
    | Eq => match Pos.compare m m' with Gt => false | _ => true end
    end.
Proof.
  unfold SFleb. rewrite SFcompare_pos.
  destruct (Z.compare e e'); [|reflexivity|reflexivity].
  destruct (Pos.compare m m'); reflexivity.
Qed.

Lemma two52_le m : 2 ^ 52 <= Z.pos m -> Pos.compare two52 m <> Gt.
Proof.
  intros H C. apply Pos.compare_gt_iff in C.
  apply Pos2Z.pos_lt_pos in C. change (Z.pos two52) with (2 ^ 52) in C.
  exact (Z.lt_irrefl _ (Z.le_lt_trans _ _ _ H C)).
Qed.

Lemma compare_below a b : a < b -> (a ?= b) = Lt.
Proof. intros H. now apply Z.compare_lt_iff. Qed.

Lemma compare_above a b : b < a -> (a ?= b) = Gt.
Proof. intros H. now apply Z.compare_gt_iff. Qed.

(** A number between 0 and 1 is either above one half (1, or a mantissa
    over [2^52] at exponent -53), or at most one half (a zero, one half
    itself, or an exponent below -53). *)
Lemma unit_interval_cases p :
  unit_interval p ->
  ((0.5 <? p)%float = true /\ (p <=? 0.5)%float = false
   /\ (Prim2SF p = one_sf
       \/ exists m, Prim2SF p = S754_finite false m (-53)
                    /\ 2 ^ 52 < Z.pos m < 2 ^ 53))
  \/ ((0.5 <? p)%float = false /\ (p <=? 0.5)%float = true
      /\ ((exists s, Prim2SF p = S754_zero s)
          \/ Prim2SF p = half_sf
          \/ exists m e, Prim2SF p = S754_finite false m e
                         /\ -1074 <= e <= -54 /\ Z.pos m < 2 ^ 53)).
Proof.
  intros [H0 H1].
  rewrite ltb_spec, leb_spec, Prim2SF_half.
  destruct (unit_interval_repr p H0 H1)
    as [[s R]|[R|[(m & R & B)|(m & e & R & Be & Bm)]]]; rewrite R.
  - right. split; [reflexivity|]. split; [reflexivity|]. left. eauto.
  - left. split; [reflexivity|]. split; [reflexivity|]. now left.
  - unfold half_sf. rewrite SFltb_pos, SFleb_pos, Z.compare_refl.
    rewrite (Pos.compare_antisym two52 m).
    destruct (Pos.compare_spec two52 m) as [C|C|C]; cbn [CompOpp].
    + right. split; [reflexivity|]. split; [reflexivity|].
      right. left. now subst m.
    + left. split; [reflexivity|]. split; [reflexivity|].
      right. exists m. split; [reflexivity|].
      apply Pos2Z.pos_lt_pos in C. change (Z.pos two52) with (2 ^ 52) in C.
      split; [exact C | apply B].
    + exfalso. apply (two52_le m (proj1 B)).
      now apply Pos.compare_gt_iff.
  - right. unfold half_sf. rewrite SFltb_pos, SFleb_pos.
    rewrite (compare_above (-53) e), (compare_below e (-53)) by lia.
    split; [reflexivity|]. split; [reflexivity|].
    right. right. eauto.
Qed.

Lemma add_comm_float x y : (x + y)%float = (y + x)%float.
Proof.
  apply Prim2SF_inj. rewrite !add_spec. apply SFadd_comm.
Qed.

(** Above one half: [1 - p] is exact and below [p]. *)
Lemma above_half p :
  unit_interval p -> (0.5 <? p)%float = true ->
  (p <? 1 - p)%float = false
  /\ (0.5 <=? p)%float = true
  /\ (p + (1 - p))%float = 1%float.
Proof.
  intros U H.
  destruct (unit_interval_cases p U) as [(_ & _ & R)|(F & _)]; [|congruence].
  destruct R as [R|(m & R & B)].
  - assert (p = 1%float) as -> by (apply Prim2SF_inj; exact R).
    repeat split; reflexivity.
  - destruct (sub_one_high m ltac:(lia)) as (M' & e' & S & Be & _ & _ & He).
    assert (e' <= -54).
    { destruct (Z.eq_dec e' (-53)) as [E|E]; [|lia]. apply He in E. lia. }
    split; [|split].
    + rewrite ltb_spec, sub_spec, Prim2SF_one, R, S, SFltb_pos.
      now rewrite compare_above by lia.
    + rewrite leb_spec, Prim2SF_half, R. unfold half_sf.
      rewrite SFleb_pos, Z.compare_refl.
      pose proof (two52_le m ltac:(lia)) as T.
      destruct (Pos.compare two52 m); [reflexivity|reflexivity|congruence].
    + apply Prim2SF_inj.
      rewrite add_spec, sub_spec, Prim2SF_one, R.
      apply add_sub_high. lia.
Qed.

(** At most one half: [1 - p] is at least one half, at most one, and not
    below [p]. *)
Lemma at_most_half p :
  unit_interval p -> (0.5 <? p)%float = false ->
  fmax p (1 - p) = (1 - p)%float
  /\ (0.5 <=? 1 - p)%float = true
  /\ (1 - p <=? 1)%float = true
  /\ (p + (1 - p))%float = 1%float.
Proof.
  intros U H.
  destruct (unit_interval_cases p U) as [(T & _)|(_ & _ & R)]; [congruence|].
  destruct R as [[s R]|[R|(m & e & R & Be & Bm)]].
  - assert (S : (1 - p)%float = 1%float).
    { apply Prim2SF_inj. rewrite sub_spec, Prim2SF_one, R. reflexivity. }
    rewrite S. unfold fmax.
    rewrite ltb_spec, R.
    split; [reflexivity|]. split; [reflexivity|]. split; [reflexivity|].
    apply Prim2SF_inj. rewrite add_spec, R. reflexivity.
  - assert (p = 0.5%float) as -> by (apply Prim2SF_inj; exact R).
    repeat split; reflexivity.
  - destruct (sub_one_low_repr m e Be Bm) as (qc & ec & S & C).
    assert (Hec : e < ec) by (destruct C as [[-> _]|[_ ->]]; lia).
    split; [|split; [|split]].
    + unfold fmax. rewrite ltb_spec, sub_spec, Prim2SF_one, R, S, SFltb_pos.
      now rewrite compare_below by lia.
    + rewrite leb_spec, sub_spec, Prim2SF_half, Prim2SF_one, R, S.
      unfold half_sf. rewrite SFleb_pos.
      destruct C as [[-> B]|[-> ->]]; [|reflexivity].
      rewrite Z.compare_refl.
      pose proof (two52_le qc (proj1 B)) as T.
      destruct (Pos.compare two52 qc); [reflexivity|reflexivity|congruence].
    + rewrite leb_spec, sub_spec, Prim2SF_one, R, S.
      unfold one_sf. rewrite SFleb_pos.
      destruct C as [[-> B]|[-> ->]]; reflexivity.
    + apply Prim2SF_inj.
      rewrite add_spec, sub_spec, Prim2SF_one, R.
      now apply add_sub_low.
Qed.

(** C1.  For a raw probability between 0 and 1 the interpreter is the
    threshold rule: above one half the label is Normal and the confidence
    is the raw value; at most one half the label is Down Syndrome and the
    confidence is one minus the raw value; one of the two always applies.
    The confidence is the larger of the raw value and one minus it, and
    lies between one half and one. *)
Theorem interpret_threshold_rule :
  forall p,
    unit_interval p ->
    let r := interpret p in
    ((0.5 <? p)%float = true -> class r = "Normal" /\ confidence r = p)
    /\ ((p <=? 0.5)%float = true ->
        class r = "Down Syndrome" /\ confidence r = (1 - p)%float)
    /\ ((0.5 <? p)%float = true \/ (p <=? 0.5)%float = true)
    /\ confidence r = fmax p (1 - p)
    /\ (0.5 <=? confidence r)%float = true
    /\ (confidence r <=? 1)%float = true.
Proof.
  intros p U r. subst r. unfold interpret.
  destruct (unit_interval_cases p U) as [(T & F & _)|(F & T & _)].
  - rewrite T. cbn [class confidence].
    destruct (above_half p U T) as (Hm & Hlo & _).
    split; [auto|]. split; [congruence|]. split; [auto|].
    split; [unfold fmax; now rewrite Hm|].
    split; [exact Hlo | exact (proj2 U)].
  - rewrite F. cbn [class confidence].
    destruct (at_most_half p U F) as (Hm & Hlo & Hhi & _).
    split; [congruence|]. split; [auto|]. split; [auto|].
    split; [now rewrite Hm|]. split; assumption.
Qed.

Lemma interpret_threshold_rule_witness :
  class (interpret 0.25) = "Down Syndrome"
  /\ confidence (interpret 0.25) = 0.75%float
  /\ class (interpret 0.875) = "Normal"
  /\ confidence (interpret 0.875) = 0.875%float.
Proof.
  pose proof (interpret_threshold_rule 0.25 (conj eq_refl eq_refl)) as L.
  pose proof (interpret_threshold_rule 0.875 (conj eq_refl eq_refl)) as H.
  cbv zeta in L, H.
  destruct L as (_ & L & _). destruct H as (H & _).
  destruct (L eq_refl) as [L1 L2]. destruct (H eq_refl) as [H1 H2].
  split; [exact L1|]. split; [exact L2|]. split; [exact H1 | exact H2].
Defined.

(** C2, as the interpreter has it.  The comparison is strict, so a raw
    probability of exactly one half takes the other branch: the label is
    Down Syndrome, with confidence one half. *)
Theorem interpret_half_is_down_syndrome :
  class (interpret 0.5) = "Down Syndrome"
  /\ confidence (interpret 0.5) = 0.5%float
  /\ raw_probability (interpret 0.5) = 0.5%float.
Proof.
  repeat split; reflexivity.
Qed.

(** At one half the label is not Normal. *)
Lemma interpret_half_not_normal :
  class (interpret 0.5) <> "Normal".
Proof.
  discriminate.
Qed.

(** C9.  For a raw probability between 0 and 1, the confidence and the
    probability returned for the other label add up to exactly 1.0, and
    so do the two probabilities returned. *)
Theorem interpret_probabilities_complementary :
  forall p,
    unit_interval p ->
    let r := interpret p in
    (exists other,
        getitem (probabilities r) (other_class (class r)) = Some other
        /\ (confidence r + other)%float = 1%float
        /\ (confidence r + other =? 1)%float = true)
    /\ (exists normal down,
           getitem (probabilities r) "Normal" = Some normal
           /\ getitem (probabilities r) "Down Syndrome" = Some down
           /\ (normal + down)%float = 1%float
           /\ (normal + down =? 1)%float = true).
Proof.
  intros p U r. subst r. unfold interpret.
  assert (S : (p + (1 - p))%float = 1%float).
  { destruct (0.5 <? p)%float eqn:T.
    - apply (above_half p U T).
    - apply (at_most_half p U T). }
  split.
  - destruct (0.5 <? p)%float; cbn [class confidence probabilities].
    + exists (1 - p)%float. split; [reflexivity|].
      rewrite S. split; reflexivity.
    + exists p. split; [reflexivity|].
      rewrite add_comm_float, S. split; reflexivity.
  - exists p, (1 - p)%float.
    destruct (0.5 <? p)%float; cbn [probabilities];
      (split; [reflexivity|]); (split; [reflexivity|]);
      rewrite S; split; reflexivity.
Qed.

Lemma interpret_probabilities_complementary_witness :
  exists other,
    getitem (probabilities (interpret Sample.one_tenth)) "Normal" = Some other
    /\ (confidence (interpret Sample.one_tenth) + other)%float = 1%float.
Proof.
  destruct (proj1 (interpret_probabilities_complementary
                     Sample.one_tenth (conj eq_refl eq_refl)))
    as (other & G & S & _).
  exists other. split; [exact G | exact S].
Defined.

End Interpreter.


(** * Further properties *)

(** ** More on file names *)

Section FileNames.

Lemma lower_char_idempotent c : Py.lower_char (Py.lower_char c) = Py.lower_char c.
Proof.
  destruct c as [[|] [|] [|] [|] [|] [|] [|] [|]]; reflexivity.
Qed.

Lemma lower_idempotent s : Py.lower (Py.lower s) = Py.lower s.
Proof.
  induction s as [|c s IH]; [reflexivity|].
  cbn [Py.lower]. now rewrite lower_char_idempotent, IH.
Qed.

Lemma lower_char_dot c : Ascii.eqb "." (Py.lower_char c) = Ascii.eqb "." c.
Proof.
  destruct c as [[|] [|] [|] [|] [|] [|] [|] [|]]; reflexivity.
Qed.

Lemma lower_has_dot s : Py.has_char "." (Py.lower s) = Py.has_char "." s.
Proof.
  induction s as [|c s IH]; [reflexivity|].
  cbn [Py.lower Py.has_char]. now rewrite lower_char_dot, IH.
Qed.

(** X1.  [get_extension] and [is_allowed_file] never raise, whatever the
    name: the index [1] is only taken behind the test for a dot.  The
    extension returned is lower-case and free of dots, and the name is
    allowed exactly when that extension is in the allow-set. *)
Theorem extension_functions_agree :
  forall filename,
  exists ext,
    ImageProcessor.get_extension filename = Ok ext
    /\ ImageProcessor.is_allowed_file filename
       = Ok (Py.mem ext ImageProcessor.ALLOWED_EXTENSIONS)
    /\ Py.has_char "." ext = false
    /\ Py.lower ext = ext
    /\ (Py.contains "." filename = false -> ext = "").
Proof.
  intros filename.
  unfold ImageProcessor.get_extension, ImageProcessor.is_allowed_file.
  destruct (Py.contains "." filename) eqn:E; cbn [negb].
  - unfold Py.rsplit1.
    destruct (Py.rcut ImageProcessor.dot filename) as [[h t]|] eqn:R;
      cbn [bind Py.index nth_error].
    + exists (Py.lower t). split; [reflexivity|]. split; [reflexivity|].
      destruct (rcut_some _ _ _ _ R) as [_ Ht].
      split; [now rewrite lower_has_dot|].
      split; [apply lower_idempotent | discriminate].
    + rewrite contains_char in E. apply rcut_none in R.
      unfold ImageProcessor.dot in R. congruence.
  - exists "". repeat split; reflexivity.
Qed.

Lemma extension_functions_agree_witness :
  ImageProcessor.get_extension "holiday" = Ok ""
  /\ ImageProcessor.is_allowed_file "holiday" = Ok false.
Proof.
  destruct (extension_functions_agree "holiday") as (ext & G & A & _ & _ & E).
  rewrite (E eq_refl) in G, A. split; assumption.
Defined.

End FileNames.

Section SanitizerMore.

Lemma replace_scan_length old k s :
  String.length (Py.replace_scan old "" k s) <= String.length s.
Proof.
  revert k. induction s as [|c s IH]; intros k; [apply le_n|].
  cbn [Py.replace_scan]. destruct k as [|k].
  - destruct (Py.startswith (String c s) old); cbn [String.length append].
    + apply le_S, IH.
    + apply le_n_S, IH.
  - cbn [String.length]. apply le_S, IH.
Qed.

Lemma replace_length s old :
  old <> "" -> String.length (Py.replace s old "") <= String.length s.
Proof.
  destruct old; [congruence|]. intros _. apply replace_scan_length.
Qed.

Lemma lstrip_length s : String.length (Py.lstrip s) <= String.length s.
Proof.
  induction s as [|c s IH]; [apply le_n|].
  cbn [Py.lstrip]. destruct (Py.isspace c); [|apply le_n].
  cbn [String.length]. apply le_S, IH.
Qed.

Lemma rstrip_length s : String.length (Py.rstrip s) <= String.length s.
Proof.
  induction s as [|c s IH]; [apply le_n|].
  cbn [Py.rstrip]. destruct (Py.rstrip s) as [|r0 r].
  - destruct (Py.isspace c); cbn [String.length]; lia.
  - cbn [String.length] in *. lia.
Qed.

Lemma scrub_all_length l s :
  ~ In "" l ->
  String.length (fold_left (fun sanitized char => Py.replace sanitized char "") l s)
  <= String.length s.
Proof.
  revert s. induction l as [|d l IH]; intros s Hl; [apply le_n|].
  cbn [fold_left].
  etransitivity; [apply IH; intros H; apply Hl; now right|].
  apply replace_length. intros ->. apply Hl. now left.
Qed.

Lemma rstrip_cons c s :
  Py.rstrip (String c s)
  = match Py.rstrip s with
    | EmptyString => if Py.isspace c then EmptyString else String c EmptyString
    | r => String c r
    end.
Proof. reflexivity. Qed.

(** [strip] leaves nothing to strip. *)
Lemma rstrip_idempotent s : Py.rstrip (Py.rstrip s) = Py.rstrip s.
Proof.
  induction s as [|c s IH]; [reflexivity|].
  cbn [Py.rstrip]. destruct (Py.rstrip s) as [|r0 r] eqn:R.
  - destruct (Py.isspace c) eqn:Sp; [reflexivity|].
    cbn [Py.rstrip]. now rewrite Sp.
  - rewrite (rstrip_cons c (String r0 r)), IH. reflexivity.
Qed.

Lemma lstrip_head s :
  match Py.lstrip s with
  | EmptyString => True
  | String c _ => Py.isspace c = false
  end.
Proof.
  induction s as [|c s IH]; [exact I|].
  cbn [Py.lstrip]. destruct (Py.isspace c) eqn:Sp; [exact IH | exact Sp].
Qed.

Lemma rstrip_keeps_head c s :
  Py.isspace c = false -> exists r, Py.rstrip (String c s) = String c r.
Proof.
  intros Sp. cbn [Py.rstrip]. destruct (Py.rstrip s) as [|r0 r].
  - rewrite Sp. eauto.
  - eauto.
Qed.

Lemma strip_idempotent s : Py.strip (Py.strip s) = Py.strip s.
Proof.
  unfold Py.strip.
  pose proof (lstrip_head s) as H.
  destruct (Py.lstrip s) as [|c t]; [reflexivity|].
  destruct (rstrip_keeps_head c t H) as [r R]. rewrite R.
  cbn [Py.lstrip]. rewrite H, <- R. apply rstrip_idempotent.
Qed.

(** A pass over a name without the pair of dots changes nothing. *)
Lemma replace_dots_absent s :
  Py.contains ".." s = false -> Py.replace_scan ".." "" 0 s = s.
Proof.
  induction s as [|c s IH]; [reflexivity|].
  cbn [Py.contains]. intros H. apply orb_false_iff in H. destruct H as [H1 H2].
  cbn [Py.replace_scan]. rewrite H1. now rewrite (IH H2).
Qed.

(** X2.  The sanitizer only removes: what it returns is no longer than
    the name, has no character the name did not have, and has no white
    space left at either end. *)
Theorem sanitize_filename_only_removes :
  forall filename,
    String.length (ImageProcessor.sanitize_filename filename) <= String.length filename
    /\ (forall c, Py.has_char c (ImageProcessor.sanitize_filename filename) = true ->
                  Py.has_char c filename = true)
    /\ Py.strip (ImageProcessor.sanitize_filename filename)
       = ImageProcessor.sanitize_filename filename.
Proof.
  intros filename. unfold ImageProcessor.sanitize_filename.
  split; [|split].
  - unfold Py.strip.
    etransitivity; [apply rstrip_length|].
    etransitivity; [apply lstrip_length|].
    apply scrub_all_length, dangerous_chars_nonempty.
  - intros c H. unfold Py.strip in H.
    apply rstrip_subset, lstrip_subset in H.
    exact (scrub_all_subset _ _ _ dangerous_chars_nonempty H).
  - apply strip_idempotent.
Qed.

Lemma sanitize_filename_only_removes_witness :
  String.length (ImageProcessor.sanitize_filename " a/b.png ") <= 9
  /\ Py.has_char "b" " a/b.png " = true.
Proof.
  destruct (sanitize_filename_only_removes " a/b.png ") as (L & C & _).
  split; [exact L | apply C; reflexivity].
Defined.

(** X3.  A name that has none of the dangerous characters, no pair of
    dots and no white space at its ends comes back unchanged. *)
Theorem sanitize_filename_keeps_safe_names :
  forall filename,
    (forall c, In (String c "") ImageProcessor.dangerous_chars ->
               Py.has_char c filename = false) ->
    Py.contains ".." filename = false ->
    Py.strip filename = filename ->
    ImageProcessor.sanitize_filename filename = filename.
Proof.
  intros filename Hc Hd Hs.
  unfold ImageProcessor.sanitize_filename, ImageProcessor.dangerous_chars in *.
  cbn [fold_left].
  rewrite (replace_absent "/" filename) by (apply Hc; cbn [In]; tauto).
  rewrite (replace_absent "\" filename) by (apply Hc; cbn [In]; tauto).
  unfold Py.replace at 9. rewrite (replace_dots_absent filename Hd).
  rewrite (replace_absent "<" filename) by (apply Hc; cbn [In]; tauto).
  rewrite (replace_absent ">" filename) by (apply Hc; cbn [In]; tauto).
  rewrite (replace_absent ":" filename) by (apply Hc; cbn [In]; tauto).
  rewrite (replace_absent "034" filename) by (apply Hc; cbn [In]; tauto).
  rewrite (replace_absent "|" filename) by (apply Hc; cbn [In]; tauto).
  rewrite (replace_absent "?" filename) by (apply Hc; cbn [In]; tauto).
  rewrite (replace_absent "*" filename) by (apply Hc; cbn [In]; tauto).
  rewrite (replace_absent "000" filename) by (apply Hc; cbn [In]; tauto).
  exact Hs.
Qed.

Lemma sanitize_filename_keeps_safe_names_witness :
  ImageProcessor.sanitize_filename "scan 01.final.JPG" = "scan 01.final.JPG".
Proof.
  apply sanitize_filename_keeps_safe_names.
  - intros c H. cbn [ImageProcessor.dangerous_chars In] in H.
    repeat (destruct H as [H|H]; [first [congruence | injection H as <-; reflexivity]|]).
    destruct H.
  - reflexivity.
  - reflexivity.
Defined.

End SanitizerMore.

(** ** More on images *)

Section Images.

Import ImageProcessor.

(** X4.  [load_image] returns an image of mode RGB with the size of the
    opened one, or raises [ValueError] with the message of what went
    wrong after its own prefix; it raises nothing else.  It returns when
    the image opens and its pixel data can be read. *)
Theorem load_image_RGB_or_ValueError :
  forall image_open src,
    match load_image image_open src with
    | Ok img =>
        PIL.mode img = "RGB"
        /\ exists img0,
             image_open src = Ok img0
             /\ PIL.size img = PIL.size img0
             /\ PIL.loadable img = PIL.loadable img0
    | Raise e =>
        (exists m, e = ValueError ("Gagal memuat gambar: " ++ m))
        /\ forall img0, image_open src = Ok img0 -> PIL.loadable img0 = false
    end.
Proof.
  intros image_open src. unfold load_image.
  destruct (image_open src) as [img0|x]; cbn [bind].
  2:{ split; [eauto | discriminate]. }
  destruct (String.eqb (PIL.mode img0) "RGB") eqn:M; cbn [negb].
  { apply String.eqb_eq in M. split; eauto. }
  destruct (String.eqb (PIL.mode img0) "RGBA") eqn:A.
  - apply String.eqb_eq in A.
    unfold PIL.split, PIL.paste, PIL.bands. rewrite A.
    destruct (PIL.loadable img0) eqn:L.
    + cbn. rewrite L. cbn. rewrite L. eauto.
    + cbn. split; [eauto|]. now intros ? [= <-].
  - unfold PIL.convert.
    destruct (PIL.loadable img0) eqn:L; cbn.
    + eauto.
    + split; [eauto|]. now intros ? [= <-].
Qed.

Lemma load_image_RGB_or_ValueError_witness :
  exists m,
    load_image (fun _ => Ok Fixture.truncated_png) (PIL.Bytes [])
    = Raise (ValueError ("Gagal memuat gambar: " ++ m))
    /\ PIL.loadable Fixture.truncated_png = false.
Proof.
  pose proof (load_image_RGB_or_ValueError
                (fun _ => Ok Fixture.truncated_png) (PIL.Bytes [])) as H.
  destruct H as [[m Hm] F]. exists m. split.
  - rewrite <- Hm. reflexivity.
  - apply F. reflexivity.
Defined.

(** [preprocess_for_model] resizes to 224 by 224 and adds one batch
    axis; it keeps the mode.  What Pillow raises on unreadable pixel data
    leaves it as it is: unlike [load_image] and [save_image] it wraps
    nothing in [ValueError]. *)
Lemma preprocess_for_model_shape :
  forall image,
    if PIL.loadable image then
      exists t,
        preprocess_for_model image = Ok t
        /\ PIL.size (pixels_of t) = (224, 224)
        /\ PIL.mode (pixels_of t) = PIL.mode image
        /\ PIL.bands (pixels_of t) = PIL.bands image
        /\ batch t = 1
    else preprocess_for_model image = Raise PIL.truncated.
Proof.
  intros image. unfold preprocess_for_model, PIL.resize.
  destruct (PIL.loadable image); cbn [bind]; [|reflexivity].
  eexists. repeat split.
Qed.

(** An image that opens with readable pixel data is loaded, in any
    mode. *)
Lemma load_image_readable image_open src img0 :
  image_open src = Ok img0 ->
  PIL.loadable img0 = true ->
  exists image,
    load_image image_open src = Ok image
    /\ PIL.mode image = "RGB"
    /\ PIL.loadable image = true.
Proof.
  intros Ho Hl. unfold load_image. rewrite Ho. cbn [bind].
  destruct (String.eqb (PIL.mode img0) "RGB") eqn:M; cbn [negb].
  { apply String.eqb_eq in M. eauto. }
  destruct (String.eqb (PIL.mode img0) "RGBA") eqn:A.
  - apply String.eqb_eq in A.
    unfold PIL.split, PIL.paste, PIL.bands. rewrite A, Hl. cbn. rewrite Hl. cbn.
    eexists. split; [reflexivity|]. split; [reflexivity|]. cbn. now rewrite Hl.
  - unfold PIL.convert. rewrite Hl. cbn. eauto.
Qed.

(** X5.  An image that opens with readable pixel data, whatever its
    mode, reaches the model as one batch of 224 by 224 pixels in three
    bands. *)
Theorem loaded_image_reaches_model_shape :
  forall image_open src img0,
    image_open src = Ok img0 ->
    PIL.loadable img0 = true ->
    exists image t,
      load_image image_open src = Ok image
      /\ preprocess_for_model image = Ok t
      /\ batch t = 1
      /\ PIL.size (pixels_of t) = (224, 224)
      /\ PIL.bands (pixels_of t) = 3.
Proof.
  intros image_open src img0 Ho Hl.
  destruct (load_image_readable image_open src img0 Ho Hl) as (image & Hi & Hm & Hl1).
  pose proof (preprocess_for_model_shape image) as P. rewrite Hl1 in P.
  destruct P as (t & Pt & Ps & Pm & _ & Pb).
  exists image, t. repeat split; try assumption.
  unfold PIL.bands. rewrite Pm, Hm. reflexivity.
Qed.

Lemma loaded_image_reaches_model_shape_witness :
  exists image t,
    load_image (fun _ => Ok Sample.grey_alpha) (PIL.Bytes []) = Ok image
    /\ preprocess_for_model image = Ok t
    /\ batch t = 1
    /\ PIL.size (pixels_of t) = (224, 224)
    /\ PIL.bands (pixels_of t) = 3.
Proof.
  apply (loaded_image_reaches_model_shape
           (fun _ => Ok Sample.grey_alpha) (PIL.Bytes []) Sample.grey_alpha);
    reflexivity.
Defined.

(** X6.  [save_image] answers [True] and adds one file at the path it
    was given, or raises [ValueError] with its own prefix and leaves the
    directory as it was.  A file stored as JPEG (in any spelling of the
    format) is in mode RGB with quality 95; quality is passed for no other
    format. *)
Theorem save_image_effect :
  forall write image file_path format disk,
    match save_image write image file_path format disk with
    | (Ok b, disk') =>
        b = true
        /\ write file_path = None
        /\ exists f,
             disk' = (disk ++ [f])%list
             /\ stored_path f = file_path
             /\ stored_format f = format
             /\ PIL.loadable (stored_image f) = true
             /\ (Py.upper format = "JPEG" ->
                 PIL.mode (stored_image f) = "RGB" /\ stored_quality f = Some 95)
             /\ (Py.upper format <> "JPEG" ->
                 stored_image f = image /\ stored_quality f = None)
    | (Raise e, disk') =>
        disk' = disk
        /\ exists m, e = ValueError ("Gagal menyimpan gambar: " ++ m)
    end.
Proof.
  intros write image file_path format disk. unfold save_image.
  destruct (String.eqb (Py.upper format) "JPEG") eqn:J.
  - apply String.eqb_eq in J.
    destruct (String.eqb (PIL.mode image) "RGB") eqn:M; cbn [negb andb bind].
    + apply String.eqb_eq in M.
      destruct (write file_path); [split; eauto|].
      destruct (PIL.loadable image) eqn:L; [|split; eauto].
      repeat split. eexists.
      repeat split; cbn; try assumption; try reflexivity; contradiction.
    + unfold PIL.convert.
      destruct (PIL.loadable image) eqn:L; cbn [bind]; [|split; eauto].
      destruct (write file_path); [split; eauto|].
      cbn [PIL.loadable]. rewrite L.
      repeat split. eexists.
      repeat split; cbn; try assumption; try reflexivity; contradiction.
  - apply String.eqb_neq in J. cbn [andb bind].
    destruct (write file_path); [split; eauto|].
    destruct (PIL.loadable image) eqn:L; [|split; eauto].
    destruct (String.eqb (Py.upper format) "PNG");
      repeat split; eexists;
      repeat split; cbn; try assumption; try reflexivity; contradiction.
Qed.

Lemma save_image_effect_witness :
  exists f,
    snd (save_image Sample.disk_ok Sample.rgba "/srv/uploads/a.jpg" "jpeg" [])
    = ([] ++ [f])%list
    /\ PIL.mode (stored_image f) = "RGB"
    /\ stored_quality f = Some 95.
Proof.
  pose proof (save_image_effect Sample.disk_ok Sample.rgba "/srv/uploads/a.jpg" "jpeg" [])
    as H.
  destruct H as (_ & _ & f & D & _ & _ & _ & J & _).
  destruct (J eq_refl) as [M Q].
  exists f. split; [exact D|]. split; [exact M | exact Q].
Defined.

End Images.

(** ** More on the inference service *)

Section Service.

Import InferenceService Observation.

Lemma continues_refl w : continues w w [].
Proof. split; [now rewrite app_nil_r | auto]. Qed.

Lemma continues_trans w1 w2 w3 evs evs' :
  continues w1 w2 evs -> continues w2 w3 evs' -> continues w1 w3 (evs ++ evs')%list.
Proof.
  intros [T1 F1] [T2 F2]. split.
  - now rewrite T2, T1, app_assoc.
  - auto.
Qed.

Lemma continues_emit w ev : continues w (emit ev w) [ev].
Proof. split; [reflexivity | auto]. Qed.


Ltac continues_by_cases :=
  eexists; split;
  [ split;
    [ cbn [fst snd trace emit set_holder create_file assign_model holder files];
      rewrite <- ?app_assoc; cbn [app]; try reflexivity;
      symmetry; apply app_nil_r
    | let f := fresh "f" in let Hf := fresh "Hf" in
      intros f Hf;
      cbn [fst snd trace emit set_holder create_file assign_model holder files];
      unfold Py.mem in *; cbn [existsb]; rewrite ?Hf, ?orb_true_r; reflexivity ]
  | ].

Lemma download_model_continues o url destination w :
  exists evs, continues w (snd (download_model o url destination w)) evs.
Proof.
  unfold download_model.
  destruct url as [[|c u]|]; [| destruct (download o) |];
    (eexists; split;
     [ cbn [fst snd trace emit set_holder create_file holder files];
       rewrite <- ?app_assoc; cbn [app]; reflexivity
     | intros f Hf;
       cbn [fst snd trace emit set_holder create_file holder files];
       unfold Py.mem in *; cbn [existsb]; rewrite ?Hf, ?orb_true_r; reflexivity ]).
Qed.

(** X7.  [download_model] leaves the two globals alone and answers
    [True] only when the file is at its destination afterwards.  Without
    a URL it answers [False] having written one line to the log: no
    request, no file. *)
Theorem download_model_effect :
  forall o url destination w,
    exists evs,
      continues w (snd (download_model o url destination w)) evs
      /\ holder (snd (download_model o url destination w)) = holder w
      /\ (fst (download_model o url destination w) = true ->
          Py.mem destination (files (snd (download_model o url destination w))) = true)
      /\ (Py.truthy url = false ->
          fst (download_model o url destination w) = false
          /\ files (snd (download_model o url destination w)) = files w
          /\ forallb is_log evs = true
          /\ evs = [Log "error" "Model download URL not configured"]).
Proof.
  intros o url destination w. unfold download_model.
  destruct url as [[|c u]|]; [| destruct (download o) |];
    continues_by_cases;
    (split; [reflexivity|]);
    (split; [cbn [fst snd]; try discriminate; intros _; cbn; unfold Py.mem; cbn;
             now rewrite String.eqb_refl
            | cbn [Py.truthy]; try discriminate; intros _; repeat split]).
Qed.

Lemma download_model_effect_witness :
  exists evs,
    continues (Sample.cold []) (snd (download_model Sample.loads None "m.keras" (Sample.cold [])))
              evs
    /\ fst (download_model Sample.loads None "m.keras" (Sample.cold [])) = false
    /\ forallb is_log evs = true.
Proof.
  destruct (download_model_effect Sample.loads None "m.keras" (Sample.cold []))
    as (evs & C & _ & _ & H).
  destruct (H eq_refl) as (F & _ & L & _).
  exists evs. repeat split; try assumption; apply C.
Defined.

Lemma try_load_quiet o path w :
  exists evs,
    continues w (snd (try_load o path w)) evs
    /\ forallb (fun ev => negb (is_transfer ev)) evs = true
    /\ files (snd (try_load o path w)) = files w.
Proof.
  unfold try_load, log_devices.
  destruct (loading o); try destruct (gpus o);
    continues_by_cases; split; reflexivity.
Qed.

(** X8.  When the model file is on disk, [initialize_model] sends no
    request and writes no file, whatever URL it is given and whether or
    not loading succeeds. *)
Theorem present_file_is_never_downloaded :
  forall o model_path download_url w,
    Py.mem model_path (files w) = true ->
    exists evs,
      continues w (snd (initialize_model o model_path download_url w)) evs
      /\ forallb (fun ev => negb (is_transfer ev)) evs = true
      /\ files (snd (initialize_model o model_path download_url w)) = files w.
Proof.
  intros o path url w Hf. unfold initialize_model, exists_.
  destruct (is_model_available (holder w)).
  - exists []. split; [apply continues_refl | split; reflexivity].
  - rewrite Hf. cbn [negb].
    destruct (try_load_quiet o path (emit (PathExists path) w)) as (evs & C & Q & F).
    exists (PathExists path :: evs). split; [|split].
    + exact (continues_trans _ _ _ _ _ (continues_emit w (PathExists path)) C).
    + exact Q.
    + exact F.
Qed.

Lemma present_file_is_never_downloaded_witness :
  exists evs,
    continues (Sample.cold [Sample.model_path])
              (snd (initialize_model Sample.offline Sample.model_path
                      (Some "https://models.example/m.keras")
                      (Sample.cold [Sample.model_path]))) evs
    /\ forallb (fun ev => negb (is_transfer ev)) evs = true.
Proof.
  destruct (present_file_is_never_downloaded
              Sample.offline Sample.model_path (Some "https://models.example/m.keras")
              (Sample.cold [Sample.model_path]) eq_refl) as (evs & C & Q & _).
  exists evs. split; assumption.
Defined.

Lemma initialize_model_continues o path url w :
  exists evs, continues w (snd (initialize_model o path url w)) evs.
Proof.
  unfold initialize_model, exists_.
  destruct (is_model_available (holder w)).
  { exists []. apply continues_refl. }
  destruct (negb (Py.mem path (files w))).
  - destruct (Py.truthy url).
    + destruct (download_model_continues o url path
                  (emit (Log "info" "Attempting to download model...")
                     (emit (Log "warning" ("Model not found at " ++ path))
                        (emit (PathExists path) w)))) as (evs & C).
      destruct (download_model o url path _) as [ok w1]. cbn [snd] in C.
      assert (C0 : continues w
                     (emit (Log "info" "Attempting to download model...")
                        (emit (Log "warning" ("Model not found at " ++ path))
                           (emit (PathExists path) w)))
                     [PathExists path; Log "warning" ("Model not found at " ++ path);
                      Log "info" "Attempting to download model..."]).
      { split; [cbn; rewrite <- ?app_assoc; reflexivity | auto]. }
      pose proof (continues_trans _ _ _ _ _ C0 C) as C1.
      destruct ok; cbn [negb].
      * destruct (try_load_quiet o path w1) as (evs' & C' & _).
        eexists. exact (continues_trans _ _ _ _ _ C1 C').
      * eexists. cbn [snd].
        exact (continues_trans _ _ _ _ _ C1 (continues_emit _ _)).
    + eexists. cbn [snd]. split; [cbn; rewrite <- ?app_assoc; reflexivity | auto].
  - destruct (try_load_quiet o path (emit (PathExists path) w)) as (evs & C & _).
    eexists. exact (continues_trans _ _ _ _ _ (continues_emit w (PathExists path)) C).
Qed.

Lemma load_model_continues o cfg path url w :
  exists evs, continues w (snd (load_model o cfg path url w)) evs.
Proof.
  unfold load_model.
  destruct (is_model_available (holder w)).
  { exists []. apply continues_refl. }
  match goal with
  | |- context [initialize_model ?o ?p ?u ?w'] =>
      destruct (initialize_model_continues o p u w') as (evs & C)
  end.
  eexists. exact (continues_trans _ _ _ _ _ (continues_emit _ _) C).
Qed.

(** X9.  The service only adds to what is there: after any call of
    [initialize_model], [load_model] or [predict] the earlier events are
    the beginning of the record, in their order, and no file is gone. *)
Theorem service_only_appends :
  forall o cfg model_path download_url opath ourl t w,
    (exists evs, continues w (snd (initialize_model o model_path download_url w)) evs)
    /\ (exists evs, continues w (snd (load_model o cfg opath ourl w)) evs)
    /\ (exists evs, continues w (snd (predict o cfg t w)) evs).
Proof.
  intros o cfg path url opath ourl t w. split; [|split].
  - apply initialize_model_continues.
  - apply load_model_continues.
  - unfold predict.
    destruct (load_model_continues o cfg None None w) as (evs & C).
    destruct (load_model o cfg None None w) as [[m|] w1]; cbn [snd] in *.
    + destruct (run o m t); cbn [snd].
      * eauto.
      * eexists. exact (continues_trans _ _ _ _ _ C (continues_emit _ _)).
    + eauto.
Qed.

(** X10.  A download that breaks off after the file was opened leaves
    the file behind, and the service takes it for the model from then on:
    the next call sends no request and goes straight to loading that
    file. *)
Theorem interrupted_download_is_not_retried :
  forall o e model_path download_url w,
    is_model_available (holder w) = false ->
    Py.mem model_path (files w) = false ->
    Py.truthy download_url = true ->
    download o = WriteRaises e ->
    fst (initialize_model o model_path download_url w) = None
    /\ Py.mem model_path (files (snd (initialize_model o model_path download_url w))) = true
    /\ forall o2 url2,
         initialize_model o2 model_path url2
                          (snd (initialize_model o model_path download_url w))
         = try_load o2 model_path
                    (emit (PathExists model_path)
                          (snd (initialize_model o model_path download_url w))).
Proof.
  intros o e path url w Ha Hf Ht Hd.
  unfold initialize_model at 1 2 4 5, exists_. rewrite Ha, Hf, Ht. cbn [negb].
  unfold download_model. destruct url as [[|c u]|]; try discriminate.
  rewrite Hd. cbn [negb fst snd].
  assert (M : Py.mem path (path :: files w) = true).
  { unfold Py.mem. cbn. now rewrite String.eqb_refl. }
  split; [reflexivity|]. split.
  - exact M.
  - intros o2 url2. unfold initialize_model, exists_.
    cbn [holder emit create_file set_holder files]. rewrite Ha, M. reflexivity.
Qed.

Lemma interrupted_download_is_not_retried_witness :
  fst (initialize_model Sample.offline Sample.model_path
         (Some "https://models.example/m.keras") (Sample.cold [])) = None
  /\ fst (initialize_model Sample.offline Sample.model_path
            (Some "https://models.example/m.keras")
            (snd (initialize_model Sample.offline Sample.model_path
                    (Some "https://models.example/m.keras") (Sample.cold []))))
     = None.
Proof.
  destruct (interrupted_download_is_not_retried
              Sample.offline (RequestException "connection reset") Sample.model_path
              (Some "https://models.example/m.keras") (Sample.cold [])
              eq_refl eq_refl eq_refl eq_refl) as (H1 & _ & H3).
  split; [exact H1|]. rewrite H3. reflexivity.
Defined.

(** X11.  With a model in memory [predict] asks the model and nothing
    else: the world is as before when the model answers, and one line
    longer in the log when it raises. *)
Theorem predict_with_model_in_memory :
  forall o cfg t w,
    is_model_available (holder w) = true ->
    exists m,
      _model (holder w) = Some m
      /\ match run o m t with
         | Ok p => predict o cfg t w = (Ok (interpret p), w)
         | Raise e =>
             predict o cfg t w
             = (Raise (RuntimeError ("Gagal melakukan prediksi: " ++ exn_str e)),
                emit (Log "error" ("Prediction error: " ++ exn_str e)) w)
         end.
Proof.
  intros o cfg t w Ha.
  destruct (proj1 (available_loaded _) Ha) as [m Hm].
  exists m. split; [now rewrite Hm|].
  unfold predict. rewrite (load_model_cached o cfg None None w m Hm).
  destruct (run o m t); reflexivity.
Qed.

Lemma predict_with_model_in_memory_witness :
  exists w,
    w = snd (initialize_model Sample.loads Sample.model_path None
               (Sample.cold [Sample.model_path]))
    /\ predict Sample.offline {| MODEL_PATH := ""; MODEL_DOWNLOAD_URL := None |}
               {| ImageProcessor.pixels_of := Sample.rgba; ImageProcessor.batch := 1 |} w
       = (Ok (interpret 0.875%float), w).
Proof.
  eexists. split; [reflexivity|].
  destruct (predict_with_model_in_memory
              Sample.offline {| MODEL_PATH := ""; MODEL_DOWNLOAD_URL := None |}
              {| ImageProcessor.pixels_of := Sample.rgba; ImageProcessor.batch := 1 |}
              (snd (initialize_model Sample.loads Sample.model_path None
                      (Sample.cold [Sample.model_path]))) eq_refl) as (m & Hm & H).
  injection Hm as <-. exact H.
Defined.

(** X12.  [predict] raises nothing but [RuntimeError]; when it returns,
    the result is the interpretation of what the model answered and the
    model is in memory afterwards. *)
Theorem predict_raises_only_RuntimeError :
  forall o cfg t w,
    match fst (predict o cfg t w) with
    | Ok r =>
        is_model_available (holder (snd (predict o cfg t w))) = true
        /\ exists m p, run o m t = Ok p /\ r = interpret p
    | Raise e => exists msg, e = RuntimeError msg
    end.
Proof.
  intros o cfg t w. unfold predict.
  pose proof (load_model_holder o cfg None None w) as H.
  destruct (load_model o cfg None None w) as [[m|] w1]; cbn [fst snd] in *.
  - destruct (run o m t) as [p|e] eqn:R; cbn [fst snd].
    + split; [|eauto]. apply available_loaded. eauto.
    + eauto.
  - eauto.
Qed.

End Service.

(** ** Start-up *)

Section StartUp.

Import InferenceService Observation.

Ltac refute_in :=
  repeat match goal with
    | H : In _ (_ ++ _)%list |- _ => apply in_app_or in H; destruct H as [H|H]
    | H : In _ (_ :: _) |- _ => destruct H as [H|H]
    | H : In _ [] |- _ => destruct H
    | H : _ = _ :> string |- _ => discriminate H
    end.

(** X13.  At start-up, with nothing in memory yet, [preload_model]
    prints that the model was loaded exactly when the service has it in
    memory afterwards. *)
Theorem preload_model_reports_what_happened :
  forall o config w,
    is_model_available (holder w) = false ->
    (In "Model loaded successfully!" (fst (App.preload_model o config w))
     <-> is_model_available (holder (snd (App.preload_model o config w))) = true).
Proof.
  intros o config w Ha. unfold App.preload_model, exists_.
  cbv zeta. cbv beta.
  destruct (Py.mem (MODEL_PATH config) (files w));
    [|destruct (MODEL_DOWNLOAD_URL config) as [[|c url]|]];
    try match goal with
      | |- context [initialize_model ?o ?p ?u ?w1] =>
          pose proof (initialize_model_holder o p u w1) as Hh;
          destruct (initialize_model o p u w1) as [[m|] w2]
      end;
    cbn [fst snd emit holder] in *.
  all: try (rewrite Hh; split; [reflexivity|]; intros _;
            apply in_or_app; right; now left).
  all: split; intros H; exfalso.
  all: try (refute_in; fail).
  all: try (destruct Hh as [_ [Hh|Hh]]; rewrite Hh in H).
  all: try rewrite Ha in H; discriminate H.
Qed.

Lemma preload_model_reports_what_happened_witness :
  In "Model loaded successfully!"
     (fst (App.preload_model Sample.loads
             {| MODEL_PATH := Sample.model_path; MODEL_DOWNLOAD_URL := None |}
             (Sample.cold [Sample.model_path]))).
Proof.
  apply (preload_model_reports_what_happened
           Sample.loads {| MODEL_PATH := Sample.model_path; MODEL_DOWNLOAD_URL := None |}
           (Sample.cold [Sample.model_path]) eq_refl).
  reflexivity.
Defined.

(** X14.  With no model file and no URL, [preload_model] gives up
    before it calls the service: it has looked for the file once and done
    nothing else, not even written to the log. *)
Theorem preload_model_gives_up_without_source :
  forall o config w,
    Py.mem (MODEL_PATH config) (files w) = false ->
    Py.truthy (MODEL_DOWNLOAD_URL config) = false ->
    snd (App.preload_model o config w) = emit (PathExists (MODEL_PATH config)) w
    /\ last (fst (App.preload_model o config w)) "" = "No download URL configured!".
Proof.
  intros o config w Hf Hu. unfold App.preload_model, exists_. rewrite Hf.
  destruct (MODEL_DOWNLOAD_URL config) as [[|c url]|]; try discriminate;
    split; reflexivity.
Qed.

Lemma preload_model_gives_up_without_source_witness :
  trace (snd (App.preload_model Sample.loads
                {| MODEL_PATH := Sample.model_path; MODEL_DOWNLOAD_URL := Some "" |}
                (Sample.cold [])))
  = [PathExists Sample.model_path].
Proof.
  rewrite (proj1 (preload_model_gives_up_without_source
                    Sample.loads
                    {| MODEL_PATH := Sample.model_path; MODEL_DOWNLOAD_URL := Some "" |}
                    (Sample.cold []) eq_refl eq_refl)).
  reflexivity.
Defined.

End StartUp.

(** ** More on the upload view *)

Section Upload.

Import Dashboard.

Ltac answer400 :=
  right; left; cbn [fst snd]; repeat (split; [reflexivity|]); reflexivity.

Ltac answer500 :=
  right; right; cbn [fst snd]; repeat (split; [reflexivity|]);
  split; [eexists; eexists; reflexivity | left; reflexivity].

(** X15.  The view answers in one of three ways.  200 with success:
    exactly one row was committed, for the current user and at the
    current time.  400: the upload was turned down and nothing at all has
    changed, the model was not consulted.  500: no row, and an error line
    at the end of the log; the folder is as it was then, unless it was the
    commit that raised after the image had been written: that image stays
    on disk with no row that names it. *)
Theorem predict_answers_three_ways :
  forall e u req st,
    let resp := fst (predict e u req st) in
    let st' := snd (predict e u req st) in
    (status resp = 200 /\ success resp = true /\ error resp = None
     /\ exists row,
          session st' = (session st ++ [row])%list
          /\ user_id row = id u /\ created_at row = utcnow e
          /\ db_commit e row = None)
    \/ (status resp = 400 /\ success resp = false /\ result_of resp = None
        /\ st' = st)
    \/ (status resp = 500 /\ success resp = false /\ result_of resp = None
        /\ session st' = session st
        /\ (exists earlier msg, logger st' = (earlier ++ [("error", msg)])%list)
        /\ (uploads st' = uploads st
            \/ exists f row x,
                 uploads st' = (uploads st ++ [f])%list
                 /\ ImageProcessor.stored_path f
                    = path_join (UPLOAD_FOLDER e) (filename row)
                 /\ user_id row = id u
                 /\ db_commit e row = Some x
                 /\ logger st'
                    = (logger st
                       ++ [("error",
                            ("Unexpected error in prediction: " ++ exn_str x)%string)])%list)).
Proof.
  intros e u req st. cbv zeta. unfold predict, predict_body.
  destruct (file req) as [up|]; [|answer400].
  destruct (String.eqb (upload_filename up) ""); [answer400|].
  destruct (ImageProcessor.is_allowed_file _) as [[|]|x] eqn:Ha;
    [|answer400|answer500].
  destruct (ImageProcessor.validate_file_size _ _) as [[|] message];
    cbn [negb]; [|answer400].
  destruct (ImageProcessor.load_image _ _) as [image|x] eqn:Hl;
    [|destruct x; first [answer400 | answer500]].
  destruct (ImageProcessor.preprocess_for_model image) as [t|x] eqn:Hp;
    [|answer500].
  destruct (InferenceService.predict _ _ _ _) as [[result|x] w] eqn:Hi;
    [|destruct x; answer500].
  destruct (allowed_extension _ Ha) as [ext0 [He _]].
  destruct (store_and_record_cases e u _ image result (with_service w st) ext0 He)
    as (st1 & Hses1 & _ & Hdisk & Hc).
  cbv zeta in Hdisk, Hc.
  cbn [with_service uploads logger session] in Hdisk, Hses1.
  match type of Hc with
  | match db_commit e ?r with _ => _ end => remember r as row eqn:Hrow
  end.
  destruct (db_commit e row) as [x|] eqn:Hdb.
  - rewrite Hc. right. right. cbn [fst snd failure status success result_of].
    cbn [log session uploads logger].
    repeat (split; [first [reflexivity | exact Hses1]|]).
    split; [eauto|].
    destruct Hdisk as [(f & _ & Hu & Hpath & Hlog)|(msg & _ & Hu & _)].
    + right. exists f, row, x. rewrite Hlog.
      repeat (split; [first [assumption | now subst row]|]). reflexivity.
    + left. exact Hu.
  - destruct Hc as (st' & Hst & Hses & _).
    rewrite Hst. left. cbn [fst snd status success error].
    repeat (split; [reflexivity|]).
    exists row. split; [exact Hses|].
    subst row. repeat split. cbn [user_id created_at]. exact Hdb.
Qed.

(** A model that answers NaN, on a server whose database refuses the
    row: the image is written first, the commit raises, and the answer is
    500 with the image on disk and no row. *)
Lemma refused_row_leaves_image :
  status (fst (predict Fixture.nan_refused Sample.alice Sample.png_upload Sample.fresh))
  = 500
  /\ session (snd (predict Fixture.nan_refused Sample.alice Sample.png_upload
                           Sample.fresh)) = []
  /\ map ImageProcessor.stored_path
         (uploads (snd (predict Fixture.nan_refused Sample.alice Sample.png_upload
                                Sample.fresh)))
     = ["/srv/uploads/DownSyndrome_20260307_090530_alice.png"].
Proof.
  repeat split; reflexivity.
Qed.

(** The stages before the inference, for an upload that passes them. *)
Lemma predict_body_reaches_model e u req st up image t :
  file req = Some up ->
  upload_filename up <> "" ->
  ImageProcessor.is_allowed_file
    (ImageProcessor.sanitize_filename (upload_filename up)) = Ok true ->
  fst (ImageProcessor.validate_file_size (upload_content up) 10) = true ->
  ImageProcessor.load_image (image_open e) (PIL.Bytes (upload_content up)) = Ok image ->
  ImageProcessor.preprocess_for_model image = Ok t ->
  predict_body e u req st
  = (let (r, w) :=
       InferenceService.predict (model_oracle e) (model_config e) t (service st) in
     let st := with_service w st in
     match r with
     | Raise (RuntimeError m) =>
         (Ok (failure 500 m), log "error" ("Inference error: " ++ m) st)
     | Raise x => (Raise x, st)
     | Ok result =>
         store_and_record e u (ImageProcessor.sanitize_filename (upload_filename up))
                          image result st
     end).
Proof.
  intros Hf Hn Ha Hv Hl Hp. unfold predict_body.
  rewrite Hf. apply String.eqb_neq in Hn. rewrite Hn, Ha.
  destruct (ImageProcessor.validate_file_size _ _) as [v message].
  cbn [fst] in Hv. subst v. cbn [negb].
  now rewrite Hl, Hp.
Qed.

(** X16.  A server without a model file and without a URL answers every
    acceptable upload with 500 and the message that the model is not
    available.  It looks for the file again on each request and finds
    nothing to download or load: no row, no stored image, and the same
    four entries in the record of the service every time. *)
Theorem predict_without_model_answers_500 :
  forall e u req st up image t,
    file req = Some up ->
    upload_filename up <> "" ->
    ImageProcessor.is_allowed_file
      (ImageProcessor.sanitize_filename (upload_filename up)) = Ok true ->
    fst (ImageProcessor.validate_file_size (upload_content up) 10) = true ->
    ImageProcessor.load_image (image_open e) (PIL.Bytes (upload_content up)) = Ok image ->
    ImageProcessor.preprocess_for_model image = Ok t ->
    InferenceService.is_model_available (InferenceService.holder (service st)) = false ->
    Py.mem (InferenceService.MODEL_PATH (model_config e))
           (InferenceService.files (service st)) = false ->
    Py.truthy (InferenceService.MODEL_DOWNLOAD_URL (model_config e)) = false ->
    let st' := snd (predict e u req st) in
    fst (predict e u req st)
    = failure 500 "Model tidak tersedia. Silakan hubungi administrator."
    /\ session st' = session st
    /\ uploads st' = uploads st
    /\ InferenceService.holder (service st') = InferenceService.holder (service st)
    /\ InferenceService.files (service st') = InferenceService.files (service st)
    /\ InferenceService.trace (service st')
       = (InferenceService.trace (service st)
          ++ [InferenceService.Log "warning" "Model was not preloaded, loading now...";
              InferenceService.PathExists (InferenceService.MODEL_PATH (model_config e));
              InferenceService.Log "warning"
                ("Model not found at "
                 ++ InferenceService.MODEL_PATH (model_config e))%string;
              InferenceService.Log "error" "No model download URL configured"])%list.
Proof.
  intros e u req st up image t Hf Hn Ha Hv Hl Hp Hm Hfile Hurl. cbv zeta.
  unfold predict.
  rewrite (predict_body_reaches_model _ _ _ _ _ _ _ Hf Hn Ha Hv Hl Hp).
  unfold InferenceService.predict, InferenceService.load_model,
    InferenceService.initialize_model, InferenceService.exists_.
  cbn [InferenceService.holder InferenceService.emit InferenceService.files].
  rewrite Hm, Hfile, Hurl. cbn [negb fst snd with_service log session uploads service].
  repeat (split; [reflexivity|]).
  cbn [InferenceService.trace InferenceService.emit].
  now rewrite <- !app_assoc.
Qed.

Lemma predict_without_model_answers_500_witness :
  fst (predict (Sample.studio Sample.disk_ok) Sample.alice Sample.png_upload
               Fixture.no_model)
  = failure 500 "Model tidak tersedia. Silakan hubungi administrator."
  /\ session (snd (predict (Sample.studio Sample.disk_ok) Sample.alice Sample.png_upload
                           Fixture.no_model)) = [].
Proof.
  destruct (predict_without_model_answers_500
              (Sample.studio Sample.disk_ok) Sample.alice Sample.png_upload
              Fixture.no_model
              {| upload_filename := "face.png"; upload_content := [] |}
              Sample.opaque_png
              {| ImageProcessor.pixels_of :=
                   PIL.Resized Sample.opaque_png (224, 224) "LANCZOS";
                 ImageProcessor.batch := 1 |}
              eq_refl) as (H1 & H2 & _); try reflexivity.
  - discriminate.
  - split; [exact H1 | exact H2].
Defined.

(** X17.  An upload whose header opens but whose pixel data cannot be
    read is turned down with 400 by [load_image], unless its mode is
    already RGB: then [load_image] does not touch the pixels, the failure
    comes from the resizing, outside any [try] of its own, and the answer
    is the 500 of an internal error.  The model is consulted in neither
    case. *)
Theorem unreadable_upload_answer_depends_on_mode :
  forall e u req st up img0,
    file req = Some up ->
    upload_filename up <> "" ->
    ImageProcessor.is_allowed_file
      (ImageProcessor.sanitize_filename (upload_filename up)) = Ok true ->
    fst (ImageProcessor.validate_file_size (upload_content up) 10) = true ->
    image_open e (PIL.Bytes (upload_content up)) = Ok img0 ->
    PIL.loadable img0 = false ->
    if String.eqb (PIL.mode img0) "RGB" then
      fst (predict e u req st)
      = failure 500 "Terjadi kesalahan internal. Silakan coba lagi."
      /\ service (snd (predict e u req st)) = service st
      /\ session (snd (predict e u req st)) = session st
      /\ logger (snd (predict e u req st))
         = (logger st
            ++ [("error", "Unexpected error in prediction: image file is truncated")])%list
    else
      fst (predict e u req st)
      = failure 400 "Gagal memuat gambar: image file is truncated"
      /\ snd (predict e u req st) = st.
Proof.
  intros e u req st up img0 Hf Hn Ha Hv Ho Hl.
  unfold predict, predict_body.
  rewrite Hf. apply String.eqb_neq in Hn. rewrite Hn, Ha.
  destruct (ImageProcessor.validate_file_size _ _) as [v message].
  cbn [fst] in Hv. subst v. cbn [negb].
  unfold ImageProcessor.load_image. rewrite Ho. cbn [bind].
  destruct (String.eqb (PIL.mode img0) "RGB") eqn:M; cbn [negb].
  - unfold ImageProcessor.preprocess_for_model, PIL.resize. rewrite Hl.
    cbn. repeat split.
  - destruct (String.eqb (PIL.mode img0) "RGBA") eqn:A.
    + unfold PIL.split. rewrite Hl. cbn. split; reflexivity.
    + unfold PIL.convert. rewrite Hl. cbn. split; reflexivity.
Qed.

Lemma unreadable_upload_answer_depends_on_mode_witness :
  status (fst (predict (Fixture.booth Fixture.truncated_jpeg Sample.loads) Sample.alice
                       Fixture.jpg_upload Sample.fresh)) = 500
  /\ status (fst (predict (Fixture.booth Fixture.truncated_png Sample.loads) Sample.alice
                          Sample.png_upload Sample.fresh)) = 400.
Proof.
  split.
  - pose proof (unreadable_upload_answer_depends_on_mode
                  (Fixture.booth Fixture.truncated_jpeg Sample.loads) Sample.alice
                  Fixture.jpg_upload Sample.fresh
                  {| upload_filename := "IMG_0042.JPG"; upload_content := [] |}
                  Fixture.truncated_jpeg eq_refl) as H.
    cbn [String.eqb PIL.mode Fixture.truncated_jpeg] in H.
    rewrite (proj1 (H ltac:(discriminate) eq_refl eq_refl eq_refl eq_refl)).
    reflexivity.
  - pose proof (unreadable_upload_answer_depends_on_mode
                  (Fixture.booth Fixture.truncated_png Sample.loads) Sample.alice
                  Sample.png_upload Sample.fresh
                  {| upload_filename := "face.png"; upload_content := [] |}
                  Fixture.truncated_png eq_refl) as H.
    rewrite (proj1 (H ltac:(discriminate) eq_refl eq_refl eq_refl eq_refl)).
    reflexivity.
Defined.


Lemma startswith_empty s : Py.startswith s "" = true.
Proof. destruct s; reflexivity. Qed.

Lemma startswith_app a b : Py.startswith (a ++ b) a = true.
Proof.
  induction a as [|c a IH]; [apply startswith_empty|].
  cbn. now rewrite Ascii.eqb_refl.
Qed.

Lemma path_join_relative a b :
  Py.startswith b "/" = false ->
  Py.startswith (path_join a b) a = true.
Proof.
  intros H. unfold path_join. rewrite H.
  destruct (String.eqb a "" || endswith_slash a); apply startswith_app.
Qed.

Lemma stored_name_relative p timestamp username ext :
  Py.startswith
    (stored_name (Py.replace (InferenceService.class (InferenceService.interpret p)) " " "")
                 timestamp username ext) "/" = false.
Proof.
  unfold stored_name.
  destruct (label_without_spaces p) as [-> | ->]; reflexivity.
Qed.

(** X18.  The image of a successful upload is written, if at all, at
    the upload folder joined with the name in the row; the name begins
    with the label, so it is never an absolute path that would make
    [os.path.join] drop the folder. *)
Theorem stored_image_path_is_folder_and_row_name :
  forall e u req st,
    success (fst (predict e u req st)) = true ->
    exists row,
      session (snd (predict e u req st)) = (session st ++ [row])%list
      /\ Py.startswith (filename row) "/" = false
      /\ Py.startswith (path_join (UPLOAD_FOLDER e) (filename row)) (UPLOAD_FOLDER e) = true
      /\ (uploads (snd (predict e u req st)) = uploads st
          \/ exists f,
               uploads (snd (predict e u req st)) = (uploads st ++ [f])%list
               /\ ImageProcessor.stored_path f
                  = path_join (UPLOAD_FOLDER e) (filename row)).
Proof.
  intros e u req st Hs.
  destruct (predict e u req st) as [resp st'] eqn:Hp. cbn [fst snd] in *.
  destruct (predict_success_stages _ _ _ _ _ _ Hp Hs)
    as (up & image & t & result & w & Hf & Ha & _ & _ & Hi & Hst).
  destruct (allowed_extension _ Ha) as [ext0 [He _]].
  destruct (store_and_record_ok e u _ image result (with_service w st) ext0 _ _ He Hst)
    as (_ & _ & Hses & _ & Hdisk).
  destruct (predict_interprets _ _ _ _ _ _ Hi) as [p ->].
  eexists. split; [exact Hses|].
  cbn [filename].
  split; [apply stored_name_relative|].
  split; [apply path_join_relative, stored_name_relative|].
  destruct Hdisk as [(f & Hu & Hpath & _)|(Hu & _)].
  - right. exists f. split; [exact Hu | exact Hpath].
  - left. exact Hu.
Qed.

Lemma stored_image_path_is_folder_and_row_name_witness :
  exists row,
    session (snd (predict (Sample.studio Sample.disk_ok) Sample.alice
                          Sample.png_upload Sample.fresh)) = [row]
    /\ exists f,
         uploads (snd (predict (Sample.studio Sample.disk_ok) Sample.alice
                               Sample.png_upload Sample.fresh)) = [f]
         /\ ImageProcessor.stored_path f = path_join "/srv/uploads" (filename row).
Proof.
  destruct (stored_image_path_is_folder_and_row_name
              (Sample.studio Sample.disk_ok) Sample.alice Sample.png_upload Sample.fresh
              eq_refl) as (row & Hs & _ & _ & [Hu|(f & Hu & Hp)]).
  - discriminate Hu.
  - exists row. split; [exact Hs|]. exists f. split; [exact Hu | exact Hp].
Defined.

Lemma confidence_in_range p :
  Binary64.unit_interval p ->
  (0.5 <=? InferenceService.confidence (InferenceService.interpret p))%float = true
  /\ (InferenceService.confidence (InferenceService.interpret p) <=? 1)%float = true.
Proof.
  intros U. unfold InferenceService.interpret.
  destruct (0.5 <? p)%float eqn:T; cbn [InferenceService.confidence].
  - destruct (above_half p U T) as (_ & Hlo & _). split; [exact Hlo | exact (proj2 U)].
  - destruct (at_most_half p U T) as (_ & Hlo & Hhi & _). split; assumption.
Qed.

Lemma predict_result_from_run o cfg t w r w' :
  InferenceService.predict o cfg t w = (Ok r, w') ->
  exists m p, InferenceService.run o m t = Ok p /\ r = InferenceService.interpret p.
Proof.
  unfold InferenceService.predict.
  destruct (InferenceService.load_model o cfg None None w) as [[m|] w1];
    [|discriminate].
  destruct (InferenceService.run o m t) as [p|x] eqn:R; [|discriminate].
  intros [= <- _]. eauto.
Qed.

(** X19.  When the model answers with numbers between 0 and 1, the
    confidence written to the table lies between one half and one, and
    the label written is one of the two. *)
Theorem recorded_confidence_in_range :
  forall e u req st,
    (forall m t p, InferenceService.run (model_oracle e) m t = Ok p ->
                   Binary64.unit_interval p) ->
    success (fst (predict e u req st)) = true ->
    exists row,
      session (snd (predict e u req st)) = (session st ++ [row])%list
      /\ (0.5 <=? confidence row)%float = true
      /\ (confidence row <=? 1)%float = true
      /\ (result_class row = "Normal" \/ result_class row = "Down Syndrome").
Proof.
  intros e u req st Hrun Hs.
  destruct (predict e u req st) as [resp st'] eqn:Hp. cbn [fst snd] in *.
  destruct (predict_success_stages _ _ _ _ _ _ Hp Hs)
    as (up & image & t & result & w & Hf & Ha & _ & _ & Hi & Hst).
  destruct (allowed_extension _ Ha) as [ext0 [He _]].
  destruct (store_and_record_ok e u _ image result (with_service w st) ext0 _ _ He Hst)
    as (_ & _ & Hses & _).
  destruct (predict_result_from_run _ _ _ _ _ _ Hi) as (m & p & Hr & ->).
  eexists. split; [exact Hses|].
  cbn [confidence result_class].
  destruct (confidence_in_range p (Hrun _ _ _ Hr)) as [Hlo Hhi].
  split; [exact Hlo|]. split; [exact Hhi|]. apply interpret_class.
Qed.

Lemma recorded_confidence_in_range_witness :
  exists row,
    session (snd (predict (Sample.studio Sample.disk_ok) Sample.alice
                          Sample.png_upload Sample.fresh)) = [row]
    /\ (0.5 <=? confidence row)%float = true
    /\ (confidence row <=? 1)%float = true.
Proof.
  destruct (recorded_confidence_in_range
              (Sample.studio Sample.disk_ok) Sample.alice Sample.png_upload Sample.fresh)
    as (row & Hs & Hlo & Hhi & _).
  - intros m t p [= <-]. split; reflexivity.
  - reflexivity.
  - exists row. split; [exact Hs|]. split; [exact Hlo | exact Hhi].
Defined.

(** X20.  The stored name is made of the label, the second on the
    clock, the user and the extension, and of nothing else: two uploads
    of one user accepted within the same second, with the same label and
    the same extension, get the same name, and so the same path. *)
Theorem same_second_uploads_share_a_name :
  forall e u req1 req2 st1 st2,
    success (fst (predict e u req1 st1)) = true ->
    success (fst (predict e u req2 st2)) = true ->
    exists row1 row2,
      session (snd (predict e u req1 st1)) = (session st1 ++ [row1])%list
      /\ session (snd (predict e u req2 st2)) = (session st2 ++ [row2])%list
      /\ (result_class row1 = result_class row2 ->
          ImageProcessor.get_extension (original_filename row1)
          = ImageProcessor.get_extension (original_filename row2) ->
          filename row1 = filename row2).
Proof.
  intros e u req1 req2 st1 st2 Hs1 Hs2.
  destruct (predict e u req1 st1) as [resp1 st1'] eqn:Hp1.
  destruct (predict e u req2 st2) as [resp2 st2'] eqn:Hp2.
  cbn [fst snd] in *.
  destruct (predict_success_stages _ _ _ _ _ _ Hp1 Hs1)
    as (up1 & image1 & t1 & result1 & w1 & _ & Ha1 & _ & _ & _ & Hst1).
  destruct (predict_success_stages _ _ _ _ _ _ Hp2 Hs2)
    as (up2 & image2 & t2 & result2 & w2 & _ & Ha2 & _ & _ & _ & Hst2).
  destruct (allowed_extension _ Ha1) as [ext1 [He1 _]].
  destruct (allowed_extension _ Ha2) as [ext2 [He2 _]].
  destruct (store_and_record_ok e u _ image1 result1 (with_service w1 st1) ext1 _ _
              He1 Hst1) as (_ & _ & Hses1 & _).
  destruct (store_and_record_ok e u _ image2 result2 (with_service w2 st2) ext2 _ _
              He2 Hst2) as (_ & _ & Hses2 & _).
  eexists. eexists. split; [exact Hses1|]. split; [exact Hses2|].
  cbn [result_class original_filename filename].
  intros Hc Hx. rewrite He1, He2 in Hx. injection Hx as ->. now rewrite Hc.
Qed.

Lemma same_second_uploads_share_a_name_witness :
  exists row1 row2,
    session (snd (predict (Sample.studio Sample.disk_ok) Sample.alice Sample.png_upload
                    (snd (predict (Sample.studio Sample.disk_ok) Sample.alice
                                  Sample.png_upload Sample.fresh))))
    = [row1; row2]
    /\ filename row1 = filename row2.
Proof.
  destruct (same_second_uploads_share_a_name
              (Sample.studio Sample.disk_ok) Sample.alice Sample.png_upload
              Sample.png_upload Sample.fresh
              (snd (predict (Sample.studio Sample.disk_ok) Sample.alice
                            Sample.png_upload Sample.fresh))
              eq_refl eq_refl) as (row1 & row2 & H1 & H2 & H).
  injection H1 as <-. injection H2 as <-.
  eexists. eexists. split; [reflexivity|]. apply H; reflexivity.
Defined.

End Upload.

(** ** The records views *)

Section RecordsViews.

Import Records.


















(** X24.  [download_selected] changes nothing.  The archive it sends
    has one entry for each row with a selected key whose image exists,
    under the name in the row; rows without an image on disk are passed
    over in silence, so the archive can be empty. *)
Theorem download_selected_reads_only :
  forall e prediction_ids st,
    snd (download_selected e prediction_ids st) = st
    /\ match fst (download_selected e prediction_ids st) with
       | SendZip download_name entries =>
           download_name
           = "brightstart_images_" ++ Dashboard.strftime (utcnow e) ++ ".zip"
           /\ forall file_path arcname,
                In (file_path, arcname) entries <->
                exists r,
                  In r (table st)
                  /\ existsb (Nat.eqb (pk r)) prediction_ids = true
                  /\ arcname = Dashboard.filename (prediction r)
                  /\ file_path = Dashboard.path_join (UPLOAD_FOLDER e) arcname
                  /\ Py.mem file_path (folder st) = true
       | JsonError code _ =>
           (code = 400 /\ prediction_ids = [])
           \/ (code = 404 /\ with_ids prediction_ids st = [])
       | _ => False
       end.
Proof.
  intros e ids st. unfold download_selected.
  destruct ids as [|i ids]; [split; [reflexivity | left; split; reflexivity]|].
  destruct (with_ids (i :: ids) st) as [|r0 rs] eqn:W.
  { split; [reflexivity|]. right. split; reflexivity. }
  rewrite <- W. cbn [fst snd]. split; [reflexivity|]. split; [reflexivity|].
  intros file_path arcname. unfold archive. rewrite in_flat_map. split.
  - intros (r & Hr & Hin). unfold with_ids in Hr. apply filter_In in Hr.
    destruct Hr as [Ht Hk].
    destruct (Py.mem _ (folder st)) eqn:M; [|destruct Hin].
    destruct Hin as [[= <- <-]|[]]. exists r. repeat split; assumption.
  - intros (r & Ht & Hk & -> & -> & M). exists r. split.
    + unfold with_ids. apply filter_In. auto.
    + rewrite M. now left.
Qed.

Lemma download_selected_reads_only_witness :
  fst (download_selected Fixture.office [1] Fixture.one_record)
  = SendZip "brightstart_images_20260307_090530.zip"
            [("/srv/uploads/Normal_20260307_090530_alice.png",
              "Normal_20260307_090530_alice.png")]
  /\ snd (download_selected Fixture.office [1] Fixture.one_record) = Fixture.one_record.
Proof.
  split; [reflexivity|].
  exact (proj1 (download_selected_reads_only Fixture.office [1] Fixture.one_record)).
Defined.

End RecordsViews.

(** ** From the upload to the records *)

Section RoundTrip.

Lemma number_app next l p :
  Records.number next (l ++ [p])%list
  = (Records.number next l
     ++ [{| Records.pk := next + List.length l; Records.prediction := p |}])%list.
Proof.
  revert next. induction l as [|q l IH]; intros next.
  - cbn. now rewrite Nat.add_0_r.
  - cbn [app Records.number List.length]. rewrite IH.
    now rewrite Nat.add_succ_r.
Qed.

Lemma number_pk next l r :
  In r (Records.number next l) -> next <= Records.pk r < next + List.length l.
Proof.
  revert next. induction l as [|q l IH]; intros next; [intros []|].
  cbn [Records.number In List.length]. intros [<-|H].
  - cbn. lia.
  - apply IH in H. lia.
Qed.


Lemma filter_new_row l p :
  filter (fun r => existsb (Nat.eqb (Records.pk r)) [S (List.length l)])
         (Records.number 1 (l ++ [p])%list)
  = [{| Records.pk := S (List.length l); Records.prediction := p |}].
Proof.
  rewrite number_app. cbn [Nat.add].
  assert (H : forall r, In r (Records.number 1 l) ->
                        Nat.eqb (Records.pk r) (S (List.length l)) = false).
  { intros r Hr. apply number_pk in Hr. apply Nat.eqb_neq. lia. }
  induction (Records.number 1 l) as [|x t IH].
  - cbn. now rewrite Nat.eqb_refl.
  - cbn [app filter existsb]. rewrite (H x (or_introl eq_refl)). cbn [orb].
    apply IH. intros r Hr. apply H. now right.
Qed.


Lemma mem_app x l l' : Py.mem x (l ++ l')%list = Py.mem x l || Py.mem x l'.
Proof. unfold Py.mem. apply existsb_app. Qed.

(** What the upload view leaves, as the records views see it. *)
Lemma upload_leaves e u req st :
  Dashboard.success (fst (Dashboard.predict e u req st)) = true ->
  exists row,
    Dashboard.session (snd (Dashboard.predict e u req st))
    = (Dashboard.session st ++ [row])%list
    /\ Dashboard.filename row <> ""
    /\ (Dashboard.uploads (snd (Dashboard.predict e u req st)) = Dashboard.uploads st
        \/ exists f,
             Dashboard.uploads (snd (Dashboard.predict e u req st))
             = (Dashboard.uploads st ++ [f])%list
             /\ ImageProcessor.stored_path f
                = Dashboard.path_join (Dashboard.UPLOAD_FOLDER e) (Dashboard.filename row)).
Proof.
  intros Hs.
  destruct (Dashboard.predict e u req st) as [resp st'] eqn:Hp. cbn [fst snd] in *.
  destruct (predict_success_stages _ _ _ _ _ _ Hp Hs)
    as (up & image & t & result & w & Hf & Ha & _ & _ & Hi & Hst).
  destruct (allowed_extension _ Ha) as [ext0 [He _]].
  destruct (store_and_record_ok e u _ image result (Dashboard.with_service w st) ext0 _ _
              He Hst) as (_ & _ & Hses & _ & Hdisk).
  destruct (predict_interprets _ _ _ _ _ _ Hi) as [p ->].
  eexists. split; [exact Hses|]. split.
  - cbn [Dashboard.filename]. unfold Dashboard.stored_name.
    destruct (label_without_spaces p) as [-> | ->]; discriminate.
  - destruct Hdisk as [(f & Hu & Hpath & _)|(Hu & _)].
    + right. exists f. split; [exact Hu | exact Hpath].
    + left. exact Hu.
Qed.

(** X25.  An image that the upload view has written is found by the
    records views: the new row has the next key, and selecting that key
    for download gives an archive with exactly that image, under the name
    in the row. *)
Theorem uploaded_image_can_be_downloaded :
  forall e u req st re,
    Records.UPLOAD_FOLDER re = Dashboard.UPLOAD_FOLDER e ->
    Dashboard.success (fst (Dashboard.predict e u req st)) = true ->
    Dashboard.uploads (snd (Dashboard.predict e u req st)) <> Dashboard.uploads st ->
    exists row,
      Dashboard.session (snd (Dashboard.predict e u req st))
      = (Dashboard.session st ++ [row])%list
      /\ Records.download_selected
           re [S (List.length (Dashboard.session st))]
           (Records.after_uploads (snd (Dashboard.predict e u req st)))
         = (Records.SendZip
              ("brightstart_images_" ++ Dashboard.strftime (Records.utcnow re) ++ ".zip")
              [(Dashboard.path_join (Dashboard.UPLOAD_FOLDER e) (Dashboard.filename row),
                Dashboard.filename row)],
            Records.after_uploads (snd (Dashboard.predict e u req st))).
Proof.
  intros e u req st re Hfolder Hs Hw.
  destruct (upload_leaves e u req st Hs) as (row & Hses & _ & Hdisk).
  destruct Hdisk as [Hu|(f & Hu & Hpath)]; [contradiction|].
  exists row. split; [exact Hses|].
  unfold Records.download_selected, Records.with_ids, Records.after_uploads.
  cbn [Records.table]. rewrite Hses, filter_new_row.
  unfold Records.archive. cbn [flat_map Records.prediction Records.folder].
  rewrite Hfolder, Hu, map_app, mem_app. cbn [map]. rewrite Hpath.
  unfold Py.mem at 2. cbn [existsb]. rewrite String.eqb_refl, orb_true_r.
  reflexivity.
Qed.

Lemma uploaded_image_can_be_downloaded_witness :
  exists row,
    Dashboard.session (snd (Dashboard.predict (Sample.studio Sample.disk_ok) Sample.alice
                                              Sample.png_upload Sample.fresh))
    = ([] ++ [row])%list
    /\ Records.download_selected Fixture.office [1] Fixture.one_record
       = (Records.SendZip
            "brightstart_images_20260307_090530.zip"
            [(Dashboard.path_join "/srv/uploads" (Dashboard.filename row),
              Dashboard.filename row)],
          Fixture.one_record).
Proof.
  apply (uploaded_image_can_be_downloaded
           (Sample.studio Sample.disk_ok) Sample.alice Sample.png_upload Sample.fresh
           Fixture.office eq_refl eq_refl).
  discriminate.
Defined.



End RoundTrip.

(** ** The interpreter outside the unit interval *)

Section NotANumber.

Import InferenceService.

Lemma SFcompare_refl s m e : SFcompare (S754_finite s m e) (S754_finite s m e) = Some Eq.
Proof.
  destruct s; cbn [SFcompare]; rewrite Z.compare_refl;
    fold (Pos.compare m m); rewrite Pos.compare_refl; reflexivity.
Qed.

Lemma is_nan_repr p : PrimFloat.is_nan p = true -> Prim2SF p = S754_nan.
Proof.
  unfold PrimFloat.is_nan. rewrite eqb_spec.
  destruct (Prim2SF p) as [s|s| |s m e]; try (destruct s; discriminate);
    [reflexivity|].
  unfold SFeqb. rewrite SFcompare_refl. discriminate.
Qed.

(** X27.  The comparison with one half is false for a NaN, so a model
    that answers NaN is read as Down Syndrome, with a confidence that is
    NaN as well: nothing in the interpreter checks the range. *)
Theorem interpret_nan_is_down_syndrome :
  forall p,
    PrimFloat.is_nan p = true ->
    class (interpret p) = "Down Syndrome"
    /\ PrimFloat.is_nan (confidence (interpret p)) = true
    /\ (0.5 <=? confidence (interpret p))%float = false.
Proof.
  intros p H. apply is_nan_repr in H.
  assert (L : (0.5 <? p)%float = false).
  { rewrite ltb_spec, H. reflexivity. }
  assert (S : Prim2SF (1 - p)%float = S754_nan).
  { rewrite sub_spec, H. reflexivity. }
  unfold interpret. rewrite L. cbn [class confidence].
  split; [reflexivity|]. split.
  - unfold PrimFloat.is_nan. rewrite eqb_spec, S. reflexivity.
  - rewrite leb_spec, S. reflexivity.
Qed.

Lemma interpret_nan_is_down_syndrome_witness :
  class (interpret PrimFloat.nan) = "Down Syndrome"
  /\ PrimFloat.is_nan (confidence (interpret PrimFloat.nan)) = true
  /\ (0.5 <=? confidence (interpret PrimFloat.nan))%float = false.
Proof.
  exact (interpret_nan_is_down_syndrome PrimFloat.nan eq_refl).
Defined.

End NotANumber.
